(** * apkReforge: the rebuild / align / sign / install pipeline

    A shallow embedding of [src/apkReforge.py] (class [APKReforge]) and the
    properties of its orchestration logic.

    The Python methods are translated one by one into a small monad that
    threads the operating-system state (the "world": file system, installed
    tools, attached devices), the one mutable attribute of the object
    ([self.temp_dir]) and a chronological trace of everything observable the
    method does: lines printed, log records, child processes spawned (with
    the timeout they were given and their outcome), the allocation of the
    working directory and its removal.

    The behaviour of the operating system and of the external tools is not
    part of the program: it is an arbitrary oracle, the record [OS].  Text is
    modelled by [string], read as a sequence of code points below 256. *)

From Stdlib Require Import String Ascii List ZArith NArith Bool Lia DecimalString.
Import ListNotations.
Open Scope string_scope.

(** ** Python string primitives used by the program *)

Module Py.

Definition chr (n : nat) : string := String (ascii_of_nat n) EmptyString.

Definition NL : string := chr 10.
Definition TAB : string := chr 9.
Definition ESC : string := chr 27.
Definition DQUOTE : ascii := ascii_of_nat 34.

(** [bool(s)] for a string: non-empty. *)
Definition truthy (s : string) : bool :=
  match s with EmptyString => false | String _ _ => true end.

(** [bool(x)] for an [Optional[str]]. *)
Definition truthy_opt (o : option string) : bool :=
  match o with Some s => truthy s | None => false end.

(** [needle in hay]. *)
Fixpoint contains (needle hay : string) : bool :=
  prefix needle hay ||
  match hay with
  | EmptyString => false
  | String _ hay' => contains needle hay'
  end.

(** [sep.join(parts)]. *)
Definition join (sep : string) (parts : list string) : string :=
  String.concat sep parts.

(** [c * n] for a one-character string. *)
Fixpoint repeat_str (s : string) (n : nat) : string :=
  match n with O => EmptyString | S n' => s ++ repeat_str s n' end.

(** [str.isspace] on one code point below 256, which is also what [\s]
    matches in a [str] pattern. *)
Definition isspace (c : ascii) : bool :=
  let n := N_of_ascii c in
  ((9 <=? n) && (n <=? 13) || (28 <=? n) && (n <=? 32)
   || (n =? 133) || (n =? 160))%N.

(** What [\d] matches below code point 256. *)
Definition isdigit (c : ascii) : bool :=
  let n := N_of_ascii c in ((48 <=? n) && (n <=? 57))%N.

(** The line boundaries of [str.splitlines] below code point 256. *)
Definition islinebreak (c : ascii) : bool :=
  let n := N_of_ascii c in
  ((10 <=? n) && (n <=? 13) || (28 <=? n) && (n <=? 30) || (n =? 133))%N.

Definition is_cr (c : ascii) : bool := (N_of_ascii c =? 13)%N.
Definition is_lf (c : ascii) : bool := (N_of_ascii c =? 10)%N.
Definition is_tab (c : ascii) : bool := (N_of_ascii c =? 9)%N.
Definition is_slash (c : ascii) : bool := (N_of_ascii c =? 47)%N.

Fixpoint lstrip (s : string) : string :=
  match s with
  | EmptyString => EmptyString
  | String c s' => if isspace c then lstrip s' else s
  end.

Fixpoint rstrip (s : string) : string :=
  match s with
  | EmptyString => EmptyString
  | String c s' =>
      match rstrip s' with
      | EmptyString => if isspace c then EmptyString else String c EmptyString
      | r => String c r
      end
  end.

(** [s.strip()]. *)
Definition strip (s : string) : string := rstrip (lstrip s).

(** [s.splitlines()]: a carriage return followed by a line feed is one
    boundary; no empty last line after a final boundary. *)
Fixpoint splitlines (s : string) : list string :=
  match s with
  | EmptyString => []
  | String c s' =>
      if islinebreak c then
        EmptyString ::
          (if is_cr c then
             match s' with
             | String c2 s'' => if is_lf c2 then splitlines s'' else splitlines s'
             | EmptyString => splitlines s'
             end
           else splitlines s')
      else
        match splitlines s' with
        | [] => [String c EmptyString]
        | l :: ls => String c l :: ls
        end
  end.

(** [s.split('\t')[0]]: the text before the first tab. *)
Fixpoint split_tab_head (s : string) : string :=
  match s with
  | EmptyString => EmptyString
  | String c s' => if is_tab c then EmptyString else String c (split_tab_head s')
  end.

(** [xs[1:]]. *)
Definition from1 {A} (xs : list A) : list A := tl xs.

(** [str(n)] for an integer. *)
Definition str_of_int (z : Z) : string := NilZero.string_of_int (Z.to_int z).

(** The value of a non-empty string of ASCII digits (of any length). *)
Definition digit_val (c : ascii) : N := (N_of_ascii c - 48)%N.
Definition int_of_digits (s : string) : N :=
  fold_left (fun acc c => (10 * acc + digit_val c)%N) (list_ascii_of_string s) 0%N.

(** [int(s)] for a non-empty string of ASCII digits under the limit
    [max_str_digits] on the number of digits: [None] when it raises
    [ValueError] (more digits than a limit that is not 0). *)
Definition int (max_str_digits : N) (s : string) : option N :=
  if ((0 <? max_str_digits) && (max_str_digits <? N.of_nat (String.length s)))%N
  then None
  else Some (int_of_digits s).

(** *** [os.path] (POSIX flavour) *)

Fixpoint ends_with_slash (s : string) : bool :=
  match s with
  | EmptyString => false
  | String c EmptyString => is_slash c
  | String _ s' => ends_with_slash s'
  end.

Definition starts_with_slash (s : string) : bool :=
  match s with String c _ => is_slash c | EmptyString => false end.

Definition join2 (path b : string) : string :=
  if starts_with_slash b then b
  else if negb (truthy path) || ends_with_slash path then path ++ b
  else path ++ "/" ++ b.

(** [os.path.join(a, *p)]. *)
Definition path_join (a : string) (p : list string) : string :=
  fold_left join2 p a.

(** [os.path.basename(p)]: the text after the last slash. *)
Fixpoint basename (p : string) : string :=
  match p with
  | EmptyString => EmptyString
  | String c p' =>
      if contains "/" p then basename p' else p
  end.

End Py.

(** ** The regular expression of [detect_high_sdk]

    [re.search(r'targetSdkVersion\s*=\s*"(\d+)"', content)]: the leftmost
    position where the literal, optional white space, an equals sign,
    optional white space and a quoted non-empty run of digits match.  The
    pattern needs no backtracking: white space is never [=] or a quote, and a
    digit is never a quote.  The result is group 1. *)

Module Re.

Fixpoint strip_prefix (p s : string) : option string :=
  match p, s with
  | EmptyString, _ => Some s
  | String a p', String b s' =>
      if Ascii.eqb a b then strip_prefix p' s' else None
  | String _ _, EmptyString => None
  end.

Fixpoint skip_spaces (s : string) : string :=
  match s with
  | String c s' => if Py.isspace c then skip_spaces s' else s
  | EmptyString => EmptyString
  end.

Definition expect (c : ascii) (s : string) : option string :=
  match s with
  | String b s' => if Ascii.eqb c b then Some s' else None
  | EmptyString => None
  end.

(** The longest run of digits at the head of [s], and the rest. *)
Fixpoint take_digits (s : string) : string * string :=
  match s with
  | String c s' =>
      if Py.isdigit c then
        let (d, r) := take_digits s' in (String c d, r)
      else (EmptyString, s)
  | EmptyString => (EmptyString, EmptyString)
  end.

Definition match_here (s : string) : option string :=
  match strip_prefix "targetSdkVersion" s with
  | None => None
  | Some s1 =>
      match expect "=" (skip_spaces s1) with
      | None => None
      | Some s2 =>
          match expect Py.DQUOTE (skip_spaces s2) with
          | None => None
          | Some s3 =>
              let (d, s4) := take_digits s3 in
              if Py.truthy d then
                match expect Py.DQUOTE s4 with
                | Some _ => Some d
                | None => None
                end
              else None
          end
      end
  end.

Fixpoint search (s : string) : option string :=
  match match_here s with
  | Some d => Some d
  | None =>
      match s with
      | EmptyString => None
      | String _ s' => search s'
      end
  end.

End Re.

(** ** The operating system and the external tools: an oracle *)

(** What [subprocess.run] does: the child exits and a [CompletedProcess] is
    returned, the bound given as [timeout] expires, or another exception is
    raised (the executable cannot be launched, the output cannot be decoded
    as text, ...). *)
Inductive ProcOutcome : Type :=
| Completed (returncode : Z) (stdout stderr : string)
| TimeoutExpired (str_te : string)
| OtherException (str_e : string).

Record OS : Type := {
  World : Type;
  (** [shutil.which(tool)] *)
  shutil_which : string -> World -> option string;
  (** [os.path.exists(path)] *)
  os_path_exists : string -> World -> bool;
  (** [os.path.abspath(path)] of an absolute path, which is what
      [process_apk] is given by [main]: it does not consult the current
      directory and does not raise (for a raw argument see [Host]) *)
  os_path_abspath : string -> World -> string;
  (** [open(path, 'r').read()], [None] when it raises *)
  read_text : string -> World -> option string;
  (** [subprocess.run(cmd, ..., timeout=t)] *)
  subprocess_run : list string -> option Z -> World -> ProcOutcome * World;
  (** [tempfile.mkdtemp(prefix=p)]: the new directory, or the exception *)
  tempfile_mkdtemp : string -> World -> (string + string) * World;
  (** [shutil.rmtree(path)]: [Some e] when it raises [e] *)
  shutil_rmtree : string -> World -> option string * World;
  (** [os.path.expanduser("~")] *)
  expanduser_home : string;
  (** [tempfile.gettempdir()] *)
  tempfile_gettempdir : string;
  (** [sys.get_int_max_str_digits()]: 0 when [int] has no limit (an
      interpreter without the limit, or the limit switched off), 4300 by
      default otherwise; never between 1 and 639 *)
  int_max_str_digits : N
}.

(** ** Observable events *)

Inductive Level : Type := DEBUG | INFO | WARNING | ERROR.

Inductive Event : Type :=
| Print (line : string)
| Log (lvl : Level) (msg : string)
| Spawn (cmd : list string) (timeout : option Z) (out : ProcOutcome)
| Mkdtemp (pfx : string) (res : string + string)
| Rmtree (path : string) (err : option string).

(** ** The monad of the methods: state, trace and exceptions *)

Inductive Result (A : Type) : Type :=
| Return (a : A)
| Raise (str_e : string).
Arguments Return {A} a.
Arguments Raise {A} str_e.

Record St (W : Type) : Type := mkSt {
  world : W;
  (** [self.temp_dir] *)
  temp_dir : option string
}.
Arguments mkSt {W} world temp_dir.
Arguments world {W} s.
Arguments temp_dir {W} s.

Record Exec (W A : Type) : Type := mkExec {
  result : Result A;
  trace : list Event;
  final : St W
}.
Arguments mkExec {W A} result trace final.
Arguments result {W A} e.
Arguments trace {W A} e.
Arguments final {W A} e.

Definition M (W A : Type) : Type := St W -> Exec W A.

Definition ret {W A} (a : A) : M W A := fun st => mkExec (Return a) [] st.

Definition raise {W A} (e : string) : M W A := fun st => mkExec (Raise e) [] st.

Definition bind {W A B} (m : M W A) (k : A -> M W B) : M W B :=
  fun st =>
    let r := m st in
    match result r with
    | Return a =>
        let r' := k a (final r) in
        mkExec (result r') (trace r ++ trace r') (final r')
    | Raise e => mkExec (Raise e) (trace r) (final r)
    end.

(** [try: m  except Exception as e: h e]. *)
Definition try_except {W A} (m : M W A) (h : string -> M W A) : M W A :=
  fun st =>
    let r := m st in
    match result r with
    | Return a => r
    | Raise e =>
        let r' := h e (final r) in
        mkExec (result r') (trace r ++ trace r') (final r')
    end.

(** [try: m  finally: fin]: [fin] runs whatever [m] did; if [fin] raises,
    its exception replaces the outcome of [m]. *)
Definition try_finally {W A} (m : M W A) (fin : M W unit) : M W A :=
  fun st =>
    let r := m st in
    let c := fin (final r) in
    mkExec
      match result c with
      | Return _ => result r
      | Raise e => Raise e
      end
      (trace r ++ trace c) (final c).

Definition emit {W} (e : Event) : M W unit := fun st => mkExec (Return tt) [e] st.

Definition when {W} (b : bool) (m : M W unit) : M W unit :=
  if b then m else ret tt.

Declare Scope py_scope.
Delimit Scope py_scope with py.
Notation "x <- m ;; k" := (bind m (fun x => k))
  (at level 61, m at next level, right associativity) : py_scope.
Notation "m ;; k" := (bind m (fun _ => k))
  (at level 61, right associativity) : py_scope.

(** ** The class [APKReforge] *)

Module Colors.
Definition HEADER : string := Py.ESC ++ "[95m".
Definition BLUE : string := Py.ESC ++ "[94m".
Definition CYAN : string := Py.ESC ++ "[96m".
Definition GREEN : string := Py.ESC ++ "[92m".
Definition YELLOW : string := Py.ESC ++ "[93m".
Definition RED : string := Py.ESC ++ "[91m".
Definition BOLD : string := Py.ESC ++ "[1m".
Definition RESET : string := Py.ESC ++ "[0m".
End Colors.
Import Colors.

Definition __version__ : string := "1.1.2".

(** The attributes of the object that never change after [__init__]. *)
Record Self : Type := mkSelf {
  verbose : bool;
  android_debug_keystore : string
}.

(** The timeout of [run_command], in seconds. *)
Definition RUN_COMMAND_TIMEOUT : Z := 120.

(** The threshold of [detect_high_sdk]. *)
Definition HIGH_SDK : N := 34.

Definition tools : list string :=
  ["apktool"; "zipalign"; "apksigner"; "adb"; "keytool"].

(** [d[k] = v] on a dictionary kept in insertion order. *)
Fixpoint dict_set (k : string) (v : bool) (d : list (string * bool))
  : list (string * bool) :=
  match d with
  | [] => [(k, v)]
  | (k', v') :: d' =>
      if String.eqb k k' then (k, v) :: d' else (k', v') :: dict_set k v d'
  end.

(** [[t for t, v in deps.items() if not v]]. *)
Definition missing_of (deps : list (string * bool)) : list string :=
  map fst (filter (fun kv => negb (snd kv)) deps).

Section APKReforge.

Variable os : OS.
Variable self : Self.

#[local] Abbreviation W := (World os).
Local Open Scope py_scope.

(** *** Primitive effects *)

Definition which (tool : string) : M W (option string) :=
  fun st => mkExec (Return (shutil_which os tool (world st))) [] st.

Definition path_exists (p : string) : M W bool :=
  fun st => mkExec (Return (os_path_exists os p (world st))) [] st.

Definition abspath (p : string) : M W string :=
  fun st => mkExec (Return (os_path_abspath os p (world st))) [] st.

Definition open_read (p : string) : M W (option string) :=
  fun st => mkExec (Return (read_text os p (world st))) [] st.

Definition subprocess (cmd : list string) (timeout : option Z) : M W ProcOutcome :=
  fun st =>
    let r := subprocess_run os cmd timeout (world st) in
    mkExec (Return (fst r)) [Spawn cmd timeout (fst r)]
      (mkSt (snd r) (temp_dir st)).

Definition mkdtemp (pfx : string) : M W string :=
  fun st =>
    let r := tempfile_mkdtemp os pfx (world st) in
    mkExec
      match fst r with inl d => Return d | inr e => Raise e end
      [Mkdtemp pfx (fst r)]
      (mkSt (snd r) (temp_dir st)).

(** [shutil.rmtree] inside the [try] of [cleanup]: the exception, if any,
    is handed to the handler as a value. *)
Definition rmtree (p : string) : M W (option string) :=
  fun st =>
    let r := shutil_rmtree os p (world st) in
    mkExec (Return (fst r)) [Rmtree p (fst r)] (mkSt (snd r) (temp_dir st)).

Definition set_temp_dir (d : string) : M W unit :=
  fun st => mkExec (Return tt) [] (mkSt (world st) (Some d)).

Definition get_temp_dir : M W (option string) :=
  fun st => mkExec (Return (temp_dir st)) [] st.

Definition print (line : string) : M W unit := emit (Print line).

(** [setup_logging]: the root logger lets a record through from [DEBUG]
    up when verbose, from [INFO] up otherwise. *)
Definition enabled (lvl : Level) : bool :=
  match lvl with DEBUG => verbose self | _ => true end.

Definition log (lvl : Level) (msg : string) : M W unit :=
  when (enabled lvl) (emit (Log lvl msg)).

(** *** [check_dependencies] *)

Fixpoint check_dependencies_loop (ts : list string) (deps : list (string * bool))
  : M W (list (string * bool)) :=
  match ts with
  | [] => ret deps
  | tool :: ts' =>
      path <- which tool ;;
      (if Py.truthy_opt path then
         let p := match path with Some p => p | None => EmptyString end in
         when (verbose self)
           (log DEBUG (tool ++ " found at " ++ p) ;;
            when (negb (Py.contains "/usr/bin/" p))
              (log WARNING (YELLOW ++ tool ++ " is not in /usr/bin/: " ++ p ++ RESET))) ;;
         check_dependencies_loop ts' (dict_set tool true deps)
       else
         log ERROR (RED ++ "Missing tool: " ++ tool ++ RESET) ;;
         check_dependencies_loop ts' (dict_set tool false deps))
  end.

Definition check_dependencies : M W (list (string * bool)) :=
  check_dependencies_loop tools [].

(** *** [run_command] *)

Definition run_command (cmd : list string) (error_msg : string) : M W bool :=
  log DEBUG ("$ " ++ Py.join " " cmd) ;;
  o <- subprocess cmd (Some RUN_COMMAND_TIMEOUT) ;;
  match o with
  | Completed returncode stdout stderr =>
      when (verbose self)
        (when (Py.truthy stdout) (log DEBUG ("STDOUT:" ++ Py.NL ++ stdout)) ;;
         when (Py.truthy stderr) (log DEBUG ("STDERR:" ++ Py.NL ++ stderr))) ;;
      if negb (returncode =? 0)%Z then
        log ERROR (RED ++ error_msg ++ " (code " ++ Py.str_of_int returncode ++ ")" ++ RESET) ;;
        when (Py.truthy stderr) (log ERROR (Py.strip stderr)) ;;
        ret false
      else ret true
  | TimeoutExpired te =>
      log ERROR (RED ++ "Timeout exceeded: " ++ te ++ RESET) ;;
      ret false
  | OtherException e =>
      log ERROR (RED ++ "Unexpected error: " ++ e ++ RESET) ;;
      ret false
  end.

(** *** [detect_high_sdk] *)

Definition detect_high_sdk (input_dir : string) : M W bool :=
  let manifest := Py.path_join input_dir ["AndroidManifest.xml"] in
  ex <- path_exists manifest ;;
  if negb ex then ret false
  else
    content <- open_read manifest ;;
    match content with
    | None => ret false
    | Some content =>
        match Re.search content with
        | Some group1 =>
            match Py.int (int_max_str_digits os) group1 with
            | Some n => ret (HIGH_SDK <=? n)%N
            | None => ret false
            end
        | None => ret false
        end
    end.

(** *** [rebuild_apk] *)

Definition rebuild_cmd (high : bool) (input_dir output_apk : string) : list string :=
  filter Py.truthy
    ["apktool"; "b"; "-o"; output_apk;
     if high then "--use-aapt2" else EmptyString;
     input_dir].

Definition rebuild_cmd_fallback (input_dir output_apk : string) : list string :=
  ["apktool"; "b"; input_dir; "-o"; output_apk].

Definition rebuild_apk (input_dir output_apk : string) : M W bool :=
  log INFO (Py.NL ++ BOLD ++ BLUE ++ "[+] PHASE 1: Rebuilding APK" ++ RESET) ;;
  ex <- path_exists (Py.path_join input_dir ["AndroidManifest.xml"]) ;;
  if negb ex then
    log ERROR (RED ++ "Directory does not contain AndroidManifest.xml" ++ RESET) ;;
    ret false
  else
    high <- detect_high_sdk input_dir ;;
    ok <- run_command (rebuild_cmd high input_dir output_apk) "Error in apktool" ;;
    if negb ok then
      log WARNING (YELLOW ++ "Trying without AAPT2..." ++ RESET) ;;
      run_command (rebuild_cmd_fallback input_dir output_apk) "Error in rebuild"
    else
      log INFO (GREEN ++ "Rebuilded APK: " ++ Py.basename output_apk ++ RESET) ;;
      ret true.

(** *** [align_apk] *)

Definition align_cmd (input_apk output_apk : string) : list string :=
  ["zipalign"; "-v"; "4"; input_apk; output_apk].

Definition align_check_cmd (output_apk : string) : list string :=
  ["zipalign"; "-c"; "4"; output_apk].

Definition align_apk (input_apk output_apk : string) : M W bool :=
  log INFO (Py.NL ++ BOLD ++ BLUE ++ "[+] PHASE 2: Aligning APK" ++ RESET) ;;
  ok <- run_command (align_cmd input_apk output_apk) "Error in zipalign" ;;
  if negb ok then ret false
  else
    log INFO (CYAN ++ "Checking alignment..." ++ RESET) ;;
    ok2 <- run_command (align_check_cmd output_apk) "Incorrect alignment" ;;
    if ok2 then
      log INFO (GREEN ++ "Alignment verified correctly" ++ RESET) ;;
      ret true
    else ret false.

(** *** [get_keystore] *)

Definition temp_keystore_path : string :=
  Py.path_join (tempfile_gettempdir os) ["apkreforge.keystore"].

Definition keytool_cmd (keystore_path : string) : list string :=
  ["keytool"; "-genkey"; "-v";
   "-keystore"; keystore_path;
   "-alias"; "androiddebugkey";
   "-keyalg"; "RSA";
   "-keysize"; "2048";
   "-validity"; "10000";
   "-storepass"; "android";
   "-keypass"; "android";
   "-dname"; "CN=Android Debug,O=Android,C=US"].

Definition get_keystore : M W (option string) :=
  ex <- path_exists (android_debug_keystore self) ;;
  if ex then ret (Some (android_debug_keystore self))
  else
    log INFO (YELLOW ++ "Creating temporary keystore..." ++ RESET) ;;
    let keystore_path := temp_keystore_path in
    ok <- run_command (keytool_cmd keystore_path) "Error creating keystore" ;;
    if ok then ret (Some keystore_path)
    else
      log ERROR (RED ++ "Could not create keystore" ++ RESET) ;;
      ret None.

(** *** [sign_apk] *)

Definition sign_cmd (keystore_path output_apk input_apk : string) : list string :=
  ["apksigner"; "sign";
   "--ks"; keystore_path;
   "--ks-pass"; "pass:android";
   "--ks-key-alias"; "androiddebugkey";
   "--key-pass"; "pass:android";
   "--out"; output_apk;
   input_apk].

Definition verify_cmd (output_apk : string) : list string :=
  ["apksigner"; "verify"; output_apk].

(** [keystore_path or self.get_keystore()]. *)
Definition keystore_or_default (keystore_path : option string)
  : M W (option string) :=
  if Py.truthy_opt keystore_path then ret keystore_path else get_keystore.

Definition sign_apk (input_apk output_apk : string) (keystore_path : option string)
  : M W bool :=
  log INFO (Py.NL ++ BOLD ++ BLUE ++ "[+] PHASE 3: Signing APK" ++ RESET) ;;
  keystore_path <- keystore_or_default keystore_path ;;
  if negb (Py.truthy_opt keystore_path) then ret false
  else
    let ks := match keystore_path with Some p => p | None => EmptyString end in
    log INFO (CYAN ++ "Using keystore: " ++ Py.basename ks ++ RESET) ;;
    ok <- run_command (sign_cmd ks output_apk input_apk) "Error in signature" ;;
    if negb ok then ret false
    else
      log INFO (CYAN ++ "Verifying signature..." ++ RESET) ;;
      ok2 <- run_command (verify_cmd output_apk) "Failed signature verification" ;;
      if ok2 then
        log INFO (GREEN ++ "Signature verified correctly" ++ RESET) ;;
        ret true
      else ret false.

(** *** [install_apk] *)

Definition adb_devices_cmd : list string := ["adb"; "devices"].

Definition install_cmd (device apk_path : string) : list string :=
  ["adb"; "-s"; device; "install"; "-r"; apk_path].

(** [[d.split('\t')[0] for d in devices[1:] if '\tdevice' in d]]. *)
Definition active_devices_of (devices : list string) : list string :=
  map Py.split_tab_head
    (filter (Py.contains (Py.TAB ++ "device")) (Py.from1 devices)).

Fixpoint install_loop (devices : list string) (apk_path : string) (success : bool)
  : M W bool :=
  match devices with
  | [] => ret success
  | device :: rest =>
      log INFO (CYAN ++ "Installing in " ++ device ++ "..." ++ RESET) ;;
      ok <- run_command (install_cmd device apk_path) ("Error installing in " ++ device) ;;
      install_loop rest apk_path (if negb ok then false else success)
  end.

Definition install_apk (apk_path : string) : M W bool :=
  log INFO (Py.NL ++ BOLD ++ BLUE ++ "[+] PHASE 4: Installing APK" ++ RESET) ;;
  log INFO (CYAN ++ "Searching for devices..." ++ RESET) ;;
  o <- subprocess adb_devices_cmd None ;;
  match o with
  | TimeoutExpired e | OtherException e => raise e
  | Completed _ stdout _ =>
      let devices := Py.splitlines stdout in
      let active_devices := active_devices_of devices in
      match active_devices with
      | [] =>
          log ERROR (RED ++ "No connected devices found" ++ RESET) ;;
          ret false
      | _ =>
          log INFO (GREEN ++ "Devices detected: " ++ Py.join ", " active_devices ++ RESET) ;;
          install_loop active_devices apk_path true
      end
  end.

(** *** [cleanup] *)

Definition cleanup : M W unit :=
  td <- get_temp_dir ;;
  if Py.truthy_opt td then
    let d := match td with Some d => d | None => EmptyString end in
    ex <- path_exists d ;;
    if ex then
      err <- rmtree d ;;
      match err with
      | None => log DEBUG ("Temporary directory deleted: " ++ d)
      | Some e => log ERROR ("Error clearing temporary: " ++ e)
      end
    else ret tt
  else ret tt.

(** *** [process_apk] *)

(** [for error_msg, step in steps: if not step(): ...; return False],
    followed by the rest of the [try] block. *)
Fixpoint run_steps (steps : list (string * M W bool)) (rest : M W bool) : M W bool :=
  match steps with
  | [] => rest
  | (error_msg, step) :: steps' =>
      ok <- step ;;
      if negb ok then
        log ERROR (RED ++ error_msg ++ RESET) ;;
        ret false
      else run_steps steps' rest
  end.

Definition banner : M W unit :=
  print (Py.NL ++ BOLD ++ HEADER ++ Py.repeat_str "=" 50 ++ RESET) ;;
  print (BOLD ++ RED ++ "Lautaro Villarreal Culic' - https://lautarovculic.com" ++ RESET) ;;
  print (BOLD ++ RED ++ "RUNNING apkReforge v" ++ __version__ ++ RESET) ;;
  print (Py.NL ++ BOLD ++ HEADER ++ Py.repeat_str "=" 50 ++ RESET).

(** The list [steps] of the [try] block, given the working directory. *)
Definition steps (d input_dir output_apk : string) (keystore : option string)
  : list (string * M W bool) :=
  let rebuilt_apk := Py.path_join d ["unsigned.apk"] in
  let aligned_apk := Py.path_join d ["aligned.apk"] in
  [("Failed rebuild", rebuild_apk input_dir rebuilt_apk);
   ("Failed alignment", align_apk rebuilt_apk aligned_apk);
   ("Failed signature", sign_apk aligned_apk output_apk keystore)].

(** What follows the loop over [steps] in the [try] block. *)
Definition after_steps (output_apk : string) (install : bool) : M W bool :=
  (* if install and not self.install_apk(output_apk): warning *)
  failed <- (if install then
               ok <- install_apk output_apk ;; ret (negb ok)
             else ret false) ;;
  when failed
    (log WARNING (YELLOW ++ "Installation failed, but APK generated" ++ RESET)) ;;
  log INFO (Py.NL ++ GREEN ++ "[+] PROCESS SUCCESSFULLY COMPLETED!" ++ RESET) ;;
  final_apk <- abspath output_apk ;;
  log INFO (GREEN ++ "Final APK: " ++ final_apk ++ RESET) ;;
  ret true.

(** The body of the [try] block. *)
Definition pipeline (d input_dir output_apk : string) (install : bool)
    (keystore : option string) : M W bool :=
  run_steps (steps d input_dir output_apk keystore)
    (after_steps output_apk install).

(** The [except Exception] handler of [process_apk]
    ([self.logger.exception] logs at level [ERROR]). *)
Definition critical_error (e : string) : M W bool :=
  log ERROR (RED ++ "CRITICAL ERROR: " ++ e ++ RESET) ;;
  ret false.

(** The [try ... except] of [process_apk], without the [finally]. *)
Definition try_block (d input_dir output_apk : string) (install : bool)
    (keystore : option string) : M W bool :=
  try_except (pipeline d input_dir output_apk install keystore) critical_error.

Definition process_apk (input_dir output_apk : string) (install : bool)
    (keystore : option string) : M W bool :=
  banner ;;
  log INFO (BOLD ++ CYAN ++ "> INPUT: " ++ input_dir ++ RESET) ;;
  log INFO (BOLD ++ CYAN ++ "< OUTPUT: " ++ output_apk ++ RESET) ;;
  deps <- check_dependencies ;;
  let missing := missing_of deps in
  match missing with
  | _ :: _ =>
      log ERROR (RED ++ "[!!!] Missing dependencies: " ++ Py.join ", " missing ++ RESET) ;;
      ret false
  | [] =>
      d <- mkdtemp "apkreforge_" ;;
      set_temp_dir d ;;
      log DEBUG ("Temporary directory: " ++ d) ;;
      try_finally (try_block d input_dir output_apk install keystore) cleanup
  end.

End APKReforge.

(** [APKReforge(verbose)]: the object after [__init__], with
    [get_android_debug_keystore_path]. *)
Definition get_android_debug_keystore_path (os : OS) : string :=
  Py.path_join (expanduser_home os) [".android"; "debug.keystore"].

Definition APKReforge (os : OS) (verbose : bool) : Self :=
  mkSelf verbose (get_android_debug_keystore_path os).

(** The state of a fresh object in world [w]: [self.temp_dir = None]. *)
Definition init {W} (w : W) : St W := mkSt w None.

(** ** Reading a trace *)

(** The child processes of a trace, in order. *)
Definition spawn_of (e : Event) : option (list string * option Z * ProcOutcome) :=
  match e with Spawn cmd t o => Some (cmd, t, o) | _ => None end.

Fixpoint spawns (tr : list Event) : list (list string * option Z * ProcOutcome) :=
  match tr with
  | [] => []
  | e :: tr' =>
      match spawn_of e with
      | Some x => x :: spawns tr'
      | None => spawns tr'
      end
  end.

(** The commands spawned, without timeout and outcome. *)
Definition commands (tr : list Event) : list (list string) :=
  map (fun x => fst (fst x)) (spawns tr).

(** The working directories allocated (or the failed attempts). *)
Fixpoint mkdtemps (tr : list Event) : list (string + string) :=
  match tr with
  | [] => []
  | Mkdtemp _ r :: tr' => r :: mkdtemps tr'
  | _ :: tr' => mkdtemps tr'
  end.

(** The recursive removals performed. *)
Fixpoint rmtrees (tr : list Event) : list (string * option string) :=
  match tr with
  | [] => []
  | Rmtree p e :: tr' => (p, e) :: rmtrees tr'
  | _ :: tr' => rmtrees tr'
  end.

(** The log records. *)
Fixpoint logs (tr : list Event) : list (Level * string) :=
  match tr with
  | [] => []
  | Log l m :: tr' => (l, m) :: logs tr'
  | _ :: tr' => logs tr'
  end.

(** A child process that exited with status zero. *)
Definition exit_zero (o : ProcOutcome) : bool :=
  match o with
  | Completed rc _ _ => (rc =? 0)%Z
  | _ => false
  end.

(** The outcome of [run_command cmd] in world [w], as the oracle gives it. *)
Definition outcome_of (os : OS) (cmd : list string) (w : World os) : ProcOutcome :=
  fst (subprocess_run os cmd (Some RUN_COMMAND_TIMEOUT) w).

(** The world after [run_command cmd] in world [w]. *)
Definition after (os : OS) (cmd : list string) (w : World os) : World os :=
  snd (subprocess_run os cmd (Some RUN_COMMAND_TIMEOUT) w).

(** An execution preceded by the events [tr]. *)
Definition prepend {W A} (tr : list Event) (r : Exec W A) : Exec W A :=
  mkExec (result r) (tr ++ trace r) (final r).

(** What [detect_high_sdk] answers in world [w] (it has no effect). *)
Definition is_high_sdk (os : OS) (input_dir : string) (w : World os) : bool :=
  match result (detect_high_sdk os input_dir (init w)) with
  | Return b => b
  | Raise _ => false
  end.

(** The world after the effects of a trace, applied in order to [w]. *)
Definition apply_event (os : OS) (w : World os) (e : Event) : World os :=
  match e with
  | Print _ | Log _ _ => w
  | Spawn cmd t _ => snd (subprocess_run os cmd t w)
  | Mkdtemp pfx _ => snd (tempfile_mkdtemp os pfx w)
  | Rmtree p _ => snd (shutil_rmtree os p w)
  end.

Definition replay (os : OS) (tr : list Event) (w : World os) : World os :=
  fold_left (apply_event os) tr w.

(** The phases that must succeed, in order, given the working directory. *)
Definition mandatory_phases (os : OS) (self : Self)
    (d input_dir output_apk : string) (keystore : option string)
  : M (World os) bool :=
  run_steps os self (steps os self d input_dir output_apk keystore) (ret true).

(** The tool a spawned command runs: its first word. *)
Definition tool_of (x : list string * option Z * ProcOutcome) : string :=
  hd EmptyString (fst (fst x)).

(** A spawned child that exited with status zero. *)
Definition spawn_ok (x : list string * option Z * ProcOutcome) : bool :=
  exit_zero (snd x).

(** A spawned child that was given the timeout of [run_command]. *)
Definition bounded (x : list string * option Z * ProcOutcome) : Prop :=
  snd (fst x) = Some RUN_COMMAND_TIMEOUT.

(** The messages logged at level [ERROR], and those at level [WARNING]. *)
Fixpoint errors (tr : list Event) : list string :=
  match tr with
  | [] => []
  | Log ERROR m :: tr' => m :: errors tr'
  | _ :: tr' => errors tr'
  end.

Fixpoint warnings (tr : list Event) : list string :=
  match tr with
  | [] => []
  | Log WARNING m :: tr' => m :: warnings tr'
  | _ :: tr' => warnings tr'
  end.

(** Events that neither allocate nor remove a directory. *)
Definition no_dir_event (e : Event) : Prop :=
  match e with
  | Mkdtemp _ _ | Rmtree _ _ => False
  | _ => True
  end.

(** Events of [run_command] and of logging: every child is bounded by the
    timeout of [run_command], and no directory is allocated or removed. *)
Definition bounded_event (e : Event) : Prop :=
  match e with
  | Spawn _ t _ => t = Some RUN_COMMAND_TIMEOUT
  | Mkdtemp _ _ | Rmtree _ _ => False
  | _ => True
  end.

(** A computation all of whose events satisfy [P], that leaves
    [self.temp_dir] alone, and whose trace accounts for every change of the
    world. *)
Definition tame (os : OS) (P : Event -> Prop) {A} (m : M (World os) A) : Prop :=
  forall st,
    Forall P (trace (m st))
    /\ world (final (m st)) = replay os (trace (m st)) (world st)
    /\ temp_dir (final (m st)) = temp_dir st.

(** Events that are only output: lines printed and log records. *)
Definition output_event (e : Event) : Prop :=
  match e with
  | Print _ | Log _ _ => True
  | _ => False
  end.

(** Whether [shutil.which] finds tool [t] in world [w] ([if path:]). *)
Definition found_in (os : OS) (w : World os) (t : string) : bool :=
  Py.truthy_opt (shutil_which os t w).

(** The required tools that [shutil.which] does not find in world [w]. *)
Definition missing_in (os : OS) (w : World os) : list string :=
  filter (fun t => negb (found_in os w t)) tools.

(** The error [check_dependencies] logs for each missing tool, and the one
    [process_apk] logs for all of them. *)
Definition missing_msg (t : string) : string :=
  Colors.RED ++ "Missing tool: " ++ t ++ Colors.RESET.

Definition missing_dependencies_msg (missing : list string) : string :=
  Colors.RED ++ "[!!!] Missing dependencies: " ++ Py.join ", " missing ++ Colors.RESET.

(** The state in which the [try] block of [process_apk] starts, when the
    run began in state [st] and [tempfile.mkdtemp] returned [d]. *)
Definition try_state (os : OS) (st : St (World os)) (d : string) : St (World os) :=
  mkSt (snd (tempfile_mkdtemp os "apkreforge_" (world st))) (Some d).

(** The warning of [process_apk] when the install phase returns failure, and
    the error its handler logs for an exception [e]. *)
Definition install_warning : string :=
  Colors.YELLOW ++ "Installation failed, but APK generated" ++ Colors.RESET.

Definition critical_error_msg (e : string) : string :=
  Colors.RED ++ "CRITICAL ERROR: " ++ e ++ Colors.RESET.

(** What [cleanup] logs after [shutil.rmtree] returned or raised. *)
Definition cleanup_log (self : Self) (d : string) (err : option string) : list Event :=
  match err with
  | Some e => [Log ERROR ("Error clearing temporary: " ++ e)]
  | None =>
      if verbose self then [Log DEBUG ("Temporary directory deleted: " ++ d)] else []
  end.


(** The exception a call to [subprocess.run] raises, if any. *)
Definition exception_of (o : ProcOutcome) : option string :=
  match o with
  | Completed _ _ _ => None
  | TimeoutExpired e | OtherException e => Some e
  end.

(** The same operating system with another [shutil.rmtree]. *)
Definition with_rmtree (os : OS)
    (rm : string -> World os -> option string * World os) : OS :=
  {| World := World os;
     shutil_which := shutil_which os;
     os_path_exists := os_path_exists os;
     os_path_abspath := os_path_abspath os;
     read_text := read_text os;
     subprocess_run := subprocess_run os;
     tempfile_mkdtemp := tempfile_mkdtemp os;
     shutil_rmtree := rm;
     expanduser_home := expanduser_home os;
     tempfile_gettempdir := tempfile_gettempdir os;
     int_max_str_digits := int_max_str_digits os |}.

(** The output of [adb devices] for a list of targets [(id, state)]: a
    header line, one line [id<TAB>state] per target, and an empty line. *)
Definition adb_devices_line (target : string * string) : string :=
  fst target ++ Py.TAB ++ snd target.

Fixpoint adb_devices_lines (targets : list (string * string)) : string :=
  match targets with
  | [] => EmptyString
  | t :: ts => adb_devices_line t ++ Py.NL ++ adb_devices_lines ts
  end.

Definition adb_devices_stdout (targets : list (string * string)) : string :=
  "List of devices attached" ++ Py.NL ++ adb_devices_lines targets ++ Py.NL.

(** Whether every character of [s] satisfies [p]. *)
Fixpoint all_chars (p : ascii -> bool) (s : string) : bool :=
  match s with
  | EmptyString => true
  | String c s' => p c && all_chars p s'
  end.

(** Text without a line boundary and without a tab. *)
Definition plain_text (s : string) : bool :=
  all_chars (fun c => negb (Py.islinebreak c)) s
  && all_chars (fun c => negb (Py.is_tab c)) s.

(** A target whose identifier and state are such text, so that its line is
    read back as the same identifier and state. *)
Definition well_formed_target (t : string * string) : bool :=
  plain_text (fst t) && plain_text (snd t).

(** The targets whose reported state begins with "device". *)
Definition eligible_devices (targets : list (string * string)) : list string :=
  map fst (filter (fun t => prefix "device" (snd t)) targets).

(** ** A small concrete operating system

    Used to run the program on explicit inputs.  The file system is a list of
    paths with their text; the tools do what their documentation says in the
    simplest way: the rebuild, align and sign tools write their output file,
    the key generator refuses to add an alias to a keystore that exists, and
    a tool fails (status 1) on the commands the configuration names. *)

Module Sim.

Definition FS : Type := list (string * string).

Definition exists_ (p : string) (fs : FS) : bool :=
  existsb (fun kv => String.eqb p (fst kv)) fs.

Fixpoint lookup (p : string) (fs : FS) : option string :=
  match fs with
  | [] => None
  | (k, v) :: fs' => if String.eqb p k then Some v else lookup p fs'
  end.

Definition write (p content : string) (fs : FS) : FS :=
  (p, content) :: filter (fun kv => negb (String.eqb p (fst kv))) fs.

Definition remove_tree (d : string) (fs : FS) : FS :=
  filter (fun kv => negb (String.eqb d (fst kv) || prefix (d ++ "/") (fst kv))) fs.

(** The argument that follows [flag] on a command line. *)
Fixpoint arg_after (flag : string) (cmd : list string) : string :=
  match cmd with
  | a :: cmd' =>
      if String.eqb a flag then hd EmptyString cmd' else arg_after flag cmd'
  | [] => EmptyString
  end.

Record Config : Type := {
  missing_tools : list string;
  failing : list string -> bool;
  adb_devices : ProcOutcome;
  rmtree_error : option string
}.

Definition hd_is (tool : string) (cmd : list string) : bool :=
  String.eqb (hd EmptyString cmd) tool.

Definition fail : ProcOutcome := Completed 1 EmptyString "failed".
Definition ok : ProcOutcome := Completed 0 EmptyString EmptyString.

Definition run (cfg : Config) (cmd : list string) (t : option Z) (fs : FS)
  : ProcOutcome * FS :=
  if existsb (String.eqb (hd EmptyString cmd)) (missing_tools cfg) then
    (OtherException "[Errno 2] No such file or directory", fs)
  else if hd_is "adb" cmd && String.eqb (nth 1 cmd EmptyString) "devices" then
    (adb_devices cfg, fs)
  else if failing cfg cmd then (fail, fs)
  else if hd_is "apktool" cmd then (ok, write (arg_after "-o" cmd) "unsigned" fs)
  else if hd_is "zipalign" cmd then
    if String.eqb (nth 1 cmd EmptyString) "-v"
    then (ok, write (nth 4 cmd EmptyString) "aligned" fs)
    else (ok, fs)
  else if hd_is "apksigner" cmd then
    if String.eqb (nth 1 cmd EmptyString) "sign"
    then (ok, write (arg_after "--out" cmd) "signed" fs)
    else (ok, fs)
  else if hd_is "keytool" cmd then
    if exists_ (arg_after "-keystore" cmd) fs
    then (Completed 1 EmptyString
            "keytool error: java.lang.Exception: Key pair not generated, alias <androiddebugkey> already exists",
          fs)
    else (ok, write (arg_after "-keystore" cmd) "keystore" fs)
  else (ok, fs).

Definition os (cfg : Config) : OS :=
  {| World := FS;
     shutil_which := fun tool _ =>
       if existsb (String.eqb tool) (missing_tools cfg) then None
       else Some ("/usr/bin/" ++ tool);
     os_path_exists := exists_;
     os_path_abspath := fun p _ => p;
     read_text := lookup;
     subprocess_run := run cfg;
     tempfile_mkdtemp := fun pfx fs =>
       let d := "/tmp/" ++ pfx ++ "k3v9_q1x" in
       (inl d, write d EmptyString fs);
     shutil_rmtree := fun d fs =>
       match rmtree_error cfg with
       | Some e => (Some e, fs)
       | None => (None, remove_tree d fs)
       end;
     expanduser_home := "/home/dev";
     tempfile_gettempdir := "/tmp";
     int_max_str_digits := 4300 |}.

(** A decompiled package whose manifest declares a target version. *)
Definition manifest (target : string) : string :=
  "<manifest><uses-sdk android:targetSdkVersion=" ++ String Py.DQUOTE target
    ++ String Py.DQUOTE " /></manifest>".

Definition project (target : string) : FS :=
  [("/work/app", EmptyString);
   ("/work/app/AndroidManifest.xml", manifest target)].

Definition never (_ : list string) : bool := false.
Definition always (_ : list string) : bool := true.

(** Everything installed, every tool succeeds, one device attached. *)
Definition healthy : Config :=
  {| missing_tools := [];
     failing := never;
     adb_devices := Completed 0 (adb_devices_stdout [("emulator-5554", "device")]) EmptyString;
     rmtree_error := None |}.

(** One full run of the tool on a fresh object. *)
Definition run_tool (cfg : Config) (verbose install : bool) (fs : FS)
  : Exec FS bool :=
  process_apk (os cfg) (APKReforge (os cfg) verbose)
    "/work/app" "/work/out/final.apk" install None (init fs).

End Sim.

(** ** Concrete situations, on which the theorems are run *)

Module Witness.

Definition dir : string := "/tmp/apkreforge_k3v9_q1x".
Definition input : string := "/work/app".
Definition output : string := "/work/out/final.apk".

(** Two tools are not installed. *)
Definition two_missing : Sim.Config :=
  {| Sim.missing_tools := ["zipalign"; "adb"];
     Sim.failing := Sim.never;
     Sim.adb_devices := Sim.ok;
     Sim.rmtree_error := None |}.

(** No device is attached. *)
Definition no_device : Sim.Config :=
  {| Sim.missing_tools := [];
     Sim.failing := Sim.never;
     Sim.adb_devices := Completed 0 (adb_devices_stdout []) EmptyString;
     Sim.rmtree_error := None |}.

(** The device bridge cannot be launched, and the working directory
    cannot be removed. *)
Definition broken_bridge : Sim.Config :=
  {| Sim.missing_tools := [];
     Sim.failing := Sim.never;
     Sim.adb_devices := OtherException "[Errno 13] Permission denied: 'adb'";
     Sim.rmtree_error := Some "[Errno 16] Device or resource busy" |}.

(** Three targets, two ready; the installation on the last one fails. *)
Definition three_targets : list (string * string) :=
  [("A", "device"); ("B", "offline"); ("C", "device")].

Definition install_on_C_fails : Sim.Config :=
  {| Sim.missing_tools := [];
     Sim.failing := fun cmd => String.eqb (nth 2 cmd EmptyString) "C";
     Sim.adb_devices := Completed 0 (adb_devices_stdout three_targets) EmptyString;
     Sim.rmtree_error := None |}.

(** The signature verification fails. *)
Definition verification_fails : Sim.Config :=
  {| Sim.missing_tools := [];
     Sim.failing := fun cmd =>
       Sim.hd_is "apksigner" cmd && String.eqb (nth 1 cmd EmptyString) "verify";
     Sim.adb_devices := Sim.ok;
     Sim.rmtree_error := None |}.

End Witness.

(** Events of a run: every child is bounded by the timeout of
    [run_command], except the device enumeration, which has none. *)
Definition timed_event (e : Event) : Prop :=
  match e with
  | Spawn cmd t _ =>
      t = Some RUN_COMMAND_TIMEOUT \/ (cmd = adb_devices_cmd /\ t = None)
  | Mkdtemp _ _ | Rmtree _ _ => False
  | _ => True
  end.

(** ** The rest of the file: [_check_zipalign_fallback] and [main] *)

(** *** [os.path.dirname] (POSIX flavour) *)

Module PyPath.

(** [p[:p.rfind('/') + 1]]: the text up to and including the last slash. *)
Fixpoint head_of (p : string) : string :=
  match p with
  | EmptyString => EmptyString
  | String c p' => if Py.contains "/" p then String c (head_of p') else EmptyString
  end.

(** [head.rstrip('/')]. *)
Fixpoint rstrip_slash (s : string) : string :=
  match s with
  | EmptyString => EmptyString
  | String c s' =>
      match rstrip_slash s' with
      | EmptyString => if Py.is_slash c then EmptyString else String c EmptyString
      | r => String c r
      end
  end.

(** [os.path.dirname(p)]: the head, without its trailing slashes unless it
    consists of slashes only. *)
Definition dirname (p : string) : string :=
  let head := head_of p in
  if Py.truthy head && negb (all_chars Py.is_slash head)
  then rstrip_slash head
  else head.

End PyPath.

(** The timeout of [_check_zipalign_fallback], in seconds. *)
Definition ZIPALIGN_PROBE_TIMEOUT : Z := 3.

(** [_check_zipalign_fallback]: run [zipalign] without arguments and look
    for its usage text; any exception gives [False]. *)
Definition _check_zipalign_fallback (os : OS) : M (World os) bool :=
  bind (subprocess os ["zipalign"] (Some ZIPALIGN_PROBE_TIMEOUT))
    (fun o =>
       match o with
       | Completed _ stdout stderr =>
           ret (Py.contains "Usage:" stderr || Py.contains "alignment" stdout)
       | TimeoutExpired _ | OtherException _ => ret false
       end).

(** What [main] needs of the operating system beside what the class
    needs. *)
Record Host : Type := {
  base : OS;
  (** [os.path.isdir(path)] *)
  os_path_isdir : string -> World base -> bool;
  (** [os.makedirs(path, exist_ok=True)]: [Some e] when it raises [e] *)
  os_makedirs : string -> World base -> option string * World base;
  (** [os.path.abspath(path)] of a raw argument: the absolute path, or the
      exception ([os.getcwd()] raises for a relative path when the working
      directory of the process has been removed) *)
  os_path_abspath_arg : string -> World base -> string + string
}.

(** The namespace [parser.parse_args()] returns. *)
Record Args : Type := {
  args_input : string;
  args_output : string;
  args_install : bool;
  args_keystore : option string;
  args_verbose : bool
}.

(** [os.path.isdir], which has no effect. *)
Definition isdir (h : Host) (p : string) : M (World (base h)) bool :=
  fun st => mkExec (Return (os_path_isdir h p (world st))) [] st.

(** [os.makedirs(path, exist_ok=True)], whose exception is not caught. *)
Definition makedirs (h : Host) (p : string) : M (World (base h)) unit :=
  fun st =>
    let r := os_makedirs h p (world st) in
    mkExec
      match fst r with None => Return tt | Some e => Raise e end
      [] (mkSt (snd r) (temp_dir st)).

(** [os.path.abspath] of a raw argument, whose exception is not caught. *)
Definition abspath_arg (h : Host) (p : string) : M (World (base h)) string :=
  fun st =>
    mkExec
      match os_path_abspath_arg h p (world st) with
      | inl a => Return a
      | inr e => Raise e
      end
      [] st.

(** [APKReforge.__init__]: [self.temp_dir = None]. *)
Definition new_object (os : OS) : M (World os) unit :=
  fun st => mkExec (Return tt) [] (mkSt (world st) None).

(** [os.path.dirname(args.output) or '.']. *)
Definition output_dir_of (output : string) : string :=
  let dn := PyPath.dirname output in
  if Py.truthy dn then dn else ".".

Definition directory_not_found_msg (input : string) : string :=
  Colors.RED ++ "ERROR: Directory not found: " ++ input ++ Colors.RESET.

(** [main], from the parsed arguments on: the exit status. *)
Definition main (h : Host) (args : Args) : M (World (base h)) Z :=
  let os := base h in
  bind (isdir h (args_input args)) (fun is_dir =>
  if negb is_dir then
    bind (print os (directory_not_found_msg (args_input args))) (fun _ => ret 1%Z)
  else
    bind (makedirs h (output_dir_of (args_output args))) (fun _ =>
    bind (new_object os) (fun _ =>
    let reforger := APKReforge os (args_verbose args) in
    bind (abspath_arg h (args_input args)) (fun input_dir =>
    bind (abspath_arg h (args_output args)) (fun output_apk =>
    bind (process_apk os reforger input_dir output_apk (args_install args)
            (args_keystore args)) (fun success =>
    ret (if success then 0%Z else 1%Z))))))).

(** The same operating system with another [tempfile.mkdtemp]. *)
Definition with_mkdtemp (os : OS)
    (mk : string -> World os -> (string + string) * World os) : OS :=
  {| World := World os;
     shutil_which := shutil_which os;
     os_path_exists := os_path_exists os;
     os_path_abspath := os_path_abspath os;
     read_text := read_text os;
     subprocess_run := subprocess_run os;
     tempfile_mkdtemp := mk;
     shutil_rmtree := shutil_rmtree os;
     expanduser_home := expanduser_home os;
     tempfile_gettempdir := tempfile_gettempdir os;
     int_max_str_digits := int_max_str_digits os |}.

(** The concrete operating system as a host, for a process whose working
    directory is [/work]: a directory is a path with no text, [makedirs]
    adds the directory when it is not there, and [abspath] (used on
    normalized paths only) puts the working directory before a relative
    path. *)
Definition sim_host (cfg : Sim.Config) : Host :=
  {| base := Sim.os cfg;
     os_path_isdir := fun p fs =>
       match Sim.lookup p fs with
       | Some EmptyString => true
       | _ => false
       end;
     os_makedirs := fun p fs =>
       if Sim.exists_ p fs then (None, fs) else (None, Sim.write p EmptyString fs);
     os_path_abspath_arg := fun p _ =>
       if prefix "/" p then inl p else inl ("/work/" ++ p) |}.

(** A concrete operating system whose disk is full. *)
Definition disk_full : OS :=
  with_mkdtemp (Sim.os Sim.healthy)
    (fun _ fs => (inr "[Errno 28] No space left on device", fs)).

(** The text the pattern of [detect_high_sdk] matches:
    [targetSdkVersion\s*=\s*"(\d+)"], with the two runs of white space and
    the digits of the group. *)
Definition sdk_attribute (ws1 ws2 digits : string) : string :=
  "targetSdkVersion" ++ ws1 ++ "=" ++ ws2
  ++ String Py.DQUOTE (digits ++ String Py.DQUOTE EmptyString).

(** Events other than the log records of level [DEBUG] and [WARNING]. *)
Definition essential (e : Event) : bool :=
  match e with
  | Log DEBUG _ | Log WARNING _ => false
  | _ => true
  end.

(** Two computations that return the same, end in the same state and have
    the same essential events. *)
Definition agree {W A} (m1 m2 : M W A) : Prop :=
  forall st,
    result (m1 st) = result (m2 st)
    /\ final (m1 st) = final (m2 st)
    /\ filter essential (trace (m1 st)) = filter essential (trace (m2 st)).

(** A computation that returns [None], keeps the state and has no essential
    event. *)
Definition hush {W} (m : M W unit) : Prop :=
  forall st,
    result (m st) = Return tt /\ final (m st) = st
    /\ filter essential (trace (m st)) = [].

(** A concrete operating system whose [adb devices] prints one line only,
    the line of a device. *)
Definition lone_device_line : Sim.Config :=
  {| Sim.missing_tools := [];
     Sim.failing := Sim.never;
     Sim.adb_devices :=
       Completed 0 (adb_devices_line ("emulator-5554", "device")) EmptyString;
     Sim.rmtree_error := None |}.

(** The same operating system with another [subprocess.run]. *)
Definition with_subprocess (os : OS)
    (run : list string -> option Z -> World os -> ProcOutcome * World os) : OS :=
  {| World := World os;
     shutil_which := shutil_which os;
     os_path_exists := os_path_exists os;
     os_path_abspath := os_path_abspath os;
     read_text := read_text os;
     subprocess_run := run;
     tempfile_mkdtemp := tempfile_mkdtemp os;
     shutil_rmtree := shutil_rmtree os;
     expanduser_home := expanduser_home os;
     tempfile_gettempdir := tempfile_gettempdir os;
     int_max_str_digits := int_max_str_digits os |}.

(** A concrete operating system in which the temporary storage is swept
    while the signature is being verified: when that child returns, the
    working directory of the run is gone. *)
Definition swept : OS :=
  with_subprocess (Sim.os Sim.healthy)
    (fun cmd t fs =>
       let r := Sim.run Sim.healthy cmd t fs in
       if Sim.hd_is "apksigner" cmd && String.eqb (nth 1 cmd EmptyString) "verify"
       then (fst r, Sim.remove_tree Witness.dir (snd r))
       else r).

(** The world in which the signing phase of a run starts, when the run gets
    there: the rebuild and align phases have returned success. *)
Definition signing_starts (os : OS) (self : Self) (d input_dir : string)
    (st : St (World os)) : option (World os) :=
  let unsigned := Py.path_join d ["unsigned.apk"] in
  let aligned := Py.path_join d ["aligned.apk"] in
  let r1 := rebuild_apk os self input_dir unsigned (try_state os st d) in
  let r2 := align_apk os self unsigned aligned (final r1) in
  match result r1, result r2 with
  | Return true, Return true => Some (world (final r2))
  | _, _ => None
  end.

(** * Properties *)

(** ** Traces *)

Lemma spawns_app (a b : list Event) : (spawns (a ++ b) = spawns a ++ spawns b)%list.
Proof.
  induction a as [|e a IH]; simpl; auto.
  destruct (spawn_of e); simpl; now rewrite IH.
Qed.

Lemma mkdtemps_app (a b : list Event) : (mkdtemps (a ++ b) = mkdtemps a ++ mkdtemps b)%list.
Proof.
  induction a as [|e a IH]; simpl; auto.
  destruct e; simpl; now rewrite IH.
Qed.

Lemma rmtrees_app (a b : list Event) : (rmtrees (a ++ b) = rmtrees a ++ rmtrees b)%list.
Proof.
  induction a as [|e a IH]; simpl; auto.
  destruct e; simpl; now rewrite IH.
Qed.

Lemma logs_app (a b : list Event) : (logs (a ++ b) = logs a ++ logs b)%list.
Proof.
  induction a as [|e a IH]; simpl; auto.
  destruct e; simpl; now rewrite IH.
Qed.

Lemma commands_app (a b : list Event) : (commands (a ++ b) = commands a ++ commands b)%list.
Proof. unfold commands. now rewrite spawns_app, map_app. Qed.

Create Rewrite HintDb trace.
#[global] Hint Rewrite spawns_app mkdtemps_app rmtrees_app logs_app commands_app
  app_nil_r app_nil_l : trace.

(** ** The monad *)

Lemma exec_eta {W A} (r : Exec W A) : r = mkExec (result r) (trace r) (final r).
Proof. now destruct r. Qed.

Lemma bind_eq {W A B} (m : M W A) (k : A -> M W B) st a tr st' :
  m st = mkExec (Return a) tr st' ->
  bind m k st = prepend tr (k a st').
Proof. intros H. unfold bind, prepend. now rewrite H. Qed.

Lemma bind_raise {W A B} (m : M W A) (k : A -> M W B) st e tr st' :
  m st = mkExec (Raise e) tr st' ->
  bind m k st = mkExec (Raise e) tr st'.
Proof. intros H. unfold bind. now rewrite H. Qed.

Arguments bind_eq {W A B m k st a tr st'} _.
Arguments bind_raise {W A B m k st e tr st'} _.

Lemma bind_ret {W A B} (a : A) (k : A -> M W B) st :
  bind (ret a) k st = prepend [] (k a st).
Proof. reflexivity. Qed.

Lemma bind_emit {W B} e (k : unit -> M W B) st :
  bind (emit e) k st = prepend [e] (k tt st).
Proof. reflexivity. Qed.

Lemma result_prepend {W A} tr (r : Exec W A) : result (prepend tr r) = result r.
Proof. reflexivity. Qed.

Lemma final_prepend {W A} tr (r : Exec W A) : final (prepend tr r) = final r.
Proof. reflexivity. Qed.

Lemma trace_prepend {W A} tr (r : Exec W A) : trace (prepend tr r) = (tr ++ trace r)%list.
Proof. reflexivity. Qed.

Section Primitives.

Variable os : OS.
Variable self : Self.

#[local] Abbreviation W := (World os).

(** The record a [log] call leaves in the trace. *)
Lemma log_eq lvl msg (st : St W) :
  log os self lvl msg st
  = mkExec (Return tt) (if enabled self lvl then [Log lvl msg] else []) st.
Proof. unfold log, when. now destruct (enabled self lvl). Qed.

Lemma bind_log {B} lvl msg (k : unit -> M W B) st :
  bind (log os self lvl msg) k st
  = prepend (if enabled self lvl then [Log lvl msg] else []) (k tt st).
Proof. apply bind_eq, log_eq. Qed.

Lemma bind_path_exists {B} p (k : bool -> M W B) st :
  bind (path_exists os p) k st = prepend [] (k (os_path_exists os p (world st)) st).
Proof. reflexivity. Qed.

Lemma bind_open_read {B} p (k : option string -> M W B) st :
  bind (open_read os p) k st = prepend [] (k (read_text os p (world st)) st).
Proof. reflexivity. Qed.

Lemma bind_which {B} t (k : option string -> M W B) st :
  bind (which os t) k st = prepend [] (k (shutil_which os t (world st)) st).
Proof. reflexivity. Qed.

Lemma bind_abspath {B} p (k : string -> M W B) st :
  bind (abspath os p) k st = prepend [] (k (os_path_abspath os p (world st)) st).
Proof. reflexivity. Qed.

Lemma bind_get_temp_dir {B} (k : option string -> M W B) st :
  bind (get_temp_dir os) k st = prepend [] (k (temp_dir st) st).
Proof. reflexivity. Qed.

Lemma bind_set_temp_dir {B} d (k : unit -> M W B) st :
  bind (set_temp_dir os d) k st = prepend [] (k tt (mkSt (world st) (Some d))).
Proof. reflexivity. Qed.

(** *** [run_command] never raises: it returns whether the child exited
    with status zero, after exactly one child process bounded by the
    timeout. *)

Lemma run_command_spec cmd msg (st : St W) :
  let r := run_command os self cmd msg st in
  result r = Return (exit_zero (outcome_of os cmd (world st)))
  /\ final r = mkSt (after os cmd (world st)) (temp_dir st)
  /\ spawns (trace r) = [(cmd, Some RUN_COMMAND_TIMEOUT, outcome_of os cmd (world st))]
  /\ mkdtemps (trace r) = [] /\ rmtrees (trace r) = [].
Proof.
  unfold run_command, bind, subprocess, log, when, emit, ret, enabled,
    outcome_of, after.
  destruct (verbose self); cbn [result final trace world temp_dir];
    destruct (fst (subprocess_run os cmd (Some RUN_COMMAND_TIMEOUT) (world st)))
      as [rc out err| te | e]; cbn [exit_zero];
    try (destruct (Py.truthy out), (Py.truthy err));
    try destruct (rc =? 0)%Z; cbn; auto.
Qed.

Lemma run_command_eq cmd msg (st : St W) :
  run_command os self cmd msg st
  = mkExec (Return (exit_zero (outcome_of os cmd (world st))))
      (trace (run_command os self cmd msg st))
      (mkSt (after os cmd (world st)) (temp_dir st)).
Proof.
  destruct (run_command_spec cmd msg st) as (Hr & Hf & _).
  rewrite (exec_eta (run_command os self cmd msg st)) at 1.
  now rewrite Hr, Hf.
Qed.

Lemma bind_run_command {B} cmd msg (k : bool -> M W B) st :
  bind (run_command os self cmd msg) k st
  = prepend (trace (run_command os self cmd msg st))
      (k (exit_zero (outcome_of os cmd (world st)))
         (mkSt (after os cmd (world st)) (temp_dir st))).
Proof. apply bind_eq, run_command_eq. Qed.

Lemma result_run_command cmd msg (st : St W) :
  result (run_command os self cmd msg st)
  = Return (exit_zero (outcome_of os cmd (world st))).
Proof. apply run_command_spec. Qed.

Lemma final_run_command cmd msg (st : St W) :
  final (run_command os self cmd msg st)
  = mkSt (after os cmd (world st)) (temp_dir st).
Proof. apply run_command_spec. Qed.

Lemma spawns_run_command cmd msg (st : St W) :
  spawns (trace (run_command os self cmd msg st))
  = [(cmd, Some RUN_COMMAND_TIMEOUT, outcome_of os cmd (world st))].
Proof. apply run_command_spec. Qed.

Lemma mkdtemps_run_command cmd msg (st : St W) :
  mkdtemps (trace (run_command os self cmd msg st)) = [].
Proof. apply run_command_spec. Qed.

Lemma rmtrees_run_command cmd msg (st : St W) :
  rmtrees (trace (run_command os self cmd msg st)) = [].
Proof. apply run_command_spec. Qed.

Lemma spawns_log_trace lvl msg :
  spawns (if enabled self lvl then [Log lvl msg] else []) = [].
Proof. now destruct (enabled self lvl). Qed.

Lemma mkdtemps_log_trace lvl msg :
  mkdtemps (if enabled self lvl then [Log lvl msg] else []) = [].
Proof. now destruct (enabled self lvl). Qed.

Lemma rmtrees_log_trace lvl msg :
  rmtrees (if enabled self lvl then [Log lvl msg] else []) = [].
Proof. now destruct (enabled self lvl). Qed.

End Primitives.

(** ** The phases, one by one *)

(** Symbolic execution of a method body: push the state through the
    statements whose effect is known. *)
Ltac exec :=
  repeat first
    [ rewrite bind_log
    | rewrite bind_run_command
    | rewrite bind_path_exists
    | rewrite bind_open_read
    | rewrite bind_which
    | rewrite bind_abspath
    | rewrite bind_get_temp_dir
    | rewrite bind_set_temp_dir
    | rewrite bind_ret
    | rewrite log_eq
    | progress cbv beta ].

(** Read the effects off an executed body. *)
Ltac effects :=
  cbn [result trace final prepend ret world temp_dir];
  autorewrite with trace;
  rewrite ?result_run_command, ?final_run_command,
    ?spawns_run_command, ?mkdtemps_run_command, ?rmtrees_run_command,
    ?spawns_log_trace, ?mkdtemps_log_trace, ?rmtrees_log_trace;
  cbn [app spawns mkdtemps rmtrees].

Section Phases.

Variable os : OS.
Variable self : Self.

#[local] Abbreviation W := (World os).

(** *** [detect_high_sdk] only reads the manifest *)

Lemma detect_high_sdk_eq input_dir (st : St W) :
  detect_high_sdk os input_dir st
  = mkExec (Return (is_high_sdk os input_dir (world st))) [] st.
Proof.
  unfold is_high_sdk, detect_high_sdk, init. exec. cbn [world].
  destruct (os_path_exists os _ (world st)); cbn [negb]; [|reflexivity].
  exec. cbn [world].
  destruct (read_text os _ (world st)) as [content|]; [|reflexivity].
  destruct (Re.search content) as [group1|]; [|reflexivity].
  destruct (Py.int _ group1); reflexivity.
Qed.

Lemma bind_detect_high_sdk {B} input_dir (k : bool -> M W B) st :
  bind (detect_high_sdk os input_dir) k st
  = prepend [] (k (is_high_sdk os input_dir (world st)) st).
Proof. apply bind_eq, detect_high_sdk_eq. Qed.

(** The alt-mode is asked for exactly when the manifest exists, can be
    read, the first [targetSdkVersion="digits"] in it converts to an integer
    (its digits are within the limit of [int], if there is one), and that
    integer is at least 34. *)
Lemma is_high_sdk_true input_dir (w : W) :
  is_high_sdk os input_dir w = true <->
  let manifest := Py.path_join input_dir ["AndroidManifest.xml"] in
  os_path_exists os manifest w = true /\
  exists content digits n,
    read_text os manifest w = Some content /\
    Re.search content = Some digits /\
    Py.int (int_max_str_digits os) digits = Some n /\
    (34 <= n)%N.
Proof.
  unfold is_high_sdk, detect_high_sdk, init. exec.
  cbn [world result prepend].
  destruct (os_path_exists os _ w); cbn [negb result ret].
  - exec. cbn [world result prepend].
    destruct (read_text os _ w) as [content|]; cbn [result ret].
    + destruct (Re.search content) as [digits|] eqn:E; cbn [result ret].
      * destruct (Py.int _ digits) as [n|] eqn:En; cbn [result ret].
        -- rewrite N.leb_le. unfold HIGH_SDK. split.
           ++ intros H. split; [reflexivity|]. now exists content, digits, n.
           ++ intros (_ & c & dg & m & Hc & Hs & Hm & Hle). congruence.
        -- split; [discriminate|].
           intros (_ & c & dg & m & Hc & Hs & Hm & _). congruence.
      * split; [discriminate|]. intros (_ & c & dg & m & Hc & Hs & _). congruence.
    + split; [discriminate|]. intros (_ & c & dg & m & Hc & _). discriminate.
  - split; [discriminate|]. intros (H & _). discriminate.
Qed.

(** A version with more digits than [int] accepts is not a high version:
    the [ValueError] is swallowed by the handler of [detect_high_sdk]. *)
Lemma is_high_sdk_over_the_limit input_dir (w : W) content digits :
  read_text os (Py.path_join input_dir ["AndroidManifest.xml"]) w = Some content ->
  Re.search content = Some digits ->
  (0 < int_max_str_digits os)%N ->
  (int_max_str_digits os < N.of_nat (String.length digits))%N ->
  is_high_sdk os input_dir w = false.
Proof.
  intros Hc Hs H0 Hl.
  destruct (is_high_sdk os input_dir w) eqn:E; [|reflexivity].
  apply is_high_sdk_true in E. destruct E as (_ & c & dg & n & Hc' & Hs' & Hn & _).
  rewrite Hc in Hc'. injection Hc' as <-. rewrite Hs in Hs'. injection Hs' as <-.
  unfold Py.int in Hn. apply N.ltb_lt in H0, Hl. rewrite H0, Hl in Hn. discriminate.
Qed.

(** *** [rebuild_apk] *)

Lemma rebuild_apk_spec input_dir output_apk (st : St W) :
  let r := rebuild_apk os self input_dir output_apk st in
  let w := world st in
  let found := os_path_exists os (Py.path_join input_dir ["AndroidManifest.xml"]) w in
  let c1 := rebuild_cmd (is_high_sdk os input_dir w) input_dir output_apk in
  let c2 := rebuild_cmd_fallback input_dir output_apk in
  let o1 := outcome_of os c1 w in
  let o2 := outcome_of os c2 (after os c1 w) in
  result r = Return (found && (exit_zero o1 || exit_zero o2))
  /\ spawns (trace r)
     = (if found then
          (c1, Some RUN_COMMAND_TIMEOUT, o1)
            :: (if exit_zero o1 then [] else [(c2, Some RUN_COMMAND_TIMEOUT, o2)])
        else [])
  /\ final r
     = mkSt (if found then
               if exit_zero o1 then after os c1 w else after os c2 (after os c1 w)
             else w) (temp_dir st)
  /\ mkdtemps (trace r) = [] /\ rmtrees (trace r) = [].
Proof.
  unfold rebuild_apk. exec. cbn [world].
  destruct (os_path_exists os _ (world st)); cbn [negb andb].
  - rewrite bind_detect_high_sdk. exec. cbn [world].
    destruct (exit_zero (outcome_of os _ (world st))) eqn:E1; cbn [negb orb].
    + exec. effects. destruct st; auto.
    + exec. effects. auto.
  - exec. effects. destruct st; auto.
Qed.

(** *** [align_apk] *)

Lemma align_apk_spec input_apk output_apk (st : St W) :
  let r := align_apk os self input_apk output_apk st in
  let w := world st in
  let c1 := align_cmd input_apk output_apk in
  let c2 := align_check_cmd output_apk in
  let o1 := outcome_of os c1 w in
  let o2 := outcome_of os c2 (after os c1 w) in
  result r = Return (exit_zero o1 && exit_zero o2)
  /\ spawns (trace r)
     = (c1, Some RUN_COMMAND_TIMEOUT, o1)
         :: (if exit_zero o1 then [(c2, Some RUN_COMMAND_TIMEOUT, o2)] else [])
  /\ final r
     = mkSt (if exit_zero o1 then after os c2 (after os c1 w) else after os c1 w)
         (temp_dir st)
  /\ mkdtemps (trace r) = [] /\ rmtrees (trace r) = [].
Proof.
  unfold align_apk. exec. cbn [world].
  destruct (exit_zero (outcome_of os _ (world st))); cbn [negb andb].
  - exec. cbn [world].
    destruct (exit_zero (outcome_of os _ _)); exec; effects; auto.
  - exec. effects. auto.
Qed.

(** *** [get_keystore] and [keystore_path or self.get_keystore()] *)

Lemma keystore_or_default_spec keystore (st : St W) :
  let k := keystore_or_default os self keystore st in
  let w := world st in
  let dbg := os_path_exists os (android_debug_keystore self) w in
  let c := keytool_cmd (temp_keystore_path os) in
  let o := outcome_of os c w in
  let generate := negb (Py.truthy_opt keystore) && negb dbg in
  result k
  = Return (if Py.truthy_opt keystore then keystore
            else if dbg then Some (android_debug_keystore self)
            else if exit_zero o then Some (temp_keystore_path os) else None)
  /\ spawns (trace k) = (if generate then [(c, Some RUN_COMMAND_TIMEOUT, o)] else [])
  /\ final k = mkSt (if generate then after os c w else w) (temp_dir st)
  /\ mkdtemps (trace k) = [] /\ rmtrees (trace k) = [].
Proof.
  unfold keystore_or_default.
  destruct (Py.truthy_opt keystore); cbn [negb andb].
  - destruct st; cbn; auto.
  - unfold get_keystore. exec. cbn [world].
    destruct (os_path_exists os _ (world st)); cbn [negb].
    + destruct st; cbn; auto.
    + exec. cbn [world].
      destruct (exit_zero (outcome_of os _ (world st))); exec; effects; auto.
Qed.

Lemma keystore_or_default_eq keystore (st : St W) :
  exists ko,
    keystore_or_default os self keystore st
    = mkExec (Return ko) (trace (keystore_or_default os self keystore st))
        (final (keystore_or_default os self keystore st)).
Proof.
  destruct (keystore_or_default_spec keystore st) as (Hr & _).
  eexists. rewrite (exec_eta (keystore_or_default os self keystore st)) at 1.
  now rewrite Hr.
Qed.

(** *** [sign_apk] *)

Lemma sign_apk_spec input_apk output_apk keystore (st : St W) ko :
  let k := keystore_or_default os self keystore st in
  let r := sign_apk os self input_apk output_apk keystore st in
  result k = Return ko ->
  let w := world (final k) in
  let ks := match ko with Some p => p | None => EmptyString end in
  let c1 := sign_cmd ks output_apk input_apk in
  let c2 := verify_cmd output_apk in
  let o1 := outcome_of os c1 w in
  let o2 := outcome_of os c2 (after os c1 w) in
  result r = Return (Py.truthy_opt ko && (exit_zero o1 && exit_zero o2))
  /\ spawns (trace r)
     = (spawns (trace k)
        ++ (if Py.truthy_opt ko then
              (c1, Some RUN_COMMAND_TIMEOUT, o1)
                :: (if exit_zero o1 then [(c2, Some RUN_COMMAND_TIMEOUT, o2)] else [])
            else []))%list
  /\ final r
     = mkSt (if Py.truthy_opt ko then
               if exit_zero o1 then after os c2 (after os c1 w) else after os c1 w
             else w) (temp_dir st)
  /\ mkdtemps (trace r) = [] /\ rmtrees (trace r) = [].
Proof.
  intros k r Hk.
  destruct (keystore_or_default_spec keystore st) as (_ & _ & Hf & Hm & Hrm).
  fold k in Hf, Hm, Hrm.
  assert (Hk' : k = mkExec (Return ko) (trace k) (final k)).
  { rewrite (exec_eta k) at 1. now rewrite Hk. }
  assert (Htd : temp_dir (final k) = temp_dir st) by now rewrite Hf.
  subst r. unfold sign_apk. exec.
  rewrite (bind_eq (m := keystore_or_default os self keystore) (st := st) Hk'). cbv beta.
  destruct (Py.truthy_opt ko); cbn [negb andb].
  - exec. cbn [world].
    destruct (exit_zero (outcome_of os _ (world (final k)))); cbn [negb andb].
    + exec. cbn [world].
      destruct (exit_zero (outcome_of os _ _)); exec; effects;
        rewrite Hm, Hrm, Htd; auto.
    + exec. effects. rewrite Hm, Hrm, Htd. auto.
  - effects. rewrite Hm, Hrm, <- Htd. destruct (final k); auto.
Qed.

End Phases.

(** ** What every phase respects *)

Lemma errors_app (a b : list Event) : (errors (a ++ b) = errors a ++ errors b)%list.
Proof.
  induction a as [|e a IH]; simpl; auto.
  destruct e as [| [] | | |]; simpl; now rewrite IH.
Qed.

Lemma warnings_app (a b : list Event) :
  (warnings (a ++ b) = warnings a ++ warnings b)%list.
Proof.
  induction a as [|e a IH]; simpl; auto.
  destruct e as [| [] | | |]; simpl; now rewrite IH.
Qed.

#[global] Hint Rewrite errors_app warnings_app : trace.

Lemma replay_app os (a b : list Event) (w : World os) :
  replay os (a ++ b) w = replay os b (replay os a w).
Proof. unfold replay. now rewrite fold_left_app. Qed.

Lemma no_dir_mkdtemps tr : Forall no_dir_event tr -> mkdtemps tr = [].
Proof.
  induction 1 as [|e tr He _ IH]; [reflexivity|]. destruct e; simpl in *; tauto.
Qed.

Lemma no_dir_rmtrees tr : Forall no_dir_event tr -> rmtrees tr = [].
Proof.
  induction 1 as [|e tr He _ IH]; [reflexivity|]. destruct e; simpl in *; tauto.
Qed.

Lemma bounded_no_dir tr : Forall bounded_event tr -> Forall no_dir_event tr.
Proof.
  apply Forall_impl. intros [] H; simpl in *; auto.
Qed.

Lemma bounded_no_dir_event e : bounded_event e -> no_dir_event e.
Proof. destruct e; simpl; auto. Qed.

Lemma tame_weaken os (P Q : Event -> Prop) {A} (m : M (World os) A) :
  tame os P m -> (forall e, P e -> Q e) -> tame os Q m.
Proof.
  intros H HPQ st. destruct (H st) as (H1 & H2 & H3).
  repeat split; auto. revert H1. apply Forall_impl, HPQ.
Qed.

Lemma bounded_spawns tr : Forall bounded_event tr -> Forall bounded (spawns tr).
Proof.
  induction 1 as [|e tr He _ IH]; [constructor|].
  destruct e; simpl in *; auto.
Qed.

Section Tame.

Variable os : OS.
Variable self : Self.
Variable P : Event -> Prop.

#[local] Abbreviation W := (World os).

Lemma tame_ret {A} (a : A) : tame os P (ret a : M W A).
Proof. intros st. cbn. auto. Qed.

Lemma tame_raise {A} e : tame os P (raise e : M W A).
Proof. intros st. cbn. auto. Qed.

Lemma tame_bind {A B} (m : M W A) (k : A -> M W B) :
  tame os P m -> (forall a, tame os P (k a)) -> tame os P (bind m k).
Proof.
  intros Hm Hk st. destruct (Hm st) as (H1 & H2 & H3).
  unfold bind. destruct (result (m st)) as [a|e]; cbn [trace final].
  - destruct (Hk a (final (m st))) as (K1 & K2 & K3).
    rewrite replay_app, <- H2, K3, H3. repeat split; auto.
    apply Forall_app. auto.
  - auto.
Qed.

Lemma tame_try_except {A} (m : M W A) (h : string -> M W A) :
  tame os P m -> (forall e, tame os P (h e)) -> tame os P (try_except m h).
Proof.
  intros Hm Hh st. destruct (Hm st) as (H1 & H2 & H3).
  unfold try_except. destruct (result (m st)) as [a|e]; cbn [trace final].
  - auto.
  - destruct (Hh e (final (m st))) as (K1 & K2 & K3).
    rewrite replay_app, <- H2, K3, H3. repeat split; auto.
    apply Forall_app. auto.
Qed.

Lemma tame_emit_log lvl msg :
  P (Log lvl msg) -> tame os P (emit (Log lvl msg) : M W unit).
Proof. intros He st. cbn. repeat split; auto using Forall_nil, Forall_cons. Qed.

Lemma tame_print line : P (Print line) -> tame os P (print os line).
Proof. intros He st. cbn. repeat split; auto using Forall_nil, Forall_cons. Qed.

Lemma tame_when b (m : M W unit) : tame os P m -> tame os P (when b m).
Proof. destruct b; [auto|]. intros _. apply tame_ret. Qed.

Lemma tame_log lvl msg : P (Log lvl msg) -> tame os P (log os self lvl msg).
Proof. intros H. apply tame_when, tame_emit_log, H. Qed.

Lemma tame_path_exists p : tame os P (path_exists os p).
Proof. intros st. cbn. auto. Qed.

Lemma tame_open_read p : tame os P (open_read os p).
Proof. intros st. cbn. auto. Qed.

Lemma tame_which t : tame os P (which os t).
Proof. intros st. cbn. auto. Qed.

Lemma tame_abspath p : tame os P (abspath os p).
Proof. intros st. cbn. auto. Qed.

Lemma tame_get_temp_dir : tame os P (get_temp_dir os).
Proof. intros st. cbn. auto. Qed.

Lemma tame_subprocess cmd t :
  (forall o, P (Spawn cmd t o)) -> tame os P (subprocess os cmd t).
Proof. intros H st. cbn. repeat split; auto using Forall_nil, Forall_cons. Qed.

End Tame.

(** Discharge [tame] goals by following the structure of the method. *)
Ltac tame_step :=
  match goal with
  | |- tame _ _ (bind _ _) => apply tame_bind; [|intros ?]
  | |- tame _ _ (ret _) => apply tame_ret
  | |- tame _ _ (raise _) => apply tame_raise
  | |- tame _ _ (log _ _ _ _) => apply tame_log; exact I
  | |- tame _ _ (print _ _) => apply tame_print; exact I
  | |- tame _ _ (when _ _) => apply tame_when
  | |- tame _ _ (path_exists _ _) => apply tame_path_exists
  | |- tame _ _ (open_read _ _) => apply tame_open_read
  | |- tame _ _ (which _ _) => apply tame_which
  | |- tame _ _ (abspath _ _) => apply tame_abspath
  | |- tame _ _ (subprocess _ _ _) => apply tame_subprocess; intros ?; cbn; auto
  | |- tame _ _ (if ?b then _ else _) => destruct b
  | |- tame _ _ (match ?x with _ => _ end) => destruct x
  end.

Section TamePhases.

Variable os : OS.
Variable self : Self.

Lemma tame_run_command cmd msg :
  tame os bounded_event (run_command os self cmd msg).
Proof. unfold run_command. repeat tame_step. Qed.

Lemma tame_detect_high_sdk input_dir :
  tame os bounded_event (detect_high_sdk os input_dir).
Proof. unfold detect_high_sdk. repeat tame_step. Qed.

Lemma tame_rebuild_apk input_dir output_apk :
  tame os bounded_event (rebuild_apk os self input_dir output_apk).
Proof.
  unfold rebuild_apk.
  repeat first [apply tame_run_command | apply tame_detect_high_sdk | tame_step].
Qed.

Lemma tame_align_apk input_apk output_apk :
  tame os bounded_event (align_apk os self input_apk output_apk).
Proof. unfold align_apk. repeat first [apply tame_run_command | tame_step]. Qed.

Lemma tame_get_keystore : tame os bounded_event (get_keystore os self).
Proof. unfold get_keystore. repeat first [apply tame_run_command | tame_step]. Qed.

Lemma tame_sign_apk input_apk output_apk keystore :
  tame os bounded_event (sign_apk os self input_apk output_apk keystore).
Proof.
  unfold sign_apk, keystore_or_default.
  repeat first [apply tame_run_command | apply tame_get_keystore | tame_step].
Qed.

Lemma tame_install_loop devices apk_path success :
  tame os bounded_event (install_loop os self devices apk_path success).
Proof.
  revert success. induction devices as [|d ds IH]; intros success; cbn [install_loop].
  - apply tame_ret.
  - repeat first [apply tame_run_command | apply IH | tame_step].
Qed.

End TamePhases.

(** ** The install phase, the cleanup and the dependency check *)

Lemma output_no_effect os tr (w : World os) :
  Forall output_event tr ->
  replay os tr w = w /\ spawns tr = [] /\ mkdtemps tr = [] /\ rmtrees tr = [].
Proof.
  induction 1 as [|e tr He _ IH]; [cbn; auto|].
  destruct e; simpl in He; try contradiction; cbn; apply IH.
Qed.

Lemma tame_output_eq os {A} (m : M (World os) A) st :
  tame os output_event m ->
  final (m st) = st /\ spawns (trace (m st)) = []
  /\ mkdtemps (trace (m st)) = [] /\ rmtrees (trace (m st)) = [].
Proof.
  intros H. destruct (H st) as (H1 & H2 & H3).
  destruct (output_no_effect os _ (world st) H1) as (R & S & Mk & Rm).
  rewrite R in H2. repeat split; auto.
  destruct (final (m st)), st; cbn in *; congruence.
Qed.

Section Install.

Variable os : OS.
Variable self : Self.

#[local] Abbreviation W := (World os).

Lemma bind_subprocess {B} cmd t (k : ProcOutcome -> M W B) st :
  bind (subprocess os cmd t) k st
  = prepend [Spawn cmd t (fst (subprocess_run os cmd t (world st)))]
      (k (fst (subprocess_run os cmd t (world st)))
         (mkSt (snd (subprocess_run os cmd t (world st))) (temp_dir st))).
Proof. reflexivity. Qed.

(** The loop attempts every device in order, whatever the outcomes, and
    answers whether all of them (and the start value) were fine. *)
Lemma install_loop_spec devices apk_path success (st : St W) :
  let r := install_loop os self devices apk_path success st in
  result r = Return (success && forallb spawn_ok (spawns (trace r)))
  /\ commands (trace r) = map (fun d => install_cmd d apk_path) devices.
Proof.
  revert success st.
  induction devices as [|d ds IH]; intros success st; cbn [install_loop].
  - cbn. now rewrite andb_true_r.
  - exec. effects. cbn [world].
    match goal with
    | |- context [install_loop os self ds apk_path ?b ?s] =>
        destruct (IH b s) as (Hr & Hc)
    end.
    rewrite Hr. unfold commands in *. effects. cbn [map fst forallb].
    rewrite Hc. unfold spawn_ok at 2. cbn [snd].
    split; [|reflexivity].
    destruct (exit_zero (outcome_of os (install_cmd d apk_path) (world st)));
      cbn [negb andb]; [reflexivity|].
    now rewrite andb_false_r.
Qed.

(** The shape of the install phase: one unbounded enumeration, then one
    bounded installation per active device. *)
Lemma install_apk_spec apk_path (st : St W) :
  let o := fst (subprocess_run os adb_devices_cmd None (world st)) in
  let r := install_apk os self apk_path st in
  exists rest,
    spawns (trace r) = (adb_devices_cmd, None, o) :: rest
    /\ Forall bounded rest
    /\ match o with
       | Completed _ stdout _ =>
           let devs := active_devices_of (Py.splitlines stdout) in
           map (fun x => fst (fst x)) rest = map (fun d => install_cmd d apk_path) devs
           /\ result r
              = Return (match devs with [] => false | _ => true end
                        && forallb spawn_ok rest)
       | TimeoutExpired e | OtherException e =>
           rest = [] /\ result r = Raise e
       end.
Proof.
  unfold install_apk. exec. rewrite bind_subprocess.
  destruct (fst (subprocess_run os adb_devices_cmd None (world st)))
    as [rc stdout stderr|e|e].
  - destruct (active_devices_of (Py.splitlines stdout)) as [|d ds] eqn:E.
    + exists []. exec. effects. auto.
    + exec.
      match goal with
      | |- context [install_loop os self ?l apk_path true ?s] =>
          destruct (install_loop_spec l apk_path true s) as (Hr & Hc);
          destruct (tame_install_loop os self l apk_path true s) as (Hb & _);
          exists (spawns (trace (install_loop os self l apk_path true s)))
      end.
      effects. cbn zeta in Hr. rewrite Hr. unfold commands in Hc. rewrite Hc.
      repeat split; auto. now apply bounded_spawns.
  - exists []. effects. auto.
  - exists []. effects. auto.
Qed.

Lemma tame_install_apk apk_path :
  tame os no_dir_event (install_apk os self apk_path).
Proof.
  unfold install_apk.
  repeat first
    [ eapply tame_weaken; [apply tame_install_loop | apply bounded_no_dir_event]
    | tame_step ].
Qed.

(** *** [cleanup] *)

Lemma cleanup_spec (st : St W) d :
  temp_dir st = Some d -> Py.truthy d = true ->
  let r := cleanup os self st in
  let err := fst (shutil_rmtree os d (world st)) in
  result r = Return tt
  /\ spawns (trace r) = [] /\ mkdtemps (trace r) = []
  /\ rmtrees (trace r) = (if os_path_exists os d (world st) then [(d, err)] else [])
  /\ world (final r) = replay os (trace r) (world st)
  /\ (os_path_exists os d (world st) = true ->
      forall e, err = Some e -> errors (trace r) = ["Error clearing temporary: " ++ e]).
Proof.
  intros Htd Hd. unfold cleanup. exec. rewrite Htd. cbn [Py.truthy_opt]. rewrite Hd.
  exec. destruct (os_path_exists os d (world st)).
  - unfold bind, rmtree. cbn [result trace final world temp_dir].
    destruct (fst (shutil_rmtree os d (world st))) as [e|];
      rewrite log_eq; cbn [result trace final prepend app world];
      unfold enabled; [|destruct (verbose self)]; cbn;
      repeat split; auto; try discriminate.
    intros _ e' [= ->]. reflexivity.
  - cbn. repeat split; auto. discriminate.
Qed.

Lemma cleanup_trace (st : St W) d :
  temp_dir st = Some d -> Py.truthy d = true ->
  os_path_exists os d (world st) = true ->
  trace (cleanup os self st)
  = Rmtree d (fst (shutil_rmtree os d (world st)))
      :: cleanup_log self d (fst (shutil_rmtree os d (world st))).
Proof.
  intros Htd Hd Hex. unfold cleanup. exec. rewrite Htd. cbn [Py.truthy_opt].
  rewrite Hd. exec. rewrite Hex.
  unfold bind, rmtree. cbn [result trace final world temp_dir].
  destruct (fst (shutil_rmtree os d (world st))) as [e|];
    rewrite log_eq; cbn [trace app cleanup_log enabled]; reflexivity.
Qed.

(** *** [check_dependencies] *)

Lemma tame_check_dependencies_loop ts deps :
  tame os output_event (check_dependencies_loop os self ts deps).
Proof.
  revert deps. induction ts as [|t ts IH]; intros deps; cbn [check_dependencies_loop].
  - apply tame_ret.
  - repeat first [apply IH | tame_step].
Qed.

#[local] Abbreviation found := (found_in os).

Lemma check_dependencies_loop_spec ts deps (st : St W) :
  let r := check_dependencies_loop os self ts deps st in
  result r = Return (fold_left (fun d t => dict_set t (found (world st) t) d) ts deps)
  /\ errors (trace r) = map missing_msg (filter (fun t => negb (found (world st) t)) ts).
Proof.
  revert deps st. induction ts as [|t ts IH]; intros deps st;
    cbn [check_dependencies_loop].
  - cbn. auto.
  - exec. cbn [fold_left filter].
    change (Py.truthy_opt (shutil_which os t (world st))) with (found (world st) t).
    destruct (found (world st) t); cbn [negb].
    + destruct (IH (dict_set t true deps) st) as (Hr & He).
      unfold bind, when, log, when, emit, ret, enabled.
      destruct (verbose self); [destruct (Py.contains "/usr/bin/" _)|];
        cbn [negb result trace final prepend]; autorewrite with trace;
        cbn [errors app]; rewrite Hr, He; auto.
    + destruct (IH (dict_set t false deps) st) as (Hr & He).
      exec. effects. rewrite Hr, He. cbn [enabled errors app map]. auto.
Qed.

Lemma missing_of_check_dependencies (w : W) :
  missing_of (fold_left (fun d t => dict_set t (found w t) d) tools [])
  = missing_in os w.
Proof.
  unfold missing_in, tools. cbn [fold_left filter].
  cbn -[found_in].
  destruct (found w "apktool"), (found w "zipalign"), (found w "apksigner"),
    (found w "adb"), (found w "keytool"); reflexivity.
Qed.

Lemma check_dependencies_eq (st : St W) :
  exists tr,
    check_dependencies os self st
    = mkExec (Return (fold_left (fun d t => dict_set t (found (world st) t) d) tools []))
        tr st
    /\ Forall output_event tr
    /\ errors tr = map missing_msg (missing_in os (world st)).
Proof.
  unfold check_dependencies.
  destruct (check_dependencies_loop_spec tools [] st) as (Hr & He).
  destruct (tame_output_eq os _ st (tame_check_dependencies_loop tools [])) as (Hf & _).
  destruct (tame_check_dependencies_loop tools [] st) as (Ho & _).
  eexists. split; [|split; [exact Ho|exact He]].
  rewrite (exec_eta (check_dependencies_loop os self tools [] st)) at 1.
  cbn zeta in Hr. now rewrite Hr, Hf.
Qed.

End Install.

(** ** The orchestrator *)

Section Orchestrator.

Variable os : OS.
Variable self : Self.

#[local] Abbreviation W := (World os).

Lemma bind_banner {B} (k : unit -> M W B) st :
  bind (banner os) k st = prepend (trace (banner os st)) (k tt st).
Proof. reflexivity. Qed.

Lemma banner_output st : Forall output_event (trace (banner os st)).
Proof. cbn. repeat constructor. Qed.

Lemma log_trace_output lvl msg :
  Forall output_event (if enabled self lvl then [Log lvl msg] else []).
Proof. destruct (enabled self lvl); repeat constructor. Qed.

Lemma cleanup_result (st : St W) : result (cleanup os self st) = Return tt.
Proof.
  unfold cleanup. exec. cbn [result prepend].
  destruct (Py.truthy_opt (temp_dir st)); [|reflexivity].
  exec. cbn [result prepend].
  destruct (os_path_exists os _ (world st)); [|reflexivity].
  unfold bind, rmtree. cbn [result final].
  destruct (fst (shutil_rmtree os _ (world st))); now rewrite log_eq.
Qed.

Lemma bind_mkdtemp_ok {B} pfx (k : string -> M W B) st d :
  fst (tempfile_mkdtemp os pfx (world st)) = inl d ->
  bind (mkdtemp os pfx) k st
  = prepend [Mkdtemp pfx (inl d)]
      (k d (mkSt (snd (tempfile_mkdtemp os pfx (world st))) (temp_dir st))).
Proof.
  intros H. unfold bind, mkdtemp, prepend. cbn [result trace final]. now rewrite H.
Qed.

Lemma try_finally_cleanup {A} (m : M W A) st :
  try_finally m (cleanup os self) st
  = mkExec (result (m st))
      (trace (m st) ++ trace (cleanup os self (final (m st))))
      (final (cleanup os self (final (m st)))).
Proof. unfold try_finally. now rewrite cleanup_result. Qed.

(** *** The loop over the steps *)

Lemma run_steps_cases steps rest (st : St W) :
  let m := run_steps os self steps (ret true) st in
  match result m with
  | Return true => run_steps os self steps rest st = prepend (trace m) (rest (final m))
  | Return false =>
      run_steps os self steps rest st = mkExec (Return false) (trace m) (final m)
  | Raise e => run_steps os self steps rest st = mkExec (Raise e) (trace m) (final m)
  end.
Proof.
  revert st. induction steps as [|[msg step] steps IH]; intros st; cbn [run_steps].
  - cbn. now destruct (rest st).
  - pose proof (exec_eta (step st)) as E.
    destruct (result (step st)) as [[|]|e].
    + rewrite !(bind_eq E). cbn [negb result trace final prepend].
      specialize (IH (final (step st))). cbn zeta in IH.
      destruct (result (run_steps os self steps (ret true) (final (step st))))
        as [[|]|e]; rewrite IH; unfold prepend; cbn [result trace final];
        now rewrite ?app_assoc.
    + rewrite !(bind_eq E). cbn [negb]. exec. reflexivity.
    + rewrite !(bind_raise E). reflexivity.
Qed.

Lemma tame_run_steps P steps rest :
  Forall (fun s => tame os P (snd s)) steps ->
  P (Log ERROR EmptyString) -> (forall m, P (Log ERROR m)) ->
  tame os P rest -> tame os P (run_steps os self steps rest).
Proof.
  intros Hs _ HP Hr. induction Hs as [|[msg step] steps Hstep _ IH]; cbn [run_steps].
  - exact Hr.
  - apply tame_bind; [exact Hstep|]. intros [|]; cbn [negb]; [exact IH|].
    apply tame_bind; [apply tame_log, HP|]. intros _. apply tame_ret.
Qed.

Lemma tame_steps d input_dir output_apk keystore :
  Forall (fun s => tame os no_dir_event (snd s))
    (steps os self d input_dir output_apk keystore).
Proof.
  unfold steps.
  apply Forall_cons; [|apply Forall_cons; [|apply Forall_cons; [|apply Forall_nil]]];
    cbn [snd]; (eapply tame_weaken; [|apply bounded_no_dir_event]).
  - apply tame_rebuild_apk.
  - apply tame_align_apk.
  - apply tame_sign_apk.
Qed.

Lemma tame_after_steps output_apk install :
  tame os no_dir_event (after_steps os self output_apk install).
Proof.
  unfold after_steps. repeat first [apply tame_install_apk | tame_step].
Qed.

Lemma tame_mandatory_phases d input_dir output_apk keystore :
  tame os no_dir_event (mandatory_phases os self d input_dir output_apk keystore).
Proof.
  apply tame_run_steps; auto using tame_steps, tame_ret; intros; exact I.
Qed.

Lemma tame_try_block d input_dir output_apk install keystore :
  tame os no_dir_event (try_block os self d input_dir output_apk install keystore).
Proof.
  unfold try_block, pipeline. apply tame_try_except.
  - apply tame_run_steps; auto using tame_steps, tame_after_steps; intros; exact I.
  - intros e. unfold critical_error. repeat tame_step.
Qed.

(** *** [process_apk] when a required tool is missing *)

Lemma process_apk_missing input_dir output_apk install keystore (st : St W) :
  missing_in os (world st) <> [] ->
  let r := process_apk os self input_dir output_apk install keystore st in
  result r = Return false /\ final r = st
  /\ Forall output_event (trace r)
  /\ errors (trace r)
     = (map missing_msg (missing_in os (world st))
        ++ [missing_dependencies_msg (missing_in os (world st))])%list
  /\ trace r
     = (trace (banner os st)
        ++ [Log INFO (BOLD ++ CYAN ++ "> INPUT: " ++ input_dir ++ RESET);
            Log INFO (BOLD ++ CYAN ++ "< OUTPUT: " ++ output_apk ++ RESET)]
        ++ trace (check_dependencies os self st)
        ++ [Log ERROR (missing_dependencies_msg (missing_in os (world st)))])%list.
Proof.
  intros Hmiss. unfold process_apk. rewrite bind_banner. exec.
  destruct (check_dependencies_eq os self st) as (tr & Heq & Hout & Herr).
  rewrite (bind_eq Heq). rewrite missing_of_check_dependencies.
  destruct (missing_in os (world st)) as [|t ts] eqn:E; [contradiction|].
  exec. cbn [result trace final prepend ret enabled].
  repeat split.
  - repeat (apply Forall_app; split);
      auto using banner_output, log_trace_output; repeat constructor.
  - autorewrite with trace. rewrite Herr. cbn.
    unfold enabled; destruct (verbose self); reflexivity.
  - rewrite Heq. cbn [trace]. rewrite app_nil_r. reflexivity.
Qed.

(** *** [process_apk] when the preflight passes and the directory is
    allocated: the [try] block, then [cleanup], whatever the block did *)

Lemma process_apk_run input_dir output_apk install keystore (st : St W) d :
  missing_in os (world st) = [] ->
  fst (tempfile_mkdtemp os "apkreforge_" (world st)) = inl d ->
  let r := process_apk os self input_dir output_apk install keystore st in
  let body := try_block os self d input_dir output_apk install keystore
                (try_state os st d) in
  let cl := cleanup os self (final body) in
  exists pre mid,
    trace r = (pre ++ Mkdtemp "apkreforge_" (inl d) :: mid ++ trace body ++ trace cl)%list
    /\ Forall output_event pre /\ Forall output_event mid
    /\ errors pre = [] /\ errors mid = []
    /\ result r = result body
    /\ final r = final cl.
Proof.
  intros Hmiss Hd. unfold process_apk. rewrite bind_banner. exec.
  destruct (check_dependencies_eq os self st) as (tr & Heq & Hout & Herr).
  rewrite (bind_eq Heq). rewrite missing_of_check_dependencies.
  rewrite Hmiss in *.
  rewrite (bind_mkdtemp_ok _ _ _ _ Hd). exec. cbn [world temp_dir].
  fold (try_state os st d). rewrite try_finally_cleanup.
  cbn [result trace final prepend].
  exists (trace (banner os st)
          ++ (if enabled self INFO
              then [Log INFO (BOLD ++ CYAN ++ "> INPUT: " ++ input_dir ++ RESET)]
              else [])
          ++ (if enabled self INFO
              then [Log INFO (BOLD ++ CYAN ++ "< OUTPUT: " ++ output_apk ++ RESET)]
              else [])
          ++ tr)%list,
         (if enabled self DEBUG
          then [Log DEBUG ("Temporary directory: " ++ d)] else []).
  split; [|split; [|split; [|split; [|split; [|split; reflexivity]]]]].
  - rewrite <- ?app_assoc. reflexivity.
  - apply Forall_app; split; [apply banner_output|].
    apply Forall_app; split; [apply log_trace_output|].
    apply Forall_app; split; [apply log_trace_output|exact Hout].
  - apply log_trace_output.
  - autorewrite with trace. rewrite Herr. reflexivity.
  - unfold enabled; destruct (verbose self); reflexivity.
Qed.

End Orchestrator.

(** ** After the mandatory phases: the install phase and the handler *)

Lemma app_inj_tail2 {A} (l1 l2 : list A) a b c d :
  (l1 ++ [a; b] = l2 ++ [c; d])%list -> l1 = l2 /\ a = c /\ b = d.
Proof.
  intros H.
  change (l1 ++ [a; b])%list with (l1 ++ [a] ++ [b])%list in H.
  change (l2 ++ [c; d])%list with (l2 ++ [c] ++ [d])%list in H.
  rewrite !app_assoc in H.
  apply app_inj_tail in H. destruct H as (H & ->).
  apply app_inj_tail in H. destruct H as (-> & ->). auto.
Qed.

Section AfterSteps.

Variable os : OS.
Variable self : Self.

#[local] Abbreviation W := (World os).

Lemma after_steps_no_install output_apk (st : St W) :
  let r := after_steps os self output_apk false st in
  result r = Return true /\ spawns (trace r) = [] /\ final r = st.
Proof.
  unfold after_steps. exec. unfold when. exec. effects.
  cbn [enabled]. cbn. destruct st; auto.
Qed.

Lemma after_steps_install output_apk (st : St W) :
  let i := install_apk os self output_apk st in
  let r := after_steps os self output_apk true st in
  spawns (trace r) = spawns (trace i)
  /\ match result i with
     | Return ok =>
         result r = Return true
         /\ warnings (trace r)
            = (warnings (trace i) ++ (if ok then [] else [install_warning]))%list
     | Raise e => result r = Raise e /\ trace r = trace i
     end.
Proof.
  cbn zeta. pose proof (exec_eta (install_apk os self output_apk st)) as E.
  unfold after_steps.
  destruct (result (install_apk os self output_apk st)) as [ok|e].
  - assert (Hm : bind (install_apk os self output_apk) (fun ok => ret (negb ok)) st
                 = mkExec (Return (negb ok))
                     (trace (install_apk os self output_apk st) ++ [])
                     (final (install_apk os self output_apk st)))
      by (rewrite (bind_eq E); reflexivity).
    rewrite (bind_eq Hm). unfold when.
    destruct ok; cbn [negb]; exec; effects; cbn [enabled warnings app];
      autorewrite with trace; auto.
  - assert (Hm : bind (install_apk os self output_apk) (fun ok => ret (negb ok)) st
                 = mkExec (Raise e)
                     (trace (install_apk os self output_apk st))
                     (final (install_apk os self output_apk st)))
      by (rewrite (bind_raise E); reflexivity).
    rewrite (bind_raise Hm). cbn. auto.
Qed.

Lemma try_except_cases {A} (m : M W A) h (st : St W) :
  match result (m st) with
  | Return _ => try_except m h st = m st
  | Raise e =>
      try_except m h st
      = mkExec (result (h e (final (m st))))
          (trace (m st) ++ trace (h e (final (m st))))
          (final (h e (final (m st))))
  end.
Proof. unfold try_except. now destruct (result (m st)). Qed.

Lemma critical_error_eq e (st : St W) :
  critical_error os self e st
  = mkExec (Return false) [Log ERROR (RED ++ "CRITICAL ERROR: " ++ e ++ RESET)] st.
Proof. unfold critical_error. exec. reflexivity. Qed.

End AfterSteps.

(** * The claims *)

(** ** C1: a missing tool aborts the run before anything is allocated *)

(** C1.  When the dependency check finds at least one of the five required
    tools absent, [process_apk] returns failure without running a phase
    (the trace is the banner, the two input/output lines, the dependency
    check and one error, and none of it is an effect), without allocating
    the working directory (no [mkdtemp], [self.temp_dir] and the world are
    unchanged), and its last log record is one error that names all the
    missing tools, in the order of the tool list.  ([check_dependencies]
    has logged one error per missing tool before it.) *)
Theorem C1_missing_dependencies_abort
    (os : OS) (self : Self) (input_dir output_apk : string) (install : bool)
    (keystore : option string) (st : St (World os)) :
  let missing := missing_in os (world st) in
  missing <> [] ->
  let r := process_apk os self input_dir output_apk install keystore st in
  result r = Return false
  /\ spawns (trace r) = [] /\ mkdtemps (trace r) = [] /\ rmtrees (trace r) = []
  /\ final r = st
  /\ trace r
     = (trace (banner os st)
        ++ [Log INFO (BOLD ++ CYAN ++ "> INPUT: " ++ input_dir ++ RESET)%string;
            Log INFO (BOLD ++ CYAN ++ "< OUTPUT: " ++ output_apk ++ RESET)%string]
        ++ trace (check_dependencies os self st)
        ++ [Log ERROR (missing_dependencies_msg missing)])%list
  /\ errors (trace r)
     = (map missing_msg missing
        ++ [missing_dependencies_msg missing])%list.
Proof.
  intros missing Hmiss r.
  destruct (process_apk_missing os self input_dir output_apk install keystore st Hmiss)
    as (Hr & Hf & Hout & Herr & Htr).
  fold r in Hr, Hf, Hout, Herr, Htr.
  destruct (output_no_effect os _ (world st) Hout) as (_ & Hs & Hm & Hrm).
  repeat split; assumption.
Qed.

(** ** C3: transform, then verify *)

(** C3.  [align_apk] always runs the align transform; it runs the alignment
    check next exactly when the transform exited with status zero, and
    nothing else; and it returns success exactly when both exited with
    status zero.  [sign_apk], once the keystore is resolved (the path given,
    else the debug keystore, else one generated by the key generator), runs
    the sign invocation, then the verification exactly when the sign
    invocation exited with status zero, and nothing else; it returns success
    exactly when both exited with status zero; when no keystore could be
    resolved it runs neither and fails.  So in both phases a transform that
    exits zero followed by a check that does not gives failure.  The
    outcomes are those of the operating system for these commands in the
    worlds the phase reaches; neither phase ever raises. *)
Theorem C3_transform_then_verify
    (os : OS) (self : Self) (input_apk output_apk : string)
    (keystore : option string) (st : St (World os)) :
  let T := Some RUN_COMMAND_TIMEOUT in
  let w := world st in
  (* alignment *)
  let align := align_cmd input_apk output_apk in
  let check := align_check_cmd output_apk in
  let a1 := outcome_of os align w in
  let a2 := outcome_of os check (after os align w) in
  let ra := align_apk os self input_apk output_apk st in
  (* the keystore of the signing phase *)
  let debug := os_path_exists os (android_debug_keystore self) w in
  let generate := keytool_cmd (temp_keystore_path os) in
  let g := outcome_of os generate w in
  let generated := negb (Py.truthy_opt keystore) && negb debug in
  let ko := if Py.truthy_opt keystore then keystore
            else if debug then Some (android_debug_keystore self)
            else if exit_zero g then Some (temp_keystore_path os) else None in
  let ks := match ko with Some p => p | None => EmptyString end in
  let ws := if generated then after os generate w else w in
  (* signing *)
  let sign := sign_cmd ks output_apk input_apk in
  let verify := verify_cmd output_apk in
  let s1 := outcome_of os sign ws in
  let s2 := outcome_of os verify (after os sign ws) in
  let rs := sign_apk os self input_apk output_apk keystore st in
  spawns (trace ra)
  = (align, T, a1) :: (if exit_zero a1 then [(check, T, a2)] else [])
  /\ result ra = Return (exit_zero a1 && exit_zero a2)
  /\ (result ra = Return true <-> exit_zero a1 = true /\ exit_zero a2 = true)
  /\ (exit_zero a1 = true -> exit_zero a2 = false -> result ra = Return false)
  /\ spawns (trace rs)
     = ((if generated then [(generate, T, g)] else [])
        ++ (if Py.truthy_opt ko then
              (sign, T, s1) :: (if exit_zero s1 then [(verify, T, s2)] else [])
            else []))%list
  /\ result rs = Return (Py.truthy_opt ko && (exit_zero s1 && exit_zero s2))
  /\ (result rs = Return true <->
      Py.truthy_opt ko = true /\ exit_zero s1 = true /\ exit_zero s2 = true)
  /\ (exit_zero s1 = true -> exit_zero s2 = false -> result rs = Return false).
Proof.
  intros T w align check a1 a2 ra debug generate g generated ko ks ws
    sign verify s1 s2 rs.
  destruct (align_apk_spec os self input_apk output_apk st) as (Har & Has & _).
  destruct (keystore_or_default_spec os self keystore st) as (Hkr & Hks & Hkf & _).
  destruct (sign_apk_spec os self input_apk output_apk keystore st _ Hkr)
    as (Hsr & Hss & _).
  rewrite Hkf in Hsr, Hss. cbn [world] in Hsr, Hss. rewrite Hks in Hss.
  fold w align check a1 a2 ra in Har, Has.
  fold w debug generate g generated ko ks ws sign verify s1 s2 rs in Hsr, Hss.
  split; [exact Has|]. split; [exact Har|].
  split.
  { rewrite Har. split.
    - intros [= H]. now apply andb_true_iff in H.
    - intros (-> & ->). reflexivity. }
  split; [intros H1 H2; now rewrite Har, H1, H2|].
  split; [exact Hss|]. split; [exact Hsr|].
  split.
  { rewrite Hsr. split.
    - intros [= H]. apply andb_true_iff in H. destruct H as (H & H').
      apply andb_true_iff in H'. tauto.
    - intros (-> & -> & ->). reflexivity. }
  intros H1 H2. rewrite Hsr, H1, H2. now rewrite andb_false_r.
Qed.

(** ** C4 and C10: an install phase that fails, and one that raises *)

Section ThreePhases.

Variable os : OS.
Variable self : Self.
Variables (d input_dir output_apk : string) (keystore : option string).
Variable st1 : St (World os).

Let r1 := rebuild_apk os self input_dir (Py.path_join d ["unsigned.apk"]) st1.
Let r2 := align_apk os self (Py.path_join d ["unsigned.apk"])
            (Py.path_join d ["aligned.apk"]) (final r1).
Let r3 := sign_apk os self (Py.path_join d ["aligned.apk"]) output_apk keystore
            (final r2).

(** When the three phases return success one after the other, the loop
    over [steps] hands over to what follows it, in the state the signing
    phase left. *)
Lemma pipeline_after_three_successes install :
  result r1 = Return true -> result r2 = Return true -> result r3 = Return true ->
  pipeline os self d input_dir output_apk install keystore st1
  = prepend (trace r1 ++ trace r2 ++ trace r3)
      (after_steps os self output_apk install (final r3)).
Proof.
  intros H1 H2 H3. unfold pipeline, steps. cbn [run_steps].
  pose proof (exec_eta r1) as E1. rewrite H1 in E1.
  pose proof (exec_eta r2) as E2. rewrite H2 in E2.
  pose proof (exec_eta r3) as E3. rewrite H3 in E3.
  unfold r1 in E1. rewrite (bind_eq E1). cbn [negb]. fold r1.
  unfold r2 in E2. rewrite (bind_eq E2). cbn [negb]. fold r2.
  unfold r3 in E3. rewrite (bind_eq E3). cbn [negb]. fold r3.
  unfold prepend. cbn [result trace final]. now rewrite !app_assoc.
Qed.

End ThreePhases.

(** C4.  When the tools are all found, the working directory is allocated,
    the rebuild, align and sign phases return success one after the other
    and installation was requested, an install phase that returns failure
    does not fail the run: [process_apk] returns success, and the failure is
    logged as the warning "Installation failed, but APK generated". *)
Theorem C4_install_failure_is_a_warning
    (os : OS) (self : Self) (input_dir output_apk : string)
    (keystore : option string) (st : St (World os)) (d : string) :
  missing_in os (world st) = [] ->
  fst (tempfile_mkdtemp os "apkreforge_" (world st)) = inl d ->
  let r1 := rebuild_apk os self input_dir (Py.path_join d ["unsigned.apk"])
              (try_state os st d) in
  let r2 := align_apk os self (Py.path_join d ["unsigned.apk"])
              (Py.path_join d ["aligned.apk"]) (final r1) in
  let r3 := sign_apk os self (Py.path_join d ["aligned.apk"]) output_apk keystore
              (final r2) in
  result r1 = Return true -> result r2 = Return true -> result r3 = Return true ->
  result (install_apk os self output_apk (final r3)) = Return false ->
  let r := process_apk os self input_dir output_apk true keystore st in
  result r = Return true /\ In install_warning (warnings (trace r)).
Proof.
  intros Hmiss Hd r1 r2 r3 H1 H2 H3 Hi r.
  destruct (process_apk_run os self input_dir output_apk true keystore st d Hmiss Hd)
    as (pre & mid & Htr & _ & _ & _ & _ & Hres & _).
  fold r in Htr, Hres.
  pose proof (pipeline_after_three_successes os self d input_dir output_apk keystore
                (try_state os st d) true H1 H2 H3) as Hp.
  fold r1 r2 r3 in Hp.
  destruct (after_steps_install os self output_apk (final r3)) as (_ & Ha).
  rewrite Hi in Ha. destruct Ha as (Har & Haw).
  pose proof (try_except_cases os
                (pipeline os self d input_dir output_apk true keystore)
                (critical_error os self) (try_state os st d)) as Ht.
  rewrite Hp in Ht. cbn [result prepend] in Ht. rewrite Har in Ht.
  fold (try_block os self d input_dir output_apk true keystore) in Ht.
  split.
  - rewrite Hres, Ht. cbn [result prepend]. exact Har.
  - rewrite Htr, Ht. cbn [trace prepend]. rewrite warnings_app. cbn [warnings].
    rewrite !warnings_app, Haw. rewrite !in_app_iff. cbn [In]. tauto.
Qed.

(** C10.  In the same situation, when the device enumeration
    ([subprocess.run(['adb', 'devices'], ...)], outside [run_command])
    raises an exception, [install_apk] raises it, the handler of
    [process_apk] catches it, logs it as a critical error, and the run
    returns failure; whereas an install phase that returns failure leaves
    the run successful. *)
Theorem C10_enumeration_exception_fails_the_run
    (os : OS) (self : Self) (input_dir output_apk : string)
    (keystore : option string) (st : St (World os)) (d e : string) :
  missing_in os (world st) = [] ->
  fst (tempfile_mkdtemp os "apkreforge_" (world st)) = inl d ->
  let r1 := rebuild_apk os self input_dir (Py.path_join d ["unsigned.apk"])
              (try_state os st d) in
  let r2 := align_apk os self (Py.path_join d ["unsigned.apk"])
              (Py.path_join d ["aligned.apk"]) (final r1) in
  let r3 := sign_apk os self (Py.path_join d ["aligned.apk"]) output_apk keystore
              (final r2) in
  result r1 = Return true -> result r2 = Return true -> result r3 = Return true ->
  let r := process_apk os self input_dir output_apk true keystore st in
  (exception_of (fst (subprocess_run os adb_devices_cmd None (world (final r3)))) = Some e ->
   result (install_apk os self output_apk (final r3)) = Raise e
   /\ result r = Return false
   /\ In (critical_error_msg e) (errors (trace r)))
  /\ (result (install_apk os self output_apk (final r3)) = Return false ->
      result r = Return true).
Proof.
  intros Hmiss Hd r1 r2 r3 H1 H2 H3 r. split.
  - intros He.
    destruct (process_apk_run os self input_dir output_apk true keystore st d Hmiss Hd)
      as (pre & mid & Htr & _ & _ & _ & _ & Hres & _).
    fold r in Htr, Hres.
    pose proof (pipeline_after_three_successes os self d input_dir output_apk keystore
                  (try_state os st d) true H1 H2 H3) as Hp.
    fold r1 r2 r3 in Hp.
    assert (Hi : result (install_apk os self output_apk (final r3)) = Raise e).
    { destruct (install_apk_spec os self output_apk (final r3)) as (rest & _ & _ & Hm).
      destruct (fst (subprocess_run os adb_devices_cmd None (world (final r3))));
        cbn in He; try discriminate; injection He as ->; apply Hm. }
    destruct (after_steps_install os self output_apk (final r3)) as (_ & Ha).
    rewrite Hi in Ha. destruct Ha as (Har & _).
    pose proof (try_except_cases os
                  (pipeline os self d input_dir output_apk true keystore)
                  (critical_error os self) (try_state os st d)) as Ht.
    rewrite Hp in Ht. cbn [result prepend] in Ht. rewrite Har in Ht.
    fold (try_block os self d input_dir output_apk true keystore) in Ht.
    rewrite critical_error_eq in Ht. cbn [result trace final] in Ht.
    repeat split.
    + exact Hi.
    + now rewrite Hres, Ht.
    + rewrite Htr, Ht. cbn [trace]. rewrite errors_app. cbn [errors].
      rewrite !errors_app. cbn [errors]. rewrite !in_app_iff. cbn [In].
      unfold critical_error_msg. tauto.
  - intros Hi.
    apply (C4_install_failure_is_a_warning os self input_dir output_apk keystore st d
             Hmiss Hd H1 H2 H3 Hi).
Qed.

(** ** C6: the working directory is removed once, on every exit path *)

Lemma try_block_returns os self d input_dir output_apk install keystore
    (st : St (World os)) :
  let b := try_block os self d input_dir output_apk install keystore st in
  result b = Return true \/ result b = Return false.
Proof.
  cbn zeta. unfold try_block.
  pose proof (try_except_cases os
                (pipeline os self d input_dir output_apk install keystore)
                (critical_error os self) st) as Ht.
  destruct (result (pipeline os self d input_dir output_apk install keystore st))
    as [[|]|e] eqn:E; rewrite Ht; try rewrite E; try rewrite critical_error_eq; auto.
Qed.

Lemma try_block_with_rmtree os rm self d input_dir output_apk install keystore
    (st : St (World os)) :
  try_block (with_rmtree os rm) self d input_dir output_apk install keystore st
  = try_block os self d input_dir output_apk install keystore st.
Proof. reflexivity. Qed.

Lemma cleanup_nothing_to_remove os self (st : St (World os)) d :
  temp_dir st = Some d ->
  Py.truthy d && os_path_exists os d (world st) = false ->
  trace (cleanup os self st) = [].
Proof.
  intros Htd Hex. unfold cleanup. exec. rewrite Htd. cbn [Py.truthy_opt].
  destruct (Py.truthy d); [|reflexivity]. exec. cbn [andb] in Hex. rewrite Hex.
  reflexivity.
Qed.

(** C6 (as stated) fails: [cleanup] removes the working directory only if
    [os.path.exists] still finds it.  Here the temporary storage is swept
    while the last child runs: the run allocates its working directory,
    succeeds, and performs no removal at all. *)
Lemma C6_counterexample_directory_gone_before_cleanup :
  let r := process_apk swept (APKReforge swept false) Witness.input Witness.output
             false None (init (Sim.project "34")) in
  mkdtemps (trace r) = [inl Witness.dir]
  /\ result r = Return true
  /\ rmtrees (trace r) = [].
Proof.
  cbv zeta.
  split; [vm_compute; reflexivity|].
  split; vm_compute; reflexivity.
Qed.

(** C6 (amended).  In every run that allocates the working directory [d]
    (the tools are found and [mkdtemp] returns [d]), whatever the phases do
    (success, a phase that returns failure, an exception raised in the
    install phase): the run returns a result (no exception escapes); nothing
    is removed before the run concludes; then, in the world [w] the effects
    of the run have led to, [shutil.rmtree] is called on [d], exactly once
    and as the last effect of the run, if [d] (a non-empty path) exists in
    [w], and is not called at all otherwise; a failing removal is logged as
    an error; and the result of the run does not depend on what the removal
    does. *)
Theorem C6_working_directory_removed_once
    (os : OS) (self : Self) (input_dir output_apk : string) (install : bool)
    (keystore : option string) (st : St (World os)) (d : string) :
  missing_in os (world st) = [] ->
  fst (tempfile_mkdtemp os "apkreforge_" (world st)) = inl d ->
  let r := process_apk os self input_dir output_apk install keystore st in
  (result r = Return true \/ result r = Return false)
  /\ (exists tr,
        let w := replay os tr (world st) in
        let there := Py.truthy d && os_path_exists os d w in
        let err := fst (shutil_rmtree os d w) in
        rmtrees tr = []
        /\ trace r
           = (tr ++ (if there then Rmtree d err :: cleanup_log self d err else []))%list
        /\ rmtrees (trace r) = (if there then [(d, err)] else [])
        /\ (there = true ->
            forall e, err = Some e ->
              In (Log ERROR ("Error clearing temporary: " ++ e)) (trace r)))
  /\ (forall rm,
        result (process_apk (with_rmtree os rm) self input_dir output_apk install
                  keystore st)
        = result r).
Proof.
  intros Hmiss Hd r.
  destruct (process_apk_run os self input_dir output_apk install keystore st d Hmiss Hd)
    as (pre & mid & Htr & Hpre & Hmid & _ & _ & Hres & _).
  fold r in Htr, Hres.
  set (body := try_block os self d input_dir output_apk install keystore
                 (try_state os st d)) in *.
  destruct (tame_try_block os self d input_dir output_apk install keystore
              (try_state os st d)) as (Hbody & Hworld & Htd).
  fold body in Hbody, Hworld, Htd. cbn [try_state temp_dir world] in Htd, Hworld.
  destruct (output_no_effect os _ (world st) Hpre) as (Wpre & _ & _ & Rpre).
  pose proof (no_dir_rmtrees _ Hbody) as Rbody.
  set (tr := (pre ++ Mkdtemp "apkreforge_" (inl d) :: mid ++ trace body)%list).
  assert (Rtr : rmtrees tr = []).
  { unfold tr. rewrite rmtrees_app, Rpre. cbn [rmtrees app].
    rewrite rmtrees_app, Rbody.
    destruct (output_no_effect os _ (world st) Hmid) as (_ & _ & _ & ->).
    reflexivity. }
  assert (Wtr : replay os tr (world st) = world (final body)).
  { unfold tr. rewrite replay_app, Wpre.
    change (Mkdtemp "apkreforge_" (inl d) :: mid ++ trace body)%list
      with ([Mkdtemp "apkreforge_" (inl d)] ++ mid ++ trace body)%list.
    rewrite !replay_app.
    destruct (output_no_effect os mid
                (replay os [Mkdtemp "apkreforge_" (inl d)] (world st)) Hmid)
      as (-> & _).
    now rewrite Hworld. }
  assert (Htr' : trace r = (tr ++ trace (cleanup os self (final body)))%list).
  { rewrite Htr. unfold tr. rewrite <- !app_assoc. cbn [app].
    now rewrite <- !app_assoc. }
  split; [rewrite Hres; apply try_block_returns|].
  split.
  - exists tr. cbn zeta. rewrite Wtr.
    split; [exact Rtr|].
    destruct (Py.truthy d && os_path_exists os d (world (final body))) eqn:Hex.
    + apply andb_true_iff in Hex. destruct Hex as (Htruthy & Hex).
      pose proof (cleanup_trace os self (final body) d Htd Htruthy Hex) as Hcl.
      rewrite Htr', Hcl.
      split; [reflexivity|]. split.
      * rewrite rmtrees_app, Rtr. cbn [rmtrees app].
        destruct (fst (shutil_rmtree os d (world (final body)))) as [e|];
          cbn [cleanup_log]; [reflexivity|].
        destruct (verbose self); reflexivity.
      * intros _ e He. rewrite He. cbn [cleanup_log].
        rewrite in_app_iff. right. right. left. reflexivity.
    + rewrite Htr', (cleanup_nothing_to_remove os self (final body) d Htd Hex).
      split; [reflexivity|]. split; [now rewrite app_nil_r|discriminate].
  - intros rm.
    destruct (process_apk_run (with_rmtree os rm) self input_dir output_apk install
                keystore st d Hmiss Hd) as (_ & _ & _ & _ & _ & _ & _ & Hres' & _).
    rewrite Hres', Hres. apply (f_equal result).
    apply try_block_with_rmtree.
Qed.

(** ** C2: the rebuild phase and its fallback *)

(** What holds of the rebuild phase on every input: it spawns nothing when
    the manifest is missing; otherwise the first invocation asks for the
    alt-mode exactly when [detect_high_sdk] says so; a second invocation, the
    plain one, follows exactly when the first did not exit zero, whichever
    mode the first was in; there is never a third; and the phase fails when
    both fail. *)
Lemma rebuild_apk_attempts
    (os : OS) (self : Self) (input_dir output_apk : string) (st : St (World os)) :
  let r := rebuild_apk os self input_dir output_apk st in
  let high := is_high_sdk os input_dir (world st) in
  let T := Some RUN_COMMAND_TIMEOUT in
  spawns (trace r) = []
  \/ (exists o1,
        spawns (trace r) = [(rebuild_cmd high input_dir output_apk, T, o1)]
        /\ exit_zero o1 = true /\ result r = Return true)
  \/ (exists o1 o2,
        spawns (trace r)
        = [(rebuild_cmd high input_dir output_apk, T, o1);
           (rebuild_cmd_fallback input_dir output_apk, T, o2)]
        /\ exit_zero o1 = false /\ result r = Return (exit_zero o2)).
Proof.
  cbn zeta.
  destruct (rebuild_apk_spec os self input_dir output_apk st) as (Hr & Hs & _).
  rewrite Hr, Hs.
  destruct (os_path_exists os _ (world st)); [|now left].
  right. cbn [andb].
  destruct (exit_zero (outcome_of os (rebuild_cmd _ _ _) (world st))) eqn:E1.
  - left. eexists. repeat split. exact E1.
  - right. do 2 eexists. repeat split. exact E1.
Qed.

Lemma rebuild_cmd_alt_mode (high : bool) (input_dir output_apk : string) :
  In "--use-aapt2" (rebuild_cmd high input_dir output_apk) <->
  high = true \/ output_apk = "--use-aapt2" \/ input_dir = "--use-aapt2".
Proof.
  unfold rebuild_cmd. rewrite filter_In. cbn [In]. split.
  - intros (H & _). repeat destruct H as [H|H]; try discriminate H; auto;
      try contradiction.
    destruct high; [auto|discriminate H].
  - intros [ -> | [ -> | -> ] ]; split; auto; cbn; auto 10.
Qed.

(** C2.  On a manifest whose target version is 33, [detect_high_sdk]
    answers no and the first rebuild invocation is the plain one; when it
    fails, [rebuild_apk] still warns "Trying without AAPT2..." and runs the
    plain invocation a second time as the fallback, although the alt-mode
    was never used. *)
Theorem C2_fallback_without_alt_mode :
  let cfg := {| Sim.missing_tools := [];
                Sim.failing := Sim.hd_is "apktool";
                Sim.adb_devices := Sim.ok;
                Sim.rmtree_error := None |} in
  let os := Sim.os cfg in
  let st := init (Sim.project "33") in
  let r := rebuild_apk os (APKReforge os false) "/work/app" "/tmp/w/unsigned.apk" st in
  is_high_sdk os "/work/app" (world st) = false
  /\ commands (trace r)
     = [["apktool"; "b"; "-o"; "/tmp/w/unsigned.apk"; "/work/app"];
        ["apktool"; "b"; "/work/app"; "-o"; "/tmp/w/unsigned.apk"]]
  /\ Forall (fun cmd => ~ In "--use-aapt2" cmd) (commands (trace r))
  /\ warnings (trace r) = [YELLOW ++ "Trying without AAPT2..." ++ RESET]
  /\ result r = Return false.
Proof.
  cbv zeta. repeat split; try (vm_compute; reflexivity).
  vm_compute. repeat constructor; intros H; repeat destruct H as [H|H];
    try discriminate H; exact H.
Qed.

(** ** C9: the timeout of the external invocations *)

(** Every child process of the rebuild, align and sign phases, and every
    installation, is spawned by [run_command] with its timeout. *)
Lemma phases_are_bounded
    (os : OS) (self : Self) (d input_dir output_apk : string)
    (keystore : option string) (st : St (World os)) :
  Forall bounded
    (spawns (trace (mandatory_phases os self d input_dir output_apk keystore st))).
Proof.
  apply bounded_spawns.
  refine (proj1 (tame_run_steps os self bounded_event _ (ret true) _ I _ _ st)).
  - unfold steps.
    apply Forall_cons; [|apply Forall_cons; [|apply Forall_cons; [|apply Forall_nil]]];
      cbn [snd].
    + apply tame_rebuild_apk.
    + apply tame_align_apk.
    + apply tame_sign_apk.
  - intros; exact I.
  - apply tame_ret.
Qed.

(** C9.  The install phase starts with the device enumeration, spawned by
    [subprocess.run] directly and without any timeout; only the
    installations that follow it are bounded by the timeout of
    [run_command].  So not every invocation of the pipeline is bounded. *)
Theorem C9_enumeration_has_no_timeout
    (os : OS) (self : Self) (apk_path : string) (st : St (World os)) :
  let r := install_apk os self apk_path st in
  (exists o rest,
     spawns (trace r) = (adb_devices_cmd, None, o) :: rest /\ Forall bounded rest)
  /\ ~ Forall bounded (spawns (trace r)).
Proof.
  cbn zeta.
  destruct (install_apk_spec os self apk_path st) as (rest & Hs & Hb & _).
  split.
  - now exists (fst (subprocess_run os adb_devices_cmd None (world st))), rest.
  - rewrite Hs. intros H. inversion H as [|x l Hx _]. discriminate Hx.
Qed.

(** ** C5: the install phase *)

(** *** Python's string operations on the output of [adb devices] *)

Lemma string_app_assoc (a b c : string) : (a ++ b) ++ c = a ++ (b ++ c).
Proof. induction a as [|x a IH]; cbn; [reflexivity|now rewrite IH]. Qed.

Lemma all_chars_app p (a b : string) :
  all_chars p (a ++ b) = all_chars p a && all_chars p b.
Proof.
  induction a as [|x a IH]; cbn; [reflexivity|].
  rewrite IH. now rewrite andb_assoc.
Qed.

Lemma splitlines_line (s rest : string) :
  all_chars (fun c => negb (Py.islinebreak c)) s = true ->
  Py.splitlines (s ++ Py.NL ++ rest) = s :: Py.splitlines rest.
Proof.
  induction s as [|c s IH]; intros H.
  - reflexivity.
  - cbn in H. apply andb_true_iff in H. destruct H as (Hc & Hs).
    apply negb_true_iff in Hc.
    change ((String c s) ++ Py.NL ++ rest) with (String c (s ++ Py.NL ++ rest)).
    cbn [Py.splitlines]. rewrite Hc, (IH Hs). reflexivity.
Qed.

Lemma not_tab_neq (c : ascii) : Py.is_tab c = false -> ascii_of_nat 9 <> c.
Proof. intros H <-. discriminate H. Qed.

Lemma prefix_tab_other (needle : string) (c : ascii) (s : string) :
  Py.is_tab c = false -> prefix (Py.TAB ++ needle) (String c s) = false.
Proof.
  intros H. change (Py.TAB ++ needle) with (String (ascii_of_nat 9) needle).
  cbn [prefix]. destruct (ascii_dec (ascii_of_nat 9) c) as [E|E]; [|reflexivity].
  now apply not_tab_neq in H.
Qed.

Lemma contains_tab_free (needle s : string) :
  all_chars (fun c => negb (Py.is_tab c)) s = true ->
  Py.contains (Py.TAB ++ needle) s = false.
Proof.
  induction s as [|c s IH]; intros H.
  - reflexivity.
  - cbn in H. apply andb_true_iff in H. destruct H as (Hc & Hs).
    apply negb_true_iff in Hc.
    cbn [Py.contains]. rewrite (prefix_tab_other needle c s Hc), (IH Hs). reflexivity.
Qed.

Lemma prefix_tab_tab (needle s : string) :
  prefix (Py.TAB ++ needle) (Py.TAB ++ s) = prefix needle s.
Proof.
  change (Py.TAB ++ needle) with (String (ascii_of_nat 9) needle).
  change (Py.TAB ++ s) with (String (ascii_of_nat 9) s).
  cbn [prefix]. destruct (ascii_dec (ascii_of_nat 9) (ascii_of_nat 9)); congruence.
Qed.

(** On a line [id<TAB>state] with no other tab, ['\tdevice' in line] says
    that [state] begins with "device". *)
Lemma contains_tab_device (id state : string) :
  all_chars (fun c => negb (Py.is_tab c)) id = true ->
  all_chars (fun c => negb (Py.is_tab c)) state = true ->
  Py.contains (Py.TAB ++ "device") (id ++ Py.TAB ++ state) = prefix "device" state.
Proof.
  intros Hid Hstate. induction id as [|c id IH].
  - change (EmptyString ++ Py.TAB ++ state) with (String (ascii_of_nat 9) state).
    cbn [Py.contains]. rewrite (contains_tab_free "device" state Hstate).
    rewrite orb_false_r. apply (prefix_tab_tab "device" state).
  - cbn in Hid. apply andb_true_iff in Hid. destruct Hid as (Hc & Hid).
    apply negb_true_iff in Hc.
    change (String c id ++ Py.TAB ++ state) with (String c (id ++ Py.TAB ++ state)).
    cbn [Py.contains]. rewrite (prefix_tab_other "device" c _ Hc), (IH Hid).
    reflexivity.
Qed.

Lemma split_tab_head_line (id state : string) :
  all_chars (fun c => negb (Py.is_tab c)) id = true ->
  Py.split_tab_head (id ++ Py.TAB ++ state) = id.
Proof.
  induction id as [|c id IH]; intros H.
  - reflexivity.
  - cbn in H. apply andb_true_iff in H. destruct H as (Hc & Hid).
    apply negb_true_iff in Hc.
    change (String c id ++ Py.TAB ++ state) with (String c (id ++ Py.TAB ++ state)).
    cbn [Py.split_tab_head]. rewrite Hc, (IH Hid). reflexivity.
Qed.

Lemma well_formed_line (t : string * string) :
  well_formed_target t = true ->
  all_chars (fun c => negb (Py.islinebreak c)) (adb_devices_line t) = true.
Proof.
  unfold well_formed_target, adb_devices_line, plain_text. intros H.
  apply andb_true_iff in H. destruct H as (H1 & H2).
  apply andb_true_iff in H1. destruct H1 as (H1 & _).
  apply andb_true_iff in H2. destruct H2 as (H2 & _).
  rewrite !all_chars_app, H1, H2. reflexivity.
Qed.

Lemma splitlines_adb_devices_lines (targets : list (string * string)) :
  forallb well_formed_target targets = true ->
  Py.splitlines (adb_devices_lines targets ++ Py.NL)
  = (map adb_devices_line targets ++ [EmptyString])%list.
Proof.
  induction targets as [|t ts IH]; intros H.
  - reflexivity.
  - cbn in H. apply andb_true_iff in H. destruct H as (Ht & Hts).
    cbn [adb_devices_lines map app].
    rewrite !string_app_assoc.
    rewrite (splitlines_line _ _ (well_formed_line t Ht)).
    now rewrite (IH Hts).
Qed.

Lemma splitlines_adb_devices_stdout (targets : list (string * string)) :
  forallb well_formed_target targets = true ->
  Py.splitlines (adb_devices_stdout targets)
  = ("List of devices attached" :: map adb_devices_line targets ++ [EmptyString])%list.
Proof.
  intros H. unfold adb_devices_stdout.
  rewrite (splitlines_line "List of devices attached" _ eq_refl).
  now rewrite (splitlines_adb_devices_lines targets H).
Qed.

(** The devices the code selects from the output of [adb devices]. *)
Lemma active_devices_of_targets (targets : list (string * string)) :
  forallb well_formed_target targets = true ->
  active_devices_of (Py.splitlines (adb_devices_stdout targets))
  = eligible_devices targets.
Proof.
  intros H. rewrite (splitlines_adb_devices_stdout targets H).
  unfold active_devices_of, eligible_devices, Py.from1. cbn [tl].
  induction targets as [|[id state] ts IH].
  - reflexivity.
  - cbn in H. apply andb_true_iff in H. destruct H as (Ht & Hts).
    unfold well_formed_target, plain_text in Ht. cbn [fst snd] in Ht.
    apply andb_true_iff in Ht. destruct Ht as (H1 & H2).
    apply andb_true_iff in H1. destruct H1 as (_ & H1).
    apply andb_true_iff in H2. destruct H2 as (_ & H2).
    cbn [map app filter snd fst]. unfold adb_devices_line at 1. cbn [fst snd].
    rewrite (contains_tab_device id state H1 H2).
    destruct (prefix "device" state); cbn [map fst]; rewrite (IH Hts); [|reflexivity].
    unfold adb_devices_line. cbn [fst snd].
    now rewrite (split_tab_head_line id state H1).
Qed.

(** C5 (as stated) fails: a target whose reported state is not exactly
    "device" but begins with it is selected, because the code tests
    ['\tdevice' in line]. *)
Lemma C5_counterexample_state_not_exactly_device :
  let targets := [("A", "offline"); ("B", "devices")] in
  let cfg := {| Sim.missing_tools := [];
                Sim.failing := Sim.never;
                Sim.adb_devices := Completed 0 (adb_devices_stdout targets) EmptyString;
                Sim.rmtree_error := None |} in
  let os := Sim.os cfg in
  let r := install_apk os (APKReforge os false) "/work/out/final.apk" (init []) in
  In ("B", "devices") targets
  /\ "devices" <> "device"
  /\ In (install_cmd "B" "/work/out/final.apk") (commands (trace r)).
Proof.
  cbv zeta. split; [|split].
  - right. left. reflexivity.
  - discriminate.
  - vm_compute. right. left. reflexivity.
Qed.

(** C5 (amended).  For every list of targets (identifier and state without
    tab or line boundary) printed by the device enumeration, whatever its
    exit status: the installer attempts installation, in order, on exactly
    the targets whose reported state begins with "device" (so not on offline
    or unauthorized ones), each attempt being made whatever the outcome of the
    others; it returns failure when there is no such target; otherwise it
    returns success if and only if every attempt exited with status zero. *)
Theorem C5_install_on_every_eligible_target
    (os : OS) (self : Self) (apk_path : string) (st : St (World os))
    (targets : list (string * string)) (rc : Z) (stderr : string) :
  forallb well_formed_target targets = true ->
  fst (subprocess_run os adb_devices_cmd None (world st))
  = Completed rc (adb_devices_stdout targets) stderr ->
  let r := install_apk os self apk_path st in
  exists attempts,
    spawns (trace r)
    = (adb_devices_cmd, None, Completed rc (adb_devices_stdout targets) stderr)
        :: attempts
    /\ map (fun x => fst (fst x)) attempts
       = map (fun id => install_cmd id apk_path) (eligible_devices targets)
    /\ (eligible_devices targets = [] -> result r = Return false)
    /\ (eligible_devices targets <> [] -> result r = Return (forallb spawn_ok attempts))
    /\ (result r = Return true <->
        eligible_devices targets <> []
        /\ Forall (fun x => exit_zero (snd x) = true) attempts).
Proof.
  intros Hwf Henum r.
  destruct (install_apk_spec os self apk_path st) as (rest & Hs & _ & Hm).
  fold r in Hs, Hm. rewrite Henum in Hs, Hm. cbn zeta in Hm.
  rewrite (active_devices_of_targets targets Hwf) in Hm.
  destruct Hm as (Hc & Hr).
  exists rest. split; [exact Hs|]. split; [exact Hc|].
  assert (Hall : forallb spawn_ok rest = true <->
                 Forall (fun x => exit_zero (snd x) = true) rest).
  { rewrite forallb_forall, Forall_forall. reflexivity. }
  destruct (eligible_devices targets) as [|id ids]; cbn [andb] in Hr.
  - split; [intros _; exact Hr|]. split; [congruence|].
    split; [congruence|]. intros (Hne & _). congruence.
  - split; [discriminate|]. split; [intros _; exact Hr|].
    split.
    + intros Ht. rewrite Ht in Hr. injection Hr as Hr.
      split; [discriminate|]. apply Hall. auto.
    + intros (_ & Ht). apply Hall in Ht. now rewrite Hr, Ht.
Qed.

(** The states the claim names are not eligible, and "device" is. *)
Lemma eligible_devices_example :
  eligible_devices [("A", "device"); ("B", "offline"); ("C", "unauthorized");
                    ("D", "device")]
  = ["A"; "D"].
Proof. reflexivity. Qed.

(** ** C7: what is left at the output path *)

Section Pipeline.

Variable os : OS.
Variable self : Self.
Variables (d input_dir output_apk : string) (keystore : option string).
Variable st1 : St (World os).

Let unsigned := Py.path_join d ["unsigned.apk"].
Let aligned := Py.path_join d ["aligned.apk"].
Let r1 := rebuild_apk os self input_dir unsigned st1.
Let r2 := align_apk os self unsigned aligned (final r1).
Let r3 := sign_apk os self aligned output_apk keystore (final r2).

(** The child processes and the result of the [try] block, phase by
    phase. *)
Lemma pipeline_spec install b1 b2 b3 :
  result r1 = Return b1 -> result r2 = Return b2 -> result r3 = Return b3 ->
  let p := pipeline os self d input_dir output_apk install keystore st1 in
  let a := after_steps os self output_apk install (final r3) in
  spawns (trace p)
  = (spawns (trace r1)
     ++ (if b1 then
           spawns (trace r2)
           ++ (if b2 then
                 spawns (trace r3) ++ (if b3 then spawns (trace a) else [])
               else [])
         else []))%list
  /\ result p = (if b1 && b2 && b3 then result a else Return false).
Proof.
  intros H1 H2 H3. cbn zeta. unfold pipeline, steps. cbn [run_steps].
  pose proof (exec_eta r1) as E1. rewrite H1 in E1.
  pose proof (exec_eta r2) as E2. rewrite H2 in E2.
  pose proof (exec_eta r3) as E3. rewrite H3 in E3.
  unfold r1, unsigned in E1. rewrite (bind_eq E1). fold unsigned. fold r1.
  destruct b1; cbn [negb andb];
    [|exec; effects; rewrite ?app_nil_r; auto].
  unfold r2, unsigned, aligned in E2. rewrite (bind_eq E2).
  fold unsigned. fold aligned. fold r2.
  destruct b2; cbn [negb andb];
    [|exec; effects; rewrite ?app_nil_r; auto].
  unfold r3, aligned in E3. rewrite (bind_eq E3). fold aligned. fold r3.
  destruct b3; cbn [negb andb];
    [|exec; effects; rewrite ?app_nil_r; auto].
  effects. auto.
Qed.

Lemma try_block_spec install :
  let p := pipeline os self d input_dir output_apk install keystore st1 in
  let b := try_block os self d input_dir output_apk install keystore st1 in
  spawns (trace b) = spawns (trace p)
  /\ result b = match result p with Return x => Return x | Raise _ => Return false end.
Proof.
  cbn zeta. unfold try_block.
  pose proof (try_except_cases os
                (pipeline os self d input_dir output_apk install keystore)
                (critical_error os self) st1) as Ht.
  destruct (result (pipeline os self d input_dir output_apk install keystore st1))
    as [x|e] eqn:E; rewrite Ht; [rewrite ?E; auto|].
  rewrite critical_error_eq. cbn [result trace final].
  rewrite spawns_app. cbn. now rewrite app_nil_r.
Qed.



End Pipeline.

Lemma cleanup_general (os : OS) (self : Self) (st : St (World os)) :
  let r := cleanup os self st in
  spawns (trace r) = [] /\ mkdtemps (trace r) = []
  /\ world (final r) = replay os (trace r) (world st)
  /\ (rmtrees (trace r) = []
      \/ exists p err, temp_dir st = Some p /\ rmtrees (trace r) = [(p, err)]).
Proof.
  cbn zeta. unfold cleanup. exec.
  destruct (temp_dir st) as [p|] eqn:Htd; cbn [Py.truthy_opt]; [|cbn; auto].
  destruct (Py.truthy p); [|cbn; auto].
  exec. destruct (os_path_exists os p (world st)); [|cbn; auto].
  unfold bind, rmtree. cbn [result trace final world temp_dir].
  destruct (fst (shutil_rmtree os p (world st))) as [e|];
    rewrite log_eq; unfold enabled; try destruct (verbose self); cbn;
    repeat split; eauto.
Qed.

Lemma install_apk_spawns_adb (os : OS) (self : Self) apk_path (st : St (World os)) :
  let i := install_apk os self apk_path st in
  spawns (trace i) <> [] /\ Forall (fun x => tool_of x = "adb") (spawns (trace i)).
Proof.
  cbn zeta. destruct (install_apk_spec os self apk_path st) as (rest & Hs & _ & Hm).
  rewrite Hs. split; [discriminate|]. apply Forall_cons; [reflexivity|].
  destruct (fst (subprocess_run os adb_devices_cmd None (world st)))
    as [rc out err|e|e]; try (destruct Hm as (-> & _); constructor).
  destruct Hm as (Hc & _). revert Hc.
  generalize (active_devices_of (Py.splitlines out)). clear.
  induction rest as [|x rest IH]; intros [|dv devs] Hc; try discriminate Hc;
    constructor.
  - injection Hc as Hx _. unfold tool_of. now rewrite Hx.
  - injection Hc as _ Hc. eauto.
Qed.

(** Every change of the world made by a run that allocates its working
    directory is one of its traced effects; its child processes are those
    of the [try] block; and it removes at most one tree, the working
    directory. *)
Lemma process_apk_effects (os : OS) (self : Self) input_dir output_apk install
    keystore (st : St (World os)) d :
  missing_in os (world st) = [] ->
  fst (tempfile_mkdtemp os "apkreforge_" (world st)) = inl d ->
  let r := process_apk os self input_dir output_apk install keystore st in
  let body := try_block os self d input_dir output_apk install keystore
                (try_state os st d) in
  world (final r) = replay os (trace r) (world st)
  /\ spawns (trace r) = spawns (trace body)
  /\ result r = result body
  /\ (rmtrees (trace r) = [] \/ exists err, rmtrees (trace r) = [(d, err)]).
Proof.
  intros Hmiss Hd r body.
  destruct (process_apk_run os self input_dir output_apk install keystore st d Hmiss Hd)
    as (pre & mid & Htr & Hpre & Hmid & _ & _ & Hres & Hfin).
  fold r body in Htr, Hres, Hfin.
  destruct (tame_try_block os self d input_dir output_apk install keystore
              (try_state os st d)) as (Hbody & Hworld & Htd).
  fold body in Hbody, Hworld, Htd. cbn [try_state temp_dir world] in Htd, Hworld.
  destruct (cleanup_general os self (final body)) as (Scl & _ & Wcl & Rcl).
  destruct (output_no_effect os _ (world st) Hpre) as (Wpre & Spre & _ & Rpre).
  pose proof (no_dir_rmtrees _ Hbody) as Rbody.
  repeat split.
  - rewrite Hfin, Wcl, Hworld, Htr.
    rewrite replay_app, Wpre.
    change (Mkdtemp "apkreforge_" (inl d) :: mid ++ trace body
              ++ trace (cleanup os self (final body)))%list
      with ([Mkdtemp "apkreforge_" (inl d)] ++ mid ++ trace body
              ++ trace (cleanup os self (final body)))%list.
    rewrite !replay_app.
    destruct (output_no_effect os mid
                (replay os [Mkdtemp "apkreforge_" (inl d)] (world st)) Hmid)
      as (-> & _).
    reflexivity.
  - rewrite Htr, spawns_app, Spre. cbn [spawns spawn_of app].
    rewrite !spawns_app, Scl, app_nil_r.
    destruct (output_no_effect os _ (world st) Hmid) as (_ & -> & _).
    reflexivity.
  - exact Hres.
  - assert (Hrm : rmtrees (trace r) = rmtrees (trace (cleanup os self (final body)))).
    { rewrite Htr, rmtrees_app, Rpre. cbn [rmtrees app].
      rewrite !rmtrees_app, Rbody.
      destruct (output_no_effect os _ (world st) Hmid) as (_ & _ & _ & ->).
      reflexivity. }
    rewrite Hrm. destruct Rcl as [->|(p & err & Hp & ->)]; [now left|].
    right. exists err. congruence.
Qed.

(** The phases of a run that allocates its working directory. *)

Section Run.

Variable os : OS.
Variable self : Self.
Variables (input_dir output_apk : string) (install : bool) (keystore : option string).
Variable st : St (World os).
Variable d : string.

Hypothesis tools_found : missing_in os (world st) = [].
Hypothesis allocated : fst (tempfile_mkdtemp os "apkreforge_" (world st)) = inl d.

Let st1 := try_state os st d.
Let unsigned := Py.path_join d ["unsigned.apk"].
Let aligned := Py.path_join d ["aligned.apk"].
Let r1 := rebuild_apk os self input_dir unsigned st1.
Let r2 := align_apk os self unsigned aligned (final r1).
Let r3 := sign_apk os self aligned output_apk keystore (final r2).
Let i := install_apk os self output_apk (final r3).
Let r := process_apk os self input_dir output_apk install keystore st.

(** The three phases return booleans; the children of the run are those of
    the phases reached, in order; and the result is decided by the phases
    and, when installation is requested, by whether the install phase
    raises. *)
Lemma process_apk_phases :
  exists b1 b2 b3,
    result r1 = Return b1 /\ result r2 = Return b2 /\ result r3 = Return b3
    /\ spawns (trace r)
       = (spawns (trace r1)
          ++ (if b1 then
                spawns (trace r2)
                ++ (if b2 then
                      spawns (trace r3)
                      ++ (if b3 && install then spawns (trace i) else [])
                    else [])
              else []))%list
    /\ result r
       = Return (b1 && b2 && b3
                 && (negb install
                     || match result i with Return _ => true | Raise _ => false end)).
Proof.
  destruct (rebuild_apk_spec os self input_dir unsigned st1) as (Hr1 & _).
  destruct (align_apk_spec os self unsigned aligned (final r1)) as (Hr2 & _).
  destruct (keystore_or_default_spec os self keystore (final r2)) as (Hkr & _).
  destruct (sign_apk_spec os self aligned output_apk keystore (final r2) _ Hkr)
    as (Hr3 & _).
  fold r1 in Hr1. fold r1 r2 in Hr2. fold r1 r2 r3 in Hr3.
  do 3 eexists. split; [exact Hr1|]. split; [exact Hr2|]. split; [exact Hr3|].
  destruct (process_apk_effects os self input_dir output_apk install keystore st d
              tools_found allocated) as (_ & Hs & Hres & _).
  fold r st1 in Hs, Hres.
  destruct (pipeline_spec os self d input_dir output_apk keystore st1 install
              _ _ _ Hr1 Hr2 Hr3) as (Hps & Hpr).
  fold unsigned aligned r1 r2 r3 in Hps, Hpr.
  destruct (try_block_spec os self d input_dir output_apk keystore st1 install)
    as (Hbs & Hbr).
  rewrite Hs, Hbs, Hps, Hres, Hbr, Hpr. clear Hs Hbs Hps Hres Hbr Hpr.
  match goal with
  | |- context [Return (?x && ?y && ?z && _)] =>
      generalize x y z; intros b1 b2 b3
  end.
  clear Hr1 Hr2 Hr3 Hkr.
  destruct install.
  - destruct (after_steps_install os self output_apk (final r3)) as (Ha & Hb).
    fold i in Ha, Hb. rewrite Ha. cbn [negb orb].
    destruct b1, b2, b3; cbn [andb]; try (split; reflexivity).
    split; [reflexivity|].
    destruct (result i) as [ok|e]; [destruct Hb as (-> & _)|destruct Hb as (-> & _)];
      reflexivity.
  - destruct (after_steps_no_install os self output_apk (final r3)) as (Ha & Hb & _).
    rewrite Ha, Hb. cbn [negb orb]. rewrite !andb_false_r, !andb_true_r.
    destruct b1, b2, b3; cbn [andb]; split; reflexivity.
Qed.

End Run.

Lemma process_apk_mkdtemp_raises
    (os : OS) (self : Self) (input_dir output_apk : string) (install : bool)
    (keystore : option string) (st : St (World os)) (e : string) :
  missing_in os (world st) = [] ->
  fst (tempfile_mkdtemp os "apkreforge_" (world st)) = inr e ->
  let r := process_apk os self input_dir output_apk install keystore st in
  exists pre,
    r = mkExec (Raise e) (pre ++ [Mkdtemp "apkreforge_" (inr e)])
          (mkSt (snd (tempfile_mkdtemp os "apkreforge_" (world st))) (temp_dir st))
    /\ Forall output_event pre /\ errors pre = [].
Proof.
  intros Hmiss He. cbn zeta. unfold process_apk. rewrite bind_banner. exec.
  destruct (check_dependencies_eq os self st) as (tr & Heq & Hout & Herr).
  rewrite (bind_eq Heq). rewrite missing_of_check_dependencies, Hmiss.
  assert (Hmk : mkdtemp os "apkreforge_" st
                = mkExec (Raise e) [Mkdtemp "apkreforge_" (inr e)]
                    (mkSt (snd (tempfile_mkdtemp os "apkreforge_" (world st)))
                       (temp_dir st))).
  { unfold mkdtemp. now rewrite He. }
  rewrite (bind_raise Hmk). unfold prepend. cbn [result trace final enabled].
  eexists. split; [rewrite !app_assoc; reflexivity|]. split.
  - repeat first [ apply banner_output | exact Hout | apply Forall_nil
                   | apply Forall_cons; [exact I|] | apply Forall_app; split ].
  - rewrite !errors_app, Herr, Hmiss. reflexivity.
Qed.





(** ** C8: which keystore the signing phase uses *)

(** With no explicit keystore, the signing phase invokes the key generator
    exactly when the well-known debug keystore does not exist at that
    moment; it then generates at the fixed temporary
    location, as its first invocation, whether or not a keystore already
    exists there (for instance from a previous run); and when the debug
    keystore exists it signs with it, generating nothing. *)
Lemma sign_apk_generates_unless_debug_keystore
    (os : OS) (self : Self) (input_apk output_apk : string) (st : St (World os)) :
  let r := sign_apk os self input_apk output_apk None st in
  let generate := keytool_cmd (temp_keystore_path os) in
  let debug := os_path_exists os (android_debug_keystore self) (world st) in
  (In generate (commands (trace r)) <-> debug = false)
  /\ (debug = false ->
      exists o rest,
        spawns (trace r) = (generate, Some RUN_COMMAND_TIMEOUT, o) :: rest)
  /\ (debug = true -> Py.truthy (android_debug_keystore self) = true ->
      exists o rest,
        spawns (trace r)
        = (sign_cmd (android_debug_keystore self) output_apk input_apk,
           Some RUN_COMMAND_TIMEOUT, o) :: rest).
Proof.
  cbn zeta.
  destruct (keystore_or_default_spec os self None st) as (Hkr & Hks & _).
  destruct (sign_apk_spec os self input_apk output_apk None st _ Hkr) as (_ & Hss & _).
  rewrite Hks in Hss. cbn [Py.truthy_opt negb andb] in Hss.
  unfold commands. rewrite Hss. clear Hss Hks Hkr.
  destruct (os_path_exists os (android_debug_keystore self) (world st)); cbn [negb app].
  - split; [|split].
    + split; [|discriminate]. intros H. exfalso.
      destruct (Py.truthy_opt _); [|exact H].
      destruct (exit_zero _); cbn in H; repeat destruct H as [H|H];
        try discriminate H; exact H.
    + discriminate.
    + intros _ Ht. cbn [Py.truthy_opt]. rewrite Ht. eauto.
  - split; [|split].
    + split; [reflexivity|]. intros _. cbn [map fst]. left. reflexivity.
    + intros _. eauto.
    + discriminate.
Qed.

Lemma not_spawned (tool : string) (cmd : list string)
    (l : list (list string * option Z * ProcOutcome)) :
  hd EmptyString cmd <> tool ->
  Forall (fun x => tool_of x = tool) l ->
  ~ In cmd (map (fun x => fst (fst x)) l).
Proof.
  intros Hne Hl Hin. apply in_map_iff in Hin. destruct Hin as (x & Hx & Hin).
  rewrite Forall_forall in Hl. specialize (Hl x Hin). unfold tool_of in Hl.
  rewrite Hx in Hl. contradiction.
Qed.

(** With no explicit keystore, a run that allocates its working directory
    invokes the key generator exactly when it gets to the signing phase and
    the debug keystore does not exist then. *)
Lemma keystore_generated_in_a_run
    (os : OS) (self : Self) (input_dir output_apk : string) (install : bool)
    (st : St (World os)) (d : string) :
  missing_in os (world st) = [] ->
  fst (tempfile_mkdtemp os "apkreforge_" (world st)) = inl d ->
  let r := process_apk os self input_dir output_apk install None st in
  In (keytool_cmd (temp_keystore_path os)) (commands (trace r)) <->
  exists w, signing_starts os self d input_dir st = Some w
            /\ os_path_exists os (android_debug_keystore self) w = false.
Proof.
  intros Hmiss Hd r.
  destruct (process_apk_phases os self input_dir output_apk install None st d
              Hmiss Hd) as (b1 & b2 & b3 & H1 & H2 & H3 & Hs & _).
  fold r in Hs. unfold signing_starts.
  set (unsigned := Py.path_join d ["unsigned.apk"]) in *.
  set (aligned := Py.path_join d ["aligned.apk"]) in *.
  set (r1 := rebuild_apk os self input_dir unsigned (try_state os st d)) in *.
  set (r2 := align_apk os self unsigned aligned (final r1)) in *.
  set (r3 := sign_apk os self aligned output_apk None (final r2)) in *.
  set (i := install_apk os self output_apk (final r3)) in *.
  set (generate := keytool_cmd (temp_keystore_path os)).
  assert (N1 : ~ In generate (map (fun x => fst (fst x)) (spawns (trace r1)))).
  { apply (not_spawned "apktool"); [discriminate|].
    destruct (rebuild_apk_spec os self input_dir unsigned (try_state os st d))
      as (_ & E & _).
    fold r1 in E. rewrite E. destruct (os_path_exists os _ _); [|constructor].
    apply Forall_cons; [destruct (is_high_sdk os _ _); reflexivity|].
    destruct (exit_zero _); [constructor|].
    apply Forall_cons; [reflexivity|constructor]. }
  assert (N2 : ~ In generate (map (fun x => fst (fst x)) (spawns (trace r2)))).
  { apply (not_spawned "zipalign"); [discriminate|].
    destruct (align_apk_spec os self unsigned aligned (final r1)) as (_ & E & _).
    fold r2 in E. rewrite E.
    apply Forall_cons; [reflexivity|].
    destruct (exit_zero _); [|constructor].
    apply Forall_cons; [reflexivity|constructor]. }
  assert (Ni : ~ In generate (map (fun x => fst (fst x)) (spawns (trace i)))).
  { apply (not_spawned "adb"); [discriminate|].
    apply (install_apk_spawns_adb os self output_apk (final r3)). }
  assert (E3 : In generate (map (fun x => fst (fst x)) (spawns (trace r3)))
               <-> os_path_exists os (android_debug_keystore self) (world (final r2))
                   = false).
  { destruct (keystore_or_default_spec os self None (final r2)) as (Hkr & Hks & _).
    destruct (sign_apk_spec os self aligned output_apk None (final r2) _ Hkr)
      as (_ & E & _).
    fold r3 in E. rewrite E, Hks. cbn [Py.truthy_opt negb andb].
    rewrite map_app, in_app_iff.
    assert (Ns : forall l,
               Forall (fun x => tool_of x = "apksigner") l ->
               ~ In generate (map (fun x : list string * option Z * ProcOutcome =>
                                     fst (fst x)) l)).
    { intros l. apply (not_spawned "apksigner"). discriminate. }
    destruct (os_path_exists os (android_debug_keystore self) (world (final r2)));
      cbn [negb].
    - split; [|discriminate]. intros [[]|H]. exfalso. revert H. apply Ns.
      match goal with |- Forall _ (if ?c then _ else _) => destruct c end;
        [|constructor].
      apply Forall_cons; [reflexivity|].
      match goal with |- Forall _ (if ?c then _ else _) => destruct c end;
        [|constructor].
      apply Forall_cons; [reflexivity|constructor].
    - split; [reflexivity|]. intros _. left. left. reflexivity. }
  unfold commands. rewrite Hs, H1, H2. rewrite map_app, in_app_iff.
  destruct b1.
  2: { rewrite app_nil_r in *. split; [intros [H|[]]; contradiction|].
       intros (w & Hw & _). discriminate. }
  rewrite map_app, in_app_iff.
  destruct b2.
  2: { split; [intros [H|[H|[]]]; contradiction|].
       intros (w & Hw & _). discriminate. }
  rewrite map_app, in_app_iff. split.
  - intros [H|[H|[H|H]]]; try contradiction.
    + exists (world (final r2)). split; [reflexivity|]. now apply E3.
    + exfalso. destruct (b3 && install); [contradiction|exact H].
  - intros (w & [= <-] & Hw). right. right. left. now apply E3.
Qed.

(** C8.  Two consecutive runs with no explicit keystore, the second one a
    new process in the world the first one left: each run invokes the key
    generator, on the same fixed path of the temporary storage, exactly when
    it gets to the signing phase and the debug keystore does not exist at
    that moment.  Whether a keystore exists at the temporary path is never
    looked at: in particular the second run invokes the key generator again
    when the keystore the first run created is there. *)
Theorem C8_second_run_generates_again
    (os : OS) (self : Self) (input_dir output_apk : string) (install : bool)
    (st : St (World os)) (d1 d2 : string) :
  let generate := keytool_cmd (temp_keystore_path os) in
  let debug := android_debug_keystore self in
  let run1 := process_apk os self input_dir output_apk install None st in
  let st2 := init (world (final run1)) in
  let run2 := process_apk os self input_dir output_apk install None st2 in
  missing_in os (world st) = [] ->
  fst (tempfile_mkdtemp os "apkreforge_" (world st)) = inl d1 ->
  missing_in os (world st2) = [] ->
  fst (tempfile_mkdtemp os "apkreforge_" (world st2)) = inl d2 ->
  (In generate (commands (trace run1)) <->
   exists w, signing_starts os self d1 input_dir st = Some w
             /\ os_path_exists os debug w = false)
  /\ (In generate (commands (trace run2)) <->
      exists w, signing_starts os self d2 input_dir st2 = Some w
                /\ os_path_exists os debug w = false)
  /\ (forall w,
        signing_starts os self d2 input_dir st2 = Some w ->
        os_path_exists os debug w = false ->
        os_path_exists os (temp_keystore_path os) w = true ->
        In generate (commands (trace run2))).
Proof.
  intros generate debug run1 st2 run2 Hm1 Hd1 Hm2 Hd2.
  pose proof (keystore_generated_in_a_run os self input_dir output_apk install st d1
                Hm1 Hd1) as K1.
  pose proof (keystore_generated_in_a_run os self input_dir output_apk install st2 d2
                Hm2 Hd2) as K2.
  split; [exact K1|]. split; [exact K2|].
  intros w Hw Hdbg _. apply K2. eauto.
Qed.

(** ** The theorems at work on concrete runs *)

(** C1 on a machine without [zipalign] and [adb]. *)
Lemma C1_witness :
  let os := Sim.os Witness.two_missing in
  let st := init (Sim.project "34") in
  let r := process_apk os (APKReforge os false) Witness.input Witness.output true None st in
  missing_in os (world st) = ["zipalign"; "adb"]
  /\ result r = Return false
  /\ mkdtemps (trace r) = []
  /\ errors (trace r)
     = [missing_msg "zipalign"; missing_msg "adb";
        missing_dependencies_msg ["zipalign"; "adb"]].
Proof.
  cbv zeta.
  assert (Hm : missing_in (Sim.os Witness.two_missing) (world (init (Sim.project "34")))
               = ["zipalign"; "adb"]) by (vm_compute; reflexivity).
  split; [exact Hm|].
  assert (Hne : missing_in (Sim.os Witness.two_missing) (world (init (Sim.project "34")))
                <> []) by (rewrite Hm; discriminate).
  destruct (C1_missing_dependencies_abort (Sim.os Witness.two_missing)
              (APKReforge (Sim.os Witness.two_missing) false)
              Witness.input Witness.output true None (init (Sim.project "34")) Hne)
    as (Hr & _ & Hmk & _ & _ & _ & He).
  split; [exact Hr|]. split; [exact Hmk|].
  rewrite He. vm_compute. reflexivity.
Defined.

(** C4 with no device attached: the install phase returns failure. *)
Lemma C4_witness :
  let os := Sim.os Witness.no_device in
  let r := process_apk os (APKReforge os false) Witness.input Witness.output true None
             (init (Sim.project "34")) in
  result r = Return true /\ In install_warning (warnings (trace r)).
Proof.
  cbv zeta.
  apply (C4_install_failure_is_a_warning (Sim.os Witness.no_device)
           (APKReforge (Sim.os Witness.no_device) false)
           Witness.input Witness.output None (init (Sim.project "34")) Witness.dir);
    vm_compute; reflexivity.
Defined.

(** C10 when the device bridge cannot be launched. *)
Lemma C10_witness :
  let os := Sim.os Witness.broken_bridge in
  let r := process_apk os (APKReforge os false) Witness.input Witness.output true None
             (init (Sim.project "34")) in
  result r = Return false
  /\ In (critical_error_msg "[Errno 13] Permission denied: 'adb'") (errors (trace r)).
Proof.
  cbv zeta.
  assert (H1 : missing_in (Sim.os Witness.broken_bridge) (world (init (Sim.project "34"))) = [])
    by (vm_compute; reflexivity).
  assert (H2 : fst (tempfile_mkdtemp (Sim.os Witness.broken_bridge) "apkreforge_"
                      (world (init (Sim.project "34")))) = inl Witness.dir)
    by (vm_compute; reflexivity).
  destruct (C10_enumeration_exception_fails_the_run (Sim.os Witness.broken_bridge)
              (APKReforge (Sim.os Witness.broken_bridge) false)
              Witness.input Witness.output None (init (Sim.project "34"))
              Witness.dir "[Errno 13] Permission denied: 'adb'" H1 H2)
    as (H & _); try (vm_compute; reflexivity).
  destruct H as (_ & Hr & He); [vm_compute; reflexivity|].
  split; [exact Hr|exact He].
Defined.

(** C5 on the targets A (ready), B (offline) and C (ready), when the
    installation on C fails: A and C are attempted, the result is failure. *)
Lemma C5_witness :
  let os := Sim.os Witness.install_on_C_fails in
  let r := install_apk os (APKReforge os false) Witness.output (init []) in
  forallb well_formed_target Witness.three_targets = true
  /\ commands (trace r)
     = [adb_devices_cmd; install_cmd "A" Witness.output; install_cmd "C" Witness.output]
  /\ result r = Return false.
Proof.
  cbv zeta.
  assert (Hwf : forallb well_formed_target Witness.three_targets = true)
    by (vm_compute; reflexivity).
  split; [exact Hwf|].
  destruct (C5_install_on_every_eligible_target (Sim.os Witness.install_on_C_fails)
              (APKReforge (Sim.os Witness.install_on_C_fails) false)
              Witness.output (init []) Witness.three_targets 0 EmptyString Hwf eq_refl)
    as (attempts & Hs & Hc & _ & Hr & _).
  split.
  - unfold commands. rewrite Hs. cbn [map fst]. rewrite Hc. reflexivity.
  - vm_compute. reflexivity.
Defined.

(** C6 on the exception path: the device bridge cannot be launched, and the
    removal of the working directory fails as well. *)
Lemma C6_witness :
  let os := Sim.os Witness.broken_bridge in
  let r := process_apk os (APKReforge os false) Witness.input Witness.output true None
             (init (Sim.project "34")) in
  rmtrees (trace r)
  = [(Witness.dir, Some "[Errno 16] Device or resource busy")]
  /\ (result r = Return true \/ result r = Return false).
Proof.
  cbv zeta.
  assert (H1 : missing_in (Sim.os Witness.broken_bridge) (world (init (Sim.project "34"))) = [])
    by (vm_compute; reflexivity).
  assert (H2 : fst (tempfile_mkdtemp (Sim.os Witness.broken_bridge) "apkreforge_"
                      (world (init (Sim.project "34")))) = inl Witness.dir)
    by (vm_compute; reflexivity).
  destruct (C6_working_directory_removed_once (Sim.os Witness.broken_bridge)
              (APKReforge (Sim.os Witness.broken_bridge) false)
              Witness.input Witness.output true None (init (Sim.project "34"))
              Witness.dir H1 H2) as (Hres & _ & _).
  split; [vm_compute; reflexivity|exact Hres].
Defined.

(** C8 on a machine without a debug keystore: the first run creates the
    keystore at the temporary location and succeeds; the second run, on the
    same input and in the world the first one left, finds no debug keystore,
    invokes the key generator again on the path where the keystore now
    exists; the generator refuses to add the alias to the existing keystore,
    and the second run fails. *)
Lemma C8_witness :
  let run1 := Sim.run_tool Sim.healthy false false (Sim.project "34") in
  let run2 := Sim.run_tool Sim.healthy false false (world (final run1)) in
  let generate := keytool_cmd "/tmp/apkreforge.keystore" in
  Sim.exists_ "/home/dev/.android/debug.keystore" (Sim.project "34") = false
  /\ result run1 = Return true
  /\ In generate (commands (trace run1))
  /\ Sim.exists_ "/tmp/apkreforge.keystore" (world (final run1)) = true
  /\ In generate (commands (trace run2))
  /\ result run2 = Return false.
Proof.
  cbv zeta.
  destruct (C8_second_run_generates_again (Sim.os Sim.healthy)
              (APKReforge (Sim.os Sim.healthy) false)
              "/work/app" "/work/out/final.apk" false (init (Sim.project "34"))
              Witness.dir Witness.dir) as (K1 & K2 & _);
    try (vm_compute; reflexivity).
  split; [vm_compute; reflexivity|].
  split; [vm_compute; reflexivity|].
  split.
  { apply K1. eexists. split; [vm_compute; reflexivity|vm_compute; reflexivity]. }
  split; [vm_compute; reflexivity|].
  split.
  { apply K2. eexists. split; [vm_compute; reflexivity|vm_compute; reflexivity]. }
  vm_compute. reflexivity.
Defined.

(** * Further properties of the code *)

(** ** [run_command] *)

(** [run_command] never raises: it returns a boolean, [True] exactly when
    the child exited with status zero (a non-zero status, a timeout and a
    failure to launch all give [False]); it spawns exactly one child, with
    the timeout of 120 seconds, and leaves [self.temp_dir] alone. *)
Theorem run_command_contract
    (os : OS) (self : Self) (cmd : list string) (error_msg : string)
    (st : St (World os)) :
  let r := run_command os self cmd error_msg st in
  let o := fst (subprocess_run os cmd (Some 120%Z) (world st)) in
  (result r = Return true \/ result r = Return false)
  /\ (result r = Return true <-> exists out err, o = Completed 0 out err)
  /\ spawns (trace r) = [(cmd, Some 120%Z, o)]
  /\ final r = mkSt (snd (subprocess_run os cmd (Some 120%Z) (world st))) (temp_dir st).
Proof.
  cbn zeta.
  destruct (run_command_spec os self cmd error_msg st) as (Hr & Hf & Hs & _).
  rewrite Hr, Hf, Hs. unfold outcome_of, after, RUN_COMMAND_TIMEOUT.
  destruct (fst (subprocess_run os cmd (Some 120%Z) (world st))) as [rc out err|te|e];
    cbn [exit_zero].
  - destruct (Z.eqb_spec rc 0) as [->|Hne].
    + repeat split; eauto.
    + repeat split; auto; try discriminate.
      intros (out' & err' & [= Hrc _ _]). contradiction.
  - repeat split; auto; try discriminate. intros (? & ? & ?). discriminate.
  - repeat split; auto; try discriminate. intros (? & ? & ?). discriminate.
Qed.

(** Every failure of [run_command] comes with a reason logged at level
    [ERROR], and a success logs none: for a non-zero status the message with
    the status, followed by the captured error stream, stripped, when it is
    not empty; for a timeout and for any other exception a message of its
    own. *)
Theorem run_command_reports_failures
    (os : OS) (self : Self) (cmd : list string) (error_msg : string)
    (st : St (World os)) :
  let r := run_command os self cmd error_msg st in
  (errors (trace r) = [] <-> result r = Return true)
  /\ errors (trace r)
     = match fst (subprocess_run os cmd (Some 120%Z) (world st)) with
       | Completed rc _ stderr =>
           if (rc =? 0)%Z then []
           else (RED ++ error_msg ++ " (code " ++ Py.str_of_int rc ++ ")" ++ RESET)
                  :: (if Py.truthy stderr then [Py.strip stderr] else [])
       | TimeoutExpired te => [RED ++ "Timeout exceeded: " ++ te ++ RESET]
       | OtherException e => [RED ++ "Unexpected error: " ++ e ++ RESET]
       end.
Proof.
  cbn zeta.
  unfold run_command, bind, subprocess, log, when, emit, ret, enabled,
    RUN_COMMAND_TIMEOUT.
  destruct (verbose self); cbn [result final trace world temp_dir];
    destruct (fst (subprocess_run os cmd (Some 120%Z) (world st)))
      as [rc out err|te|e];
    try (destruct (Py.truthy out), (Py.truthy err));
    try destruct (rc =? 0)%Z; cbn; split; try reflexivity;
    split; intros H; try reflexivity; discriminate H.
Qed.

(** ** [_check_zipalign_fallback] *)

(** The probe never raises; it spawns [zipalign] alone, once, bounded by 3
    seconds; and it answers [True] exactly when the child completed (with any
    exit status) and its error stream contains "Usage:" or its output
    contains "alignment". *)
Theorem check_zipalign_fallback_contract (os : OS) (st : St (World os)) :
  let r := _check_zipalign_fallback os st in
  let o := fst (subprocess_run os ["zipalign"] (Some 3%Z) (world st)) in
  (result r = Return true \/ result r = Return false)
  /\ spawns (trace r) = [(["zipalign"], Some 3%Z, o)]
  /\ (result r = Return true <->
      exists rc out err,
        o = Completed rc out err
        /\ (Py.contains "Usage:" err = true \/ Py.contains "alignment" out = true)).
Proof.
  cbn zeta. unfold _check_zipalign_fallback, bind, subprocess, ZIPALIGN_PROBE_TIMEOUT.
  cbn [result trace final world].
  destruct (fst (subprocess_run os ["zipalign"] (Some 3%Z) (world st)))
    as [rc out err|te|e]; cbn [result trace ret app spawns spawn_of].
  - split; [destruct (_ || _); auto|]. split; [reflexivity|].
    split.
    + intros [= H]. apply orb_true_iff in H. eauto 6.
    + intros (rc' & out' & err' & [= _ <- <-] & H).
      apply orb_true_iff in H. now rewrite H.
  - split; [auto|]. split; [reflexivity|].
    split; [discriminate|]. intros (? & ? & ? & H & _). discriminate H.
  - split; [auto|]. split; [reflexivity|].
    split; [discriminate|]. intros (? & ? & ? & H & _). discriminate H.
Qed.

(** ** [check_dependencies] *)

Lemma check_dependencies_warnings_quiet (os : OS) (self : Self) ts deps
    (st : St (World os)) :
  verbose self = false ->
  warnings (trace (check_dependencies_loop os self ts deps st)) = [].
Proof.
  intros Hq. revert deps st.
  induction ts as [|t ts IH]; intros deps st; cbn [check_dependencies_loop].
  - reflexivity.
  - exec. rewrite Hq. unfold when.
    destruct (Py.truthy_opt (shutil_which os t (world st))).
    + exec. cbn [trace prepend app]. apply IH.
    + exec. cbn [trace prepend]. rewrite warnings_app.
      cbn [enabled warnings app]. apply IH.
Qed.

(** [check_dependencies] answers, for the five tools in their fixed order,
    whether [shutil.which] found each; it has no effect on the world, on
    [self.temp_dir], and spawns nothing; it logs one error per missing tool;
    and it warns about nothing unless the object is verbose. *)
Theorem check_dependencies_contract (os : OS) (self : Self) (st : St (World os)) :
  let r := check_dependencies os self st in
  result r = Return (map (fun t => (t, found_in os (world st) t)) tools)
  /\ final r = st
  /\ spawns (trace r) = []
  /\ errors (trace r) = map missing_msg (missing_in os (world st))
  /\ (verbose self = false -> warnings (trace r) = []).
Proof.
  cbn zeta.
  destruct (check_dependencies_eq os self st) as (tr & Heq & Hout & Herr).
  rewrite Heq. cbn [result final trace].
  destruct (output_no_effect os _ (world st) Hout) as (_ & Hs & _).
  repeat split; auto.
  intros Hq. apply (f_equal trace) in Heq. cbn [trace] in Heq. rewrite <- Heq.
  now apply check_dependencies_warnings_quiet.
Qed.

Lemma bind_assoc {W A B C} (m : M W A) (f : A -> M W B) (g : B -> M W C) st :
  bind (bind m f) g st = bind m (fun a => bind (f a) g) st.
Proof.
  unfold bind. destruct (result (m st)); cbn [result trace final]; [|reflexivity].
  destruct (result (f a (final (m st)))); cbn [result trace final];
    now rewrite ?app_assoc.
Qed.

(** ** [sign_apk] and [get_keystore] *)

(** An explicit, non-empty keystore path takes precedence: the signing phase
    then never runs the key generator: its first child is the sign
    invocation with that keystore and it spawns [apksigner] only.  An empty
    path counts as no path. *)
Theorem explicit_keystore_takes_precedence
    (os : OS) (self : Self) (input_apk output_apk p : string) (st : St (World os)) :
  Py.truthy p = true ->
  let r := sign_apk os self input_apk output_apk (Some p) st in
  (exists o rest,
     spawns (trace r)
     = (sign_cmd p output_apk input_apk, Some RUN_COMMAND_TIMEOUT, o) :: rest)
  /\ Forall (fun x => tool_of x = "apksigner") (spawns (trace r))
  /\ sign_apk os self input_apk output_apk (Some EmptyString) st
     = sign_apk os self input_apk output_apk None st.
Proof.
  intros Hp r.
  destruct (keystore_or_default_spec os self (Some p) st) as (Hkr & Hks & _).
  destruct (sign_apk_spec os self input_apk output_apk (Some p) st _ Hkr)
    as (_ & Hss & _).
  fold r in Hss. rewrite Hks in Hss.
  repeat (change (Py.truthy_opt (Some p)) with (Py.truthy p) in Hss;
          rewrite Hp in Hss; cbn [negb andb app] in Hss).
  rewrite Hss.
  split; [do 2 eexists; reflexivity|]. split; [|reflexivity].
  apply Forall_cons; [reflexivity|].
  match goal with |- Forall _ (if ?c then _ else _) => destruct c end;
    [|apply Forall_nil].
  apply Forall_cons; [reflexivity|apply Forall_nil].
Qed.

Lemma explicit_keystore_witness :
  let os := Sim.os Sim.healthy in
  let r := sign_apk os (APKReforge os false) "/w/aligned.apk" "/w/final.apk"
             (Some "/keys/my.jks") (init []) in
  Py.truthy "/keys/my.jks" = true
  /\ Forall (fun x => tool_of x = "apksigner") (spawns (trace r)).
Proof.
  cbv zeta. split; [reflexivity|].
  apply (explicit_keystore_takes_precedence (Sim.os Sim.healthy)
           (APKReforge (Sim.os Sim.healthy) false) "/w/aligned.apk" "/w/final.apk"
           "/keys/my.jks" (init []) eq_refl).
Defined.

(** When there is no keystore to use (no explicit path, no debug keystore)
    and the key generator does not exit zero, the signing phase fails: it
    has spawned the key generator only, never the signer, and has logged
    "Could not create keystore". *)
Theorem keystore_generation_failure_fails_signing
    (os : OS) (self : Self) (input_apk output_apk : string) (st : St (World os)) :
  let generate := keytool_cmd (temp_keystore_path os) in
  os_path_exists os (android_debug_keystore self) (world st) = false ->
  exit_zero (outcome_of os generate (world st)) = false ->
  let r := sign_apk os self input_apk output_apk None st in
  result r = Return false
  /\ spawns (trace r)
     = [(generate, Some RUN_COMMAND_TIMEOUT, outcome_of os generate (world st))]
  /\ In (RED ++ "Could not create keystore" ++ RESET) (errors (trace r)).
Proof.
  intros generate Hdbg Hgen r. subst r generate.
  unfold sign_apk, keystore_or_default, get_keystore. cbn [Py.truthy_opt].
  exec. rewrite bind_assoc. exec. rewrite Hdbg. rewrite bind_assoc. exec.
  rewrite bind_assoc. exec. cbn [world]. rewrite Hgen.
  rewrite bind_assoc. exec. cbn [Py.truthy_opt negb].
  split; [reflexivity|]. split.
  - effects. reflexivity.
  - cbn [result trace final prepend ret enabled]. rewrite !errors_app.
    cbn [errors]. rewrite !in_app_iff. cbn [In]. do 4 right. left. left. reflexivity.
Qed.

Lemma keystore_generation_failure_witness :
  let cfg := {| Sim.missing_tools := [];
                Sim.failing := Sim.hd_is "keytool";
                Sim.adb_devices := Sim.ok;
                Sim.rmtree_error := None |} in
  let os := Sim.os cfg in
  let r := sign_apk os (APKReforge os false) "/w/aligned.apk" "/w/final.apk" None
             (init []) in
  result r = Return false /\ commands (trace r) = [keytool_cmd "/tmp/apkreforge.keystore"].
Proof.
  cbv zeta.
  match goal with
  | |- result (sign_apk ?os ?self ?i ?o None ?st) = _ /\ _ =>
      destruct (keystore_generation_failure_fails_signing os self i o st)
        as (Hr & Hs & _)
  end; try (vm_compute; reflexivity).
  split; [exact Hr|]. unfold commands. rewrite Hs. reflexivity.
Defined.

(** ** [process_apk]: the order of the phases *)

(** In a run that allocates its working directory, the phases run strictly
    in order and each only after its predecessor returned success: the child
    processes of the run are those of the rebuild phase, followed by those of
    the align phase if the rebuild returned success, then those of the sign
    phase if the alignment did, then those of the install phase if the
    signing did and installation was requested.  The rebuild phase writes
    [unsigned.apk] of the working directory, which the align phase reads to
    write [aligned.apk], which the sign phase reads. *)
Theorem phases_run_in_order
    (os : OS) (self : Self) (input_dir output_apk : string) (install : bool)
    (keystore : option string) (st : St (World os)) (d : string) :
  missing_in os (world st) = [] ->
  fst (tempfile_mkdtemp os "apkreforge_" (world st)) = inl d ->
  let unsigned := Py.path_join d ["unsigned.apk"] in
  let aligned := Py.path_join d ["aligned.apk"] in
  let r1 := rebuild_apk os self input_dir unsigned (try_state os st d) in
  let r2 := align_apk os self unsigned aligned (final r1) in
  let r3 := sign_apk os self aligned output_apk keystore (final r2) in
  let i := install_apk os self output_apk (final r3) in
  let r := process_apk os self input_dir output_apk install keystore st in
  exists b1 b2 b3,
    result r1 = Return b1 /\ result r2 = Return b2 /\ result r3 = Return b3
    /\ spawns (trace r)
       = (spawns (trace r1)
          ++ (if b1 then
                spawns (trace r2)
                ++ (if b2 then
                      spawns (trace r3)
                      ++ (if b3 && install then spawns (trace i) else [])
                    else [])
              else []))%list.
Proof.
  intros Hmiss Hd. cbn zeta.
  destruct (process_apk_phases os self input_dir output_apk install keystore st d
              Hmiss Hd) as (b1 & b2 & b3 & H1 & H2 & H3 & Hs & _).
  exists b1, b2, b3. auto.
Qed.

(** The result of a run that allocates its working directory: success
    exactly when the rebuild, align and sign phases return success one after
    the other and, if installation is requested, the install phase does not
    raise; failure otherwise.  No exception escapes. *)
Theorem process_apk_result
    (os : OS) (self : Self) (input_dir output_apk : string) (install : bool)
    (keystore : option string) (st : St (World os)) (d : string) :
  missing_in os (world st) = [] ->
  fst (tempfile_mkdtemp os "apkreforge_" (world st)) = inl d ->
  let unsigned := Py.path_join d ["unsigned.apk"] in
  let aligned := Py.path_join d ["aligned.apk"] in
  let r1 := rebuild_apk os self input_dir unsigned (try_state os st d) in
  let r2 := align_apk os self unsigned aligned (final r1) in
  let r3 := sign_apk os self aligned output_apk keystore (final r2) in
  let i := install_apk os self output_apk (final r3) in
  let r := process_apk os self input_dir output_apk install keystore st in
  (result r = Return true \/ result r = Return false)
  /\ (result r = Return true <->
      result r1 = Return true /\ result r2 = Return true /\ result r3 = Return true
      /\ (install = true -> exists ok, result i = Return ok)).
Proof.
  intros Hmiss Hd. cbn zeta.
  destruct (process_apk_phases os self input_dir output_apk install keystore st d
              Hmiss Hd) as (b1 & b2 & b3 & H1 & H2 & H3 & _ & Hr).
  rewrite Hr, H1, H2, H3. clear Hr H1 H2 H3.
  split; [destruct (_ && _); auto|].
  destruct b1, b2, b3; cbn [andb];
    try (split; [discriminate|intros (? & ? & ? & _); discriminate]).
  destruct install; cbn [negb orb].
  - destruct (result (install_apk _ _ _ _)) as [ok|e].
    + split; [intros _; repeat split; eauto|reflexivity].
    + split; [discriminate|]. intros (_ & _ & _ & H).
      destruct (H eq_refl) as (ok & Hok). discriminate Hok.
  - split; [intros _; repeat split; discriminate|reflexivity].
Qed.

(** A run on a directory without [AndroidManifest.xml] fails in the rebuild
    phase without invoking any tool: no child process at all, and the two
    errors "Directory does not contain AndroidManifest.xml" and "Failed
    rebuild", followed only by what the cleanup may log. *)
Theorem missing_manifest_fails_without_invocation
    (os : OS) (self : Self) (input_dir output_apk : string) (install : bool)
    (keystore : option string) (st : St (World os)) (d : string) :
  missing_in os (world st) = [] ->
  fst (tempfile_mkdtemp os "apkreforge_" (world st)) = inl d ->
  os_path_exists os (Py.path_join input_dir ["AndroidManifest.xml"])
    (snd (tempfile_mkdtemp os "apkreforge_" (world st))) = false ->
  let r := process_apk os self input_dir output_apk install keystore st in
  result r = Return false
  /\ spawns (trace r) = []
  /\ exists cleanup_errors,
       errors (trace r)
       = (RED ++ "Directory does not contain AndroidManifest.xml" ++ RESET)
           :: (RED ++ "Failed rebuild" ++ RESET) :: cleanup_errors.
Proof.
  intros Hmiss Hd Hman r.
  destruct (process_apk_run os self input_dir output_apk install keystore st d Hmiss Hd)
    as (pre & mid & Htr & Hpre & Hmid & Epre & Emid & Hres & _).
  fold r in Htr, Hres.
  assert (Hbody :
    try_block os self d input_dir output_apk install keystore (try_state os st d)
    = mkExec (Return false)
        [Log INFO (Py.NL ++ BOLD ++ BLUE ++ "[+] PHASE 1: Rebuilding APK" ++ RESET);
         Log ERROR (RED ++ "Directory does not contain AndroidManifest.xml" ++ RESET);
         Log ERROR (RED ++ "Failed rebuild" ++ RESET)]
        (try_state os st d)).
  { unfold try_block, try_except, pipeline, steps. cbn [run_steps].
    unfold rebuild_apk. rewrite !bind_assoc. exec. rewrite !bind_assoc. exec.
    cbn [try_state world]. rewrite Hman. cbn [negb].
    rewrite !bind_assoc. exec. cbn [negb]. exec. reflexivity. }
  rewrite Hbody in Htr, Hres. cbn [trace result final] in Htr, Hres.
  split; [exact Hres|].
  match type of Htr with
  | context [trace (cleanup os self ?s)] =>
      destruct (cleanup_general os self s) as (Scl & _);
      set (cl := trace (cleanup os self s)) in *
  end.
  destruct (output_no_effect os _ (world st) Hpre) as (_ & Spre & _).
  destruct (output_no_effect os _ (world st) Hmid) as (_ & Smid & _).
  split.
  - rewrite Htr. repeat (rewrite ?spawns_app; cbn [spawns spawn_of app]).
    rewrite Spre, Smid, Scl. reflexivity.
  - exists (errors cl).
    rewrite Htr. repeat (rewrite ?errors_app; cbn [errors app]).
    rewrite Epre, Emid. reflexivity.
Qed.

Lemma phases_run_in_order_witness :
  let os := Sim.os Witness.verification_fails in
  let r := process_apk os (APKReforge os false) Witness.input Witness.output true None
             (init (Sim.project "34")) in
  commands (trace r)
  = [rebuild_cmd true Witness.input (Py.path_join Witness.dir ["unsigned.apk"]);
     align_cmd (Py.path_join Witness.dir ["unsigned.apk"])
       (Py.path_join Witness.dir ["aligned.apk"]);
     align_check_cmd (Py.path_join Witness.dir ["aligned.apk"]);
     keytool_cmd "/tmp/apkreforge.keystore";
     sign_cmd "/tmp/apkreforge.keystore" Witness.output
       (Py.path_join Witness.dir ["aligned.apk"]);
     verify_cmd Witness.output].
Proof.
  cbv zeta.
  assert (Hm : missing_in (Sim.os Witness.verification_fails)
                 (world (init (Sim.project "34"))) = [])
    by (vm_compute; reflexivity).
  assert (Hd : fst (tempfile_mkdtemp (Sim.os Witness.verification_fails) "apkreforge_"
                      (world (init (Sim.project "34")))) = inl Witness.dir)
    by (vm_compute; reflexivity).
  destruct (phases_run_in_order (Sim.os Witness.verification_fails)
              (APKReforge (Sim.os Witness.verification_fails) false)
              Witness.input Witness.output true None (init (Sim.project "34"))
              Witness.dir Hm Hd) as (b1 & b2 & b3 & H1 & H2 & H3 & Hs).
  unfold commands. rewrite Hs.
  vm_compute in H1. injection H1 as <-.
  vm_compute in H2. injection H2 as <-.
  vm_compute in H3. injection H3 as <-.
  vm_compute. reflexivity.
Defined.

Lemma process_apk_result_witness :
  let os := Sim.os Witness.broken_bridge in
  let r := process_apk os (APKReforge os false) Witness.input Witness.output true None
             (init (Sim.project "34")) in
  result r <> Return true.
Proof.
  cbv zeta.
  destruct (process_apk_result (Sim.os Witness.broken_bridge)
              (APKReforge (Sim.os Witness.broken_bridge) false)
              Witness.input Witness.output true None (init (Sim.project "34"))
              Witness.dir) as (_ & Hiff); try (vm_compute; reflexivity).
  intros Hr. apply Hiff in Hr. destruct Hr as (_ & _ & _ & Hi).
  destruct (Hi eq_refl) as (ok & Hok). vm_compute in Hok. discriminate Hok.
Defined.

Lemma missing_manifest_witness :
  let os := Sim.os Sim.healthy in
  let r := process_apk os (APKReforge os false) "/work/empty" Witness.output true None
             (init [("/work/empty", EmptyString)]) in
  result r = Return false /\ spawns (trace r) = [].
Proof.
  cbv zeta.
  destruct (missing_manifest_fails_without_invocation (Sim.os Sim.healthy)
              (APKReforge (Sim.os Sim.healthy) false)
              "/work/empty" Witness.output true None
              (init [("/work/empty", EmptyString)]) Witness.dir)
    as (Hr & Hs & _); try (vm_compute; reflexivity).
  split; [exact Hr|exact Hs].
Defined.

(** ** [process_apk]: when the working directory cannot be allocated *)

(** [tempfile.mkdtemp] is called outside the [try] block: when it raises,
    the exception escapes [process_apk] (it returns no result); no child has
    been spawned, nothing is removed, and [self.temp_dir] keeps the value it
    had. *)
Theorem mkdtemp_failure_escapes
    (os : OS) (self : Self) (input_dir output_apk : string) (install : bool)
    (keystore : option string) (st : St (World os)) (e : string) :
  missing_in os (world st) = [] ->
  fst (tempfile_mkdtemp os "apkreforge_" (world st)) = inr e ->
  let r := process_apk os self input_dir output_apk install keystore st in
  result r = Raise e
  /\ spawns (trace r) = [] /\ rmtrees (trace r) = []
  /\ errors (trace r) = []
  /\ temp_dir (final r) = temp_dir st.
Proof.
  intros Hmiss He r.
  destruct (process_apk_mkdtemp_raises os self input_dir output_apk install keystore
              st e Hmiss He) as (pre & Hr & Hout & Herr).
  fold r in Hr. rewrite Hr. cbn [result trace final temp_dir].
  destruct (output_no_effect os _ (world st) Hout) as (_ & Hs & _ & Hrm).
  rewrite spawns_app, rmtrees_app, errors_app, Hs, Hrm, Herr. auto.
Qed.

Lemma mkdtemp_failure_witness :
  let r := process_apk disk_full (APKReforge disk_full false)
             Witness.input Witness.output false None (init (Sim.project "34")) in
  result r = Raise "[Errno 28] No space left on device" /\ rmtrees (trace r) = [].
Proof.
  cbv zeta.
  destruct (mkdtemp_failure_escapes disk_full (APKReforge disk_full false)
              Witness.input Witness.output false None (init (Sim.project "34"))
              "[Errno 28] No space left on device")
    as (Hr & _ & Hrm & _); try (vm_compute; reflexivity).
  split; [exact Hr|exact Hrm].
Defined.

(** ** [process_apk]: the timeouts of a whole run *)

Lemma bounded_timed_event e : bounded_event e -> timed_event e.
Proof. destruct e; simpl; auto. Qed.

Lemma timed_no_dir_event e : timed_event e -> no_dir_event e.
Proof. destruct e; simpl; auto. Qed.

Lemma timed_spawns tr :
  Forall timed_event tr ->
  Forall (fun x => snd (fst x) = Some RUN_COMMAND_TIMEOUT
                   \/ (fst (fst x) = adb_devices_cmd /\ snd (fst x) = None))
    (spawns tr).
Proof.
  induction 1 as [|e tr He _ IH]; [constructor|].
  destruct e; simpl in *; auto.
Qed.

Lemma tame_timed_try_block (os : OS) (self : Self) d input_dir output_apk install
    keystore :
  tame os timed_event (try_block os self d input_dir output_apk install keystore).
Proof.
  unfold try_block, pipeline. apply tame_try_except.
  - apply tame_run_steps.
    + unfold steps.
      apply Forall_cons; [|apply Forall_cons; [|apply Forall_cons; [|apply Forall_nil]]];
        cbn [snd]; (eapply tame_weaken; [|apply bounded_timed_event]).
      * apply tame_rebuild_apk.
      * apply tame_align_apk.
      * apply tame_sign_apk.
    + exact I.
    + intros; exact I.
    + unfold after_steps, install_apk.
      repeat first
        [ eapply tame_weaken; [apply tame_install_loop | apply bounded_timed_event]
        | tame_step ].
  - intros e. unfold critical_error. repeat tame_step.
Qed.

(** In every run of [process_apk], whatever happens, each child process is
    spawned with the timeout of 120 seconds, except the device enumeration
    [adb devices], spawned with none. *)
Theorem every_child_but_the_enumeration_is_bounded
    (os : OS) (self : Self) (input_dir output_apk : string) (install : bool)
    (keystore : option string) (st : St (World os)) :
  let r := process_apk os self input_dir output_apk install keystore st in
  Forall (fun x => snd (fst x) = Some 120%Z
                   \/ (fst (fst x) = ["adb"; "devices"] /\ snd (fst x) = None))
    (spawns (trace r)).
Proof.
  cbn zeta.
  destruct (missing_in os (world st)) as [|t ts] eqn:Hmiss.
  - destruct (fst (tempfile_mkdtemp os "apkreforge_" (world st))) as [d|e] eqn:Hd.
    + destruct (process_apk_effects os self input_dir output_apk install keystore st d
                  Hmiss Hd) as (_ & -> & _).
      apply timed_spawns. apply tame_timed_try_block.
    + destruct (process_apk_mkdtemp_raises os self input_dir output_apk install
                  keystore st e Hmiss Hd) as (pre & -> & Hout & _).
      cbn [trace]. destruct (output_no_effect os _ (world st) Hout) as (_ & Hs & _).
      rewrite spawns_app, Hs. constructor.
  - assert (Hne : missing_in os (world st) <> []) by (rewrite Hmiss; discriminate).
    destruct (process_apk_missing os self input_dir output_apk install keystore st Hne)
      as (_ & _ & Hout & _).
    destruct (output_no_effect os _ (world st) Hout) as (_ & -> & _). constructor.
Qed.

(** ** [process_apk]: the commands of a successful run *)

(** A run with an explicit keystore and no installation that returns
    success has spawned, in this order: the rebuild (once, or twice when the
    first attempt failed), then the alignment of [unsigned.apk] into
    [aligned.apk], the alignment check of [aligned.apk], the signing of
    [aligned.apk] into the output path with that keystore, and the
    verification of the output path; and nothing else. *)
Theorem successful_run_commands
    (os : OS) (self : Self) (input_dir output_apk p : string)
    (st : St (World os)) (d : string) :
  missing_in os (world st) = [] ->
  fst (tempfile_mkdtemp os "apkreforge_" (world st)) = inl d ->
  Py.truthy p = true ->
  let r := process_apk os self input_dir output_apk false (Some p) st in
  result r = Return true ->
  let unsigned := Py.path_join d ["unsigned.apk"] in
  let aligned := Py.path_join d ["aligned.apk"] in
  let first := rebuild_cmd
                 (is_high_sdk os input_dir (snd (tempfile_mkdtemp os "apkreforge_" (world st))))
                 input_dir unsigned in
  exists attempts,
    (attempts = [first] \/ attempts = [first; rebuild_cmd_fallback input_dir unsigned])
    /\ commands (trace r)
       = (attempts
          ++ [align_cmd unsigned aligned; align_check_cmd aligned;
              sign_cmd p output_apk aligned; verify_cmd output_apk])%list.
Proof.
  intros Hmiss Hd Hp r Hres unsigned aligned first.
  destruct (process_apk_phases os self input_dir output_apk false (Some p) st d
              Hmiss Hd) as (b1 & b2 & b3 & H1 & H2 & H3 & Hs & Hr).
  fold r unsigned aligned in H1, H2, H3, Hs, Hr.
  rewrite Hres in Hr. injection Hr as Hr. cbn [negb orb] in Hr.
  rewrite andb_true_r in Hr. symmetry in Hr.
  apply andb_true_iff in Hr. destruct Hr as (Hr & ->).
  apply andb_true_iff in Hr. destruct Hr as (-> & ->).
  rewrite andb_false_r, app_nil_r in Hs.
  set (r1 := rebuild_apk os self input_dir unsigned (try_state os st d)) in *.
  set (r2 := align_apk os self unsigned aligned (final r1)) in *.
  destruct (rebuild_apk_spec os self input_dir unsigned (try_state os st d))
    as (E1 & S1 & _).
  destruct (align_apk_spec os self unsigned aligned (final r1)) as (E2 & S2 & _).
  destruct (keystore_or_default_spec os self (Some p) (final r2)) as (Ekr & Eks & _).
  destruct (sign_apk_spec os self aligned output_apk (Some p) (final r2) _ Ekr)
    as (E3 & S3 & _).
  fold r1 in E1, S1. fold r2 in E2, S2. rewrite Eks in S3.
  repeat (change (Py.truthy_opt (Some p)) with (Py.truthy p) in E3, S3;
          rewrite Hp in E3, S3; cbn [negb andb app] in E3, S3).
  assert (Rinj : forall a b : bool, @Return bool a = Return b -> a = b)
    by (intros; congruence).
  rewrite E1 in H1. apply Rinj in H1.
  rewrite E2 in H2. apply Rinj in H2.
  rewrite E3 in H3. apply Rinj in H3.
  apply andb_true_iff in H1. destruct H1 as (Hfound & H1).
  apply andb_true_iff in H2. destruct H2 as (Z21 & Z22).
  apply andb_true_iff in H3. destruct H3 as (Z31 & Z32).
  rewrite Hfound in S1. rewrite Z21 in S2. rewrite Z31 in S3.
  unfold commands. rewrite Hs, S2, S3. rewrite !map_app. cbn [map fst].
  exists (map (fun x => fst (fst x)) (spawns (trace r1))). split; [|reflexivity].
  rewrite S1. destruct (exit_zero _); cbn [map fst]; auto.
Qed.

Lemma successful_run_commands_witness :
  let os := Sim.os Sim.healthy in
  let r := process_apk os (APKReforge os false) Witness.input Witness.output false
             (Some "/keys/my.jks") (init (Sim.project "33")) in
  result r = Return true /\ length (commands (trace r)) = 5.
Proof.
  cbv zeta.
  assert (Hr : result (process_apk (Sim.os Sim.healthy)
                         (APKReforge (Sim.os Sim.healthy) false)
                         Witness.input Witness.output false
                         (Some "/keys/my.jks") (init (Sim.project "33")))
               = Return true) by (vm_compute; reflexivity).
  split; [exact Hr|].
  destruct (successful_run_commands (Sim.os Sim.healthy)
              (APKReforge (Sim.os Sim.healthy) false)
              Witness.input Witness.output "/keys/my.jks" (init (Sim.project "33"))
              Witness.dir) as (attempts & _ & Hc);
    [vm_compute; reflexivity|vm_compute; reflexivity|reflexivity|exact Hr|].
  vm_compute. reflexivity.
Defined.

(** ** [detect_high_sdk]: the regular expression *)

Lemma strip_prefix_app p s r : Re.strip_prefix p s = Some r -> s = p ++ r.
Proof.
  revert s. induction p as [|a p IH]; intros [|b s]; cbn; try discriminate.
  - now intros [= ->].
  - now intros [= ->].
  - destruct (Ascii.eqb a b) eqn:E; [|discriminate].
    apply Ascii.eqb_eq in E. subst b. intros H. now rewrite (IH _ H).
Qed.

Lemma strip_prefix_complete p r : Re.strip_prefix p (p ++ r) = Some r.
Proof.
  induction p as [|a p IH]; cbn; [now destruct r|].
  now rewrite Ascii.eqb_refl.
Qed.

Lemma skip_spaces_app s :
  exists ws, s = ws ++ Re.skip_spaces s /\ all_chars Py.isspace ws = true.
Proof.
  induction s as [|c s (ws & Hs & Hw)]; [now exists ""|].
  cbn [Re.skip_spaces]. destruct (Py.isspace c) eqn:E.
  - exists (String c ws). cbn. now rewrite E, <- Hs, Hw.
  - now exists "".
Qed.

Lemma skip_spaces_complete ws c r :
  all_chars Py.isspace ws = true -> Py.isspace c = false ->
  Re.skip_spaces (ws ++ String c r) = String c r.
Proof.
  intros Hw Hc. induction ws as [|a ws IH]; cbn; [now rewrite Hc|].
  cbn in Hw. apply andb_true_iff in Hw. destruct Hw as (-> & Hw). auto.
Qed.

Lemma expect_app c s r : Re.expect c s = Some r -> s = String c r.
Proof.
  destruct s as [|b s]; cbn; [discriminate|].
  destruct (Ascii.eqb c b) eqn:E; [|discriminate].
  apply Ascii.eqb_eq in E. now intros [= ->]; subst.
Qed.

Lemma take_digits_app s :
  s = fst (Re.take_digits s) ++ snd (Re.take_digits s)
  /\ all_chars Py.isdigit (fst (Re.take_digits s)) = true.
Proof.
  induction s as [|c s (Hs & Hd)]; [now split|].
  cbn [Re.take_digits]. destruct (Py.isdigit c) eqn:E; [|now split].
  destruct (Re.take_digits s) as [d r]. cbn [fst snd] in *.
  split; [cbn; now rewrite <- Hs|]. cbn. now rewrite E.
Qed.

Lemma take_digits_complete d c r :
  all_chars Py.isdigit d = true -> Py.isdigit c = false ->
  Re.take_digits (d ++ String c r) = (d, String c r).
Proof.
  intros Hd Hc. induction d as [|a d IH]; cbn; [now rewrite Hc|].
  cbn in Hd. apply andb_true_iff in Hd. destruct Hd as (-> & Hd).
  now rewrite (IH Hd).
Qed.

Lemma match_here_sound s d :
  Re.match_here s = Some d ->
  exists ws1 ws2 post,
    s = sdk_attribute ws1 ws2 d ++ post
    /\ all_chars Py.isspace ws1 = true /\ all_chars Py.isspace ws2 = true
    /\ all_chars Py.isdigit d = true /\ d <> "".
Proof.
  unfold Re.match_here.
  destruct (Re.strip_prefix "targetSdkVersion" s) as [s1|] eqn:E1; [|discriminate].
  destruct (Re.expect "=" (Re.skip_spaces s1)) as [s2|] eqn:E2; [|discriminate].
  destruct (Re.expect Py.DQUOTE (Re.skip_spaces s2)) as [s3|] eqn:E3; [|discriminate].
  pose proof (take_digits_app s3) as (H3 & Hd).
  destruct (Re.take_digits s3) as [d' s4]. cbn [fst snd] in H3, Hd.
  destruct (Py.truthy d') eqn:Ht; [|discriminate].
  destruct (Re.expect Py.DQUOTE s4) as [s5|] eqn:E4; [|discriminate].
  intros [= ->].
  apply strip_prefix_app in E1. apply expect_app in E2, E3, E4.
  destruct (skip_spaces_app s1) as (ws1 & H1 & Hw1).
  destruct (skip_spaces_app s2) as (ws2 & H2 & Hw2).
  exists ws1, ws2, s5. repeat split; auto.
  - unfold sdk_attribute. rewrite E1, H1, E2, H2, E3, H3, E4.
    rewrite ?string_app_assoc. cbn [append]. rewrite ?string_app_assoc.
    reflexivity.
  - intros ->. discriminate.
Qed.

Lemma match_here_complete ws1 ws2 d post :
  all_chars Py.isspace ws1 = true -> all_chars Py.isspace ws2 = true ->
  all_chars Py.isdigit d = true -> d <> "" ->
  Re.match_here (sdk_attribute ws1 ws2 d ++ post) = Some d.
Proof.
  intros Hw1 Hw2 Hd Hne. unfold Re.match_here, sdk_attribute.
  rewrite !string_app_assoc. rewrite strip_prefix_complete.
  change ("=" ++ ?x)%string with (String "=" x).
  rewrite (skip_spaces_complete ws1 "=" _ Hw1 eq_refl).
  cbn [Re.expect]. rewrite Ascii.eqb_refl.
  change (String Py.DQUOTE ?a ++ post)%string with (String Py.DQUOTE (a ++ post)).
  rewrite ?string_app_assoc.
  change (String Py.DQUOTE "" ++ post)%string with (String Py.DQUOTE post).
  rewrite (skip_spaces_complete ws2 Py.DQUOTE _ Hw2 eq_refl).
  cbn [Re.expect]. rewrite Ascii.eqb_refl.
  rewrite (take_digits_complete d Py.DQUOTE post Hd eq_refl).
  destruct d as [|c d]; [congruence|].
  cbn [Py.truthy Re.expect]. now rewrite Ascii.eqb_refl.
Qed.

Lemma search_suffix pre s : Re.search s <> None -> Re.search (pre ++ s) <> None.
Proof.
  intros H. induction pre as [|c pre IH]; [exact H|].
  cbn [append Re.search]. destruct (Re.match_here _); [discriminate|exact IH].
Qed.

(** [re.search] with the pattern of [detect_high_sdk] answers with a group
    exactly when the text contains [targetSdkVersion], white space, [=],
    white space and a non-empty run of digits between double quotes; the
    group it returns is the run of digits of such an occurrence. *)
Theorem search_finds_what_the_pattern_matches (s : string) :
  (forall d, Re.search s = Some d ->
     exists pre ws1 ws2 post,
       s = pre ++ sdk_attribute ws1 ws2 d ++ post
       /\ all_chars Py.isspace ws1 = true /\ all_chars Py.isspace ws2 = true
       /\ all_chars Py.isdigit d = true /\ d <> "")
  /\ (forall pre ws1 ws2 d post,
        s = pre ++ sdk_attribute ws1 ws2 d ++ post ->
        all_chars Py.isspace ws1 = true -> all_chars Py.isspace ws2 = true ->
        all_chars Py.isdigit d = true -> d <> "" ->
        Re.search s <> None).
Proof.
  split.
  - induction s as [|c s IH]; intros d.
    + cbn [Re.search]. destruct (Re.match_here "") eqn:E; [|discriminate].
      intros [= ->]. destruct (match_here_sound _ _ E) as (w1 & w2 & post & H).
      now exists "", w1, w2, post.
    + cbn [Re.search]. destruct (Re.match_here (String c s)) eqn:E.
      * intros [= ->]. destruct (match_here_sound _ _ E) as (w1 & w2 & post & H).
        now exists "", w1, w2, post.
      * intros H. destruct (IH d H) as (pre & w1 & w2 & post & -> & Hr).
        now exists (String c pre), w1, w2, post.
  - intros pre ws1 ws2 d post -> H1 H2 Hd Hne. apply search_suffix.
    pose proof (match_here_complete ws1 ws2 d post H1 H2 Hd Hne) as Hm.
    destruct (sdk_attribute ws1 ws2 d ++ post)%string; cbn [Re.search];
      rewrite Hm; discriminate.
Qed.

(** ** [install_apk]: the first line of the enumeration *)

(** The first line of the output of [adb devices] is never read as a
    target: when the output has at most one line, whatever that line is,
    nothing is installed, the error [No connected devices found] is logged
    and the phase fails. *)
Theorem first_line_is_never_a_target
    (os : OS) (self : Self) (apk_path : string) (st : St (World os))
    (rc : Z) (stdout stderr : string) :
  fst (subprocess_run os ["adb"; "devices"] None (world st))
  = Completed rc stdout stderr ->
  (length (Py.splitlines stdout) <= 1)%nat ->
  let r := install_apk os self apk_path st in
  result r = Return false
  /\ spawns (trace r) = [(["adb"; "devices"], None, Completed rc stdout stderr)]
  /\ errors (trace r) = [RED ++ "No connected devices found" ++ RESET].
Proof.
  intros Ho Hlen. cbn zeta. unfold install_apk. exec. rewrite bind_subprocess.
  change adb_devices_cmd with ["adb"; "devices"]. rewrite Ho.
  assert (Hd : active_devices_of (Py.splitlines stdout) = []).
  { unfold active_devices_of.
    destruct (Py.splitlines stdout) as [|l [|l' ls]]; cbn in *; auto; lia. }
  rewrite Hd. exec. effects. auto.
Qed.

Lemma first_line_witness :
  let os := Sim.os lone_device_line in
  let r := install_apk os (APKReforge os false) Witness.output (init []) in
  result r = Return false /\ length (spawns (trace r)) = 1%nat.
Proof.
  cbv zeta.
  destruct (first_line_is_never_a_target (Sim.os lone_device_line)
              (APKReforge (Sim.os lone_device_line) false) Witness.output (init [])
              0%Z (adb_devices_line ("emulator-5554", "device")) "")
    as (Hr & Hs & _);
    [vm_compute; reflexivity|vm_compute; lia|].
  split; [exact Hr|]. now rewrite Hs.
Defined.

(** ** [cleanup] *)

(** [cleanup] never raises and spawns nothing; it removes [self.temp_dir]
    when that is set, non-empty and exists, and nothing else; a failing
    removal is logged as an error and swallowed; [self.temp_dir] is left as
    it was. *)
Theorem cleanup_contract (os : OS) (self : Self) (st : St (World os)) :
  let r := cleanup os self st in
  result r = Return tt
  /\ temp_dir (final r) = temp_dir st
  /\ spawns (trace r) = []
  /\ rmtrees (trace r)
     = match temp_dir st with
       | Some p =>
           if Py.truthy p && os_path_exists os p (world st)
           then [(p, fst (shutil_rmtree os p (world st)))]
           else []
       | None => []
       end
  /\ errors (trace r)
     = flat_map (fun x => match snd x with
                          | Some e => ["Error clearing temporary: " ++ e]
                          | None => []
                          end)
         (rmtrees (trace r)).
Proof.
  cbn zeta. unfold cleanup. exec.
  destruct (temp_dir st) as [p|] eqn:Htd; cbn [Py.truthy_opt]; [|cbn; auto].
  destruct (Py.truthy p); cbn [andb]; [|cbn; auto].
  exec. destruct (os_path_exists os p (world st)); [|cbn; auto].
  unfold bind, rmtree. cbn [result trace final world temp_dir].
  destruct (fst (shutil_rmtree os p (world st))) as [e|];
    rewrite log_eq; unfold enabled; try destruct (verbose self); cbn;
    repeat split; auto.
Qed.

(** ** [main] *)

Lemma process_apk_raises_only_from_mkdtemp (os : OS) (self : Self) input_dir output_apk install
    keystore (s : St (World os)) e :
  result (process_apk os self input_dir output_apk install keystore s) = Raise e ->
  missing_in os (world s) = []
  /\ fst (tempfile_mkdtemp os "apkreforge_" (world s)) = inr e.
Proof.
  intros Hr.
  destruct (missing_in os (world s)) as [|t ts] eqn:Hmiss.
  - split; [reflexivity|].
    destruct (fst (tempfile_mkdtemp os "apkreforge_" (world s))) as [d|e'] eqn:Hd.
    + destruct (process_apk_phases os self input_dir output_apk install keystore s d
                  Hmiss Hd) as (b1 & b2 & b3 & _ & _ & _ & _ & Hres).
      rewrite Hres in Hr. discriminate.
    + destruct (process_apk_mkdtemp_raises os self input_dir output_apk install
                  keystore s e' Hmiss Hd) as (pre & Heq & _).
      rewrite Heq in Hr. cbn [result] in Hr. congruence.
  - assert (Hne : missing_in os (world s) <> []) by (rewrite Hmiss; discriminate).
    destruct (process_apk_missing os self input_dir output_apk install keystore s Hne)
      as (Hres & _).
    rewrite Hres in Hr. discriminate.
Qed.

Section Main.

Variable h : Host.
Variable args : Args.
Variable st : St (World (base h)).

Let made := os_makedirs h (output_dir_of (args_output args)) (world st).
Let abs_in := os_path_abspath_arg h (args_input args) (snd made).
Let abs_out := os_path_abspath_arg h (args_output args) (snd made).
Let run (i o : string) :=
  process_apk (base h) (APKReforge (base h) (args_verbose args)) i o
    (args_install args) (args_keystore args) (mkSt (snd made) None).

Lemma bind_isdir {B} p (k : bool -> M (World (base h)) B) s :
  bind (isdir h p) k s = prepend [] (k (os_path_isdir h p (world s)) s).
Proof. reflexivity. Qed.

Lemma bind_new_object {B} (k : unit -> M (World (base h)) B) s :
  bind (new_object (base h)) k s = prepend [] (k tt (mkSt (world s) None)).
Proof. reflexivity. Qed.

Lemma prepend_nil {A} (r : Exec (World (base h)) A) : prepend [] r = r.
Proof. now destruct r. Qed.

Lemma bind_abspath_arg {B} p (k : string -> M (World (base h)) B) s :
  bind (abspath_arg h p) k s
  = match os_path_abspath_arg h p (world s) with
    | inl a => k a s
    | inr e => mkExec (Raise e) [] s
    end.
Proof.
  destruct (os_path_abspath_arg h p (world s)) as [a|e] eqn:E.
  - assert (H : abspath_arg h p s = mkExec (Return a) [] s)
      by (unfold abspath_arg; now rewrite E).
    now rewrite (bind_eq H), prepend_nil.
  - apply bind_raise. unfold abspath_arg. now rewrite E.
Qed.

Lemma main_not_a_directory :
  os_path_isdir h (args_input args) (world st) = false ->
  main h args st
  = mkExec (Return 1%Z) [Print (directory_not_found_msg (args_input args))] st.
Proof.
  intros H. unfold main. rewrite bind_isdir, H. reflexivity.
Qed.

Lemma main_makedirs_raises e :
  os_path_isdir h (args_input args) (world st) = true ->
  fst made = Some e ->
  main h args st = mkExec (Raise e) [] (mkSt (snd made) (temp_dir st)).
Proof.
  intros H He. unfold main. rewrite bind_isdir, H, prepend_nil. cbn [negb].
  apply bind_raise. unfold makedirs. fold made. now rewrite He.
Qed.

Lemma main_runs :
  os_path_isdir h (args_input args) (world st) = true ->
  fst made = None ->
  main h args st
  = match abs_in with
    | inr e => mkExec (Raise e) [] (mkSt (snd made) None)
    | inl i =>
        match abs_out with
        | inr e => mkExec (Raise e) [] (mkSt (snd made) None)
        | inl o =>
            mkExec
              match result (run i o) with
              | Return success => Return (if success then 0%Z else 1%Z)
              | Raise e => Raise e
              end
              (trace (run i o)) (final (run i o))
        end
    end.
Proof.
  intros H He. unfold main. rewrite bind_isdir, H, prepend_nil. cbn [negb].
  assert (Hm : makedirs h (output_dir_of (args_output args)) st
               = mkExec (Return tt) [] (mkSt (snd made) (temp_dir st))).
  { unfold makedirs. fold made. now rewrite He. }
  rewrite (bind_eq Hm), prepend_nil.
  rewrite bind_new_object, prepend_nil. cbn [world].
  rewrite bind_abspath_arg. cbn [world]. fold abs_in.
  destruct abs_in as [i|e]; [|reflexivity].
  rewrite bind_abspath_arg. cbn [world]. fold abs_out.
  destruct abs_out as [o|e]; [|reflexivity].
  unfold bind. change (process_apk _ _ _ _ _ _ _) with (run i o).
  generalize (run i o). intros [[b|e'] tr fin]; cbn [result trace final ret];
    rewrite ?app_nil_r; reflexivity.
Qed.

End Main.

(** The exit status of [main] is 0 exactly when the input is a directory,
    the output directory could be made, the absolute paths of the two
    arguments could be computed and [process_apk], called with them on a
    fresh object, returned [True]; otherwise it is 1, unless an exception
    escapes, which only [os.makedirs], [os.path.abspath] and
    [tempfile.mkdtemp] can cause.  When the input is not a directory one
    line is printed and nothing else happens.  When [os.path.abspath]
    raises on an argument, its exception escapes [main] before anything of
    the pipeline has run. *)
Theorem main_exit_status (h : Host) (args : Args) (st : St (World (base h))) :
  let made := os_makedirs h (output_dir_of (args_output args)) (world st) in
  let abs_in := os_path_abspath_arg h (args_input args) (snd made) in
  let abs_out := os_path_abspath_arg h (args_output args) (snd made) in
  let run := fun i o =>
    process_apk (base h) (APKReforge (base h) (args_verbose args)) i o
      (args_install args) (args_keystore args) (mkSt (snd made) None) in
  let r := main h args st in
  (result r = Return 0%Z <->
   os_path_isdir h (args_input args) (world st) = true
   /\ fst made = None
   /\ exists i o, abs_in = inl i /\ abs_out = inl o /\ result (run i o) = Return true)
  /\ (result r = Return 0%Z \/ result r = Return 1%Z
      \/ exists e, result r = Raise e
           /\ (fst made = Some e \/ abs_in = inr e \/ abs_out = inr e
               \/ fst (tempfile_mkdtemp (base h) "apkreforge_" (snd made)) = inr e))
  /\ (os_path_isdir h (args_input args) (world st) = false ->
      r = mkExec (Return 1%Z) [Print (directory_not_found_msg (args_input args))] st)
  /\ (os_path_isdir h (args_input args) (world st) = true -> fst made = None ->
      forall e,
        abs_in = inr e \/ ((exists i, abs_in = inl i) /\ abs_out = inr e) ->
        result r = Raise e /\ trace r = []).
Proof.
  intros made abs_in abs_out run r.
  destruct (os_path_isdir h (args_input args) (world st)) eqn:Hdir.
  - destruct (fst made) as [e|] eqn:Hm.
    + unfold r. rewrite (main_makedirs_raises h args st e Hdir Hm). cbn [result].
      split; [split; [discriminate|intros (_ & H & _); congruence]|].
      split; [right; right; exists e; auto|].
      split; discriminate.
    + unfold r. rewrite (main_runs h args st Hdir Hm). fold made abs_in abs_out.
      destruct abs_in as [i|e] eqn:Ei.
      2: { cbn [result trace].
           split; [split; [discriminate|intros (_ & _ & i & o & H & _); discriminate]|].
           split; [right; right; exists e; auto|].
           split; [discriminate|].
           intros _ _ e' [[= <-]|((i & H) & _)]; [auto|discriminate]. }
      destruct abs_out as [o|e] eqn:Eo.
      2: { cbn [result trace].
           split; [split; [discriminate|
                           intros (_ & _ & i' & o & _ & H & _); discriminate]|].
           split; [right; right; exists e; auto|].
           split; [discriminate|].
           intros _ _ e' [H|(_ & [= <-])]; [discriminate|auto]. }
      cbn [result trace final]. change (process_apk _ _ _ _ _ _ _) with (run i o).
      destruct (result (run i o)) as [[|]|e] eqn:Hr.
      * split; [split; [intros _; repeat split; eauto|reflexivity]|].
        split; [auto|]. split; [discriminate|].
        intros _ _ e' [H|(_ & H)]; discriminate.
      * split; [split; [discriminate|
                        intros (_ & _ & i' & o' & [= <-] & [= <-] & H); congruence]|].
        split; [auto|]. split; [discriminate|].
        intros _ _ e' [H|(_ & H)]; discriminate.
      * split; [split; [discriminate|
                        intros (_ & _ & i' & o' & [= <-] & [= <-] & H); congruence]|].
        split.
        { right. right. exists e. split; [reflexivity|].
          do 3 right.
          exact (proj2 (process_apk_raises_only_from_mkdtemp (base h)
                          (APKReforge (base h) (args_verbose args)) i o
                          (args_install args) (args_keystore args)
                          (mkSt (snd made) None) e Hr)). }
        split; [discriminate|].
        intros _ _ e' [H|(_ & H)]; discriminate.
  - unfold r. rewrite (main_not_a_directory h args st Hdir). cbn [result].
    split; [split; [discriminate|intros (H & _); congruence]|].
    split; [auto|]. split; [auto|discriminate].
Qed.

(** [main] makes the output directory before the tools are looked up: when
    the absolute paths of the arguments can be computed and a tool is
    missing, the run ends with status 1 and without any child process, but
    in the world [os.makedirs] has left. *)
Theorem output_directory_made_before_dependency_check
    (h : Host) (args : Args) (st : St (World (base h))) (i o : string) :
  let made := os_makedirs h (output_dir_of (args_output args)) (world st) in
  os_path_isdir h (args_input args) (world st) = true ->
  fst made = None ->
  os_path_abspath_arg h (args_input args) (snd made) = inl i ->
  os_path_abspath_arg h (args_output args) (snd made) = inl o ->
  missing_in (base h) (snd made) <> [] ->
  let r := main h args st in
  result r = Return 1%Z
  /\ spawns (trace r) = [] /\ mkdtemps (trace r) = []
  /\ world (final r) = snd made
  /\ errors (trace r)
     = (map missing_msg (missing_in (base h) (snd made))
        ++ [missing_dependencies_msg (missing_in (base h) (snd made))])%list.
Proof.
  intros made Hdir Hm Hi Ho Hmiss r. unfold r.
  rewrite (main_runs h args st Hdir Hm). fold made. rewrite Hi, Ho.
  cbn [result trace final].
  match goal with
  | |- context [process_apk (base h) ?self ?i ?o ?ins ?k ?s] =>
      destruct (process_apk_missing (base h) self i o ins k s Hmiss)
        as (Hres & Hfin & Hout & Herr & _)
  end.
  rewrite Hres, Hfin. cbn [world].
  destruct (output_no_effect (base h) _ (snd made) Hout) as (_ & Hs & Hmk & _).
  auto.
Qed.

Lemma output_directory_witness :
  let h := sim_host Witness.two_missing in
  let args := {| args_input := "/work/app"; args_output := "/work/out/final.apk";
                 args_install := false; args_keystore := None;
                 args_verbose := false |} in
  let r := main h args (init [("/work/app", "")]) in
  result r = Return 1%Z
  /\ Sim.exists_ "/work/out" (world (final r)) = true.
Proof.
  cbv zeta.
  destruct (output_directory_made_before_dependency_check
              (sim_host Witness.two_missing)
              {| args_input := "/work/app"; args_output := "/work/out/final.apk";
                 args_install := false; args_keystore := None;
                 args_verbose := false |}
              (init [("/work/app", "")]) "/work/app" "/work/out/final.apk")
    as (Hr & _ & _ & Hw & _);
    [vm_compute; reflexivity|vm_compute; reflexivity|vm_compute; reflexivity
    |vm_compute; reflexivity|vm_compute; discriminate|].
  split; [exact Hr|]. rewrite Hw. vm_compute. reflexivity.
Defined.

(** ** What the verbose flag changes *)

Lemma essential_spawns tr : spawns (filter essential tr) = spawns tr.
Proof.
  induction tr as [|e tr IH]; [reflexivity|].
  destruct e as [| [] | | |]; cbn; now rewrite ?IH.
Qed.

Lemma essential_mkdtemps tr : mkdtemps (filter essential tr) = mkdtemps tr.
Proof.
  induction tr as [|e tr IH]; [reflexivity|].
  destruct e as [| [] | | |]; cbn; now rewrite ?IH.
Qed.

Lemma essential_rmtrees tr : rmtrees (filter essential tr) = rmtrees tr.
Proof.
  induction tr as [|e tr IH]; [reflexivity|].
  destruct e as [| [] | | |]; cbn; now rewrite ?IH.
Qed.

Lemma essential_errors tr : errors (filter essential tr) = errors tr.
Proof.
  induction tr as [|e tr IH]; [reflexivity|].
  destruct e as [| [] | | |]; cbn; now rewrite ?IH.
Qed.

Lemma agree_refl {W A} (m : M W A) : agree m m.
Proof. intros st. auto. Qed.

Lemma agree_bind {W A B} (m1 m2 : M W A) (k1 k2 : A -> M W B) :
  agree m1 m2 -> (forall a, agree (k1 a) (k2 a)) ->
  agree (bind m1 k1) (bind m2 k2).
Proof.
  intros H K st. unfold bind. destruct (H st) as (Hr & Hf & Ht).
  rewrite <- Hr, <- Hf. destruct (result (m1 st)) as [a|e]; cbn [result trace final].
  - destruct (K a (final (m1 st))) as (Kr & Kf & Kt).
    rewrite !filter_app, Ht, Kt. auto.
  - auto.
Qed.

Lemma agree_try_except {W A} (m1 m2 : M W A) (h1 h2 : string -> M W A) :
  agree m1 m2 -> (forall e, agree (h1 e) (h2 e)) ->
  agree (try_except m1 h1) (try_except m2 h2).
Proof.
  intros H K st. unfold try_except. destruct (H st) as (Hr & Hf & Ht).
  rewrite <- Hr, <- Hf. destruct (result (m1 st)) as [a|e] eqn:E;
    cbn [result trace final].
  - rewrite <- Hr, E. auto.
  - destruct (K e (final (m1 st))) as (Kr & Kf & Kt).
    rewrite !filter_app, Ht, Kt. auto.
Qed.

Lemma agree_try_finally {W A} (m1 m2 : M W A) (f1 f2 : M W unit) :
  agree m1 m2 -> agree f1 f2 ->
  agree (try_finally m1 f1) (try_finally m2 f2).
Proof.
  intros H K st. unfold try_finally. cbn [result trace final].
  destruct (H st) as (Hr & Hf & Ht). rewrite <- Hr, <- Hf.
  destruct (K (final (m1 st))) as (Kr & Kf & Kt).
  rewrite !filter_app, Ht, Kt, Kr, Kf. auto.
Qed.

Lemma hush_ret {W} : hush (@ret W unit tt).
Proof. intros st. auto. Qed.

Lemma hush_bind {W} (m : M W unit) (k : unit -> M W unit) :
  hush m -> hush (k tt) -> hush (bind m k).
Proof.
  intros H K st. unfold bind. destruct (H st) as (Hr & Hf & Ht).
  rewrite Hr, Hf. cbn [result trace final].
  destruct (K st) as (Kr & Kf & Kt). rewrite filter_app, Ht, Kt. auto.
Qed.

Lemma hush_when {W} b (m : M W unit) : hush m -> hush (when b m).
Proof. intros H. destruct b; [exact H|apply hush_ret]. Qed.

Lemma agree_hush {W} (m1 m2 : M W unit) : hush m1 -> hush m2 -> agree m1 m2.
Proof.
  intros H1 H2 st. destruct (H1 st) as (-> & -> & ->).
  destruct (H2 st) as (-> & -> & ->). auto.
Qed.

Lemma agree_when {W} b (m1 m2 : M W unit) :
  agree m1 m2 -> agree (when b m1) (when b m2).
Proof. intros H. destruct b; [exact H|apply agree_refl]. Qed.

Section Verbosity.

Variable os : OS.
Variables self1 self2 : Self.
Hypothesis same_keystore : android_debug_keystore self1 = android_debug_keystore self2.

Lemma hush_log_debug (self : Self) msg : hush (log os self DEBUG msg).
Proof.
  intros st. rewrite log_eq. unfold enabled. destruct (verbose self); cbn; auto.
Qed.

Lemma hush_log_warning (self : Self) msg : hush (log os self WARNING msg).
Proof. intros st. rewrite log_eq. cbn. auto. Qed.

Lemma agree_log lvl msg : agree (log os self1 lvl msg) (log os self2 lvl msg).
Proof.
  destruct lvl; [apply agree_hush; apply hush_log_debug|..];
    intros st; rewrite !log_eq; cbn; auto.
Qed.

Ltac hush_step :=
  first [ apply hush_log_debug | apply hush_log_warning | apply hush_ret
        | apply hush_when | apply hush_bind ].

Ltac agree_step :=
  first
    [ apply agree_log
    | apply agree_bind; [|intros ?]
    | apply agree_try_except; [|intros ?]
    | apply agree_try_finally
    | apply agree_when
    | apply agree_hush; solve [repeat hush_step]
    | match goal with
      | |- agree (if ?c then _ else _) (if ?c then _ else _) => destruct c
      | |- agree (match ?o with Completed _ _ _ => _ | _ => _ end) _ => destruct o
      | |- agree (match ?o with Some _ => _ | None => _ end) _ => destruct o
      | |- agree (match ?l with [] => _ | _ :: _ => _ end) _ => destruct l
      end
    | apply agree_refl ].

Lemma agree_check_dependencies_loop ts deps :
  agree (check_dependencies_loop os self1 ts deps)
        (check_dependencies_loop os self2 ts deps).
Proof.
  revert deps. induction ts as [|t ts IH]; intros deps; cbn [check_dependencies_loop].
  - apply agree_refl.
  - repeat first [apply IH | agree_step].
Qed.

Lemma agree_run_command cmd msg :
  agree (run_command os self1 cmd msg) (run_command os self2 cmd msg).
Proof. unfold run_command. repeat agree_step. Qed.

Lemma agree_rebuild_apk input_dir output_apk :
  agree (rebuild_apk os self1 input_dir output_apk)
        (rebuild_apk os self2 input_dir output_apk).
Proof. unfold rebuild_apk. repeat first [apply agree_run_command | agree_step]. Qed.

Lemma agree_align_apk input_apk output_apk :
  agree (align_apk os self1 input_apk output_apk)
        (align_apk os self2 input_apk output_apk).
Proof. unfold align_apk. repeat first [apply agree_run_command | agree_step]. Qed.

Lemma agree_sign_apk input_apk output_apk keystore :
  agree (sign_apk os self1 input_apk output_apk keystore)
        (sign_apk os self2 input_apk output_apk keystore).
Proof.
  unfold sign_apk, keystore_or_default, get_keystore. rewrite same_keystore.
  repeat first [apply agree_run_command | agree_step].
Qed.

Lemma agree_install_loop devices apk_path success :
  agree (install_loop os self1 devices apk_path success)
        (install_loop os self2 devices apk_path success).
Proof.
  revert success. induction devices as [|dv ds IH]; intros success; cbn [install_loop].
  - apply agree_refl.
  - repeat first [apply IH | apply agree_run_command | agree_step].
Qed.

Lemma agree_install_apk apk_path :
  agree (install_apk os self1 apk_path) (install_apk os self2 apk_path).
Proof.
  unfold install_apk. repeat first [apply agree_install_loop | agree_step].
Qed.

Lemma agree_cleanup : agree (cleanup os self1) (cleanup os self2).
Proof. unfold cleanup. repeat agree_step. Qed.

Lemma agree_process_apk input_dir output_apk install keystore :
  agree (process_apk os self1 input_dir output_apk install keystore)
        (process_apk os self2 input_dir output_apk install keystore).
Proof.
  unfold process_apk, check_dependencies, try_block, pipeline, steps, critical_error,
    after_steps.
  cbn [run_steps].
  repeat first
    [ apply agree_check_dependencies_loop | apply agree_rebuild_apk
    | apply agree_align_apk | apply agree_sign_apk | apply agree_install_apk
    | apply agree_cleanup | agree_step ].
Qed.

End Verbosity.

(** The verbose flag changes nothing but the log records of level [DEBUG]
    and [WARNING]: two runs of [process_apk] from the same state that differ
    only in the flag return the same, end in the same state, spawn the same
    children with the same outcomes, allocate and remove the same
    directories, and print the same lines and log the same [INFO] and
    [ERROR] records in the same order. *)
Theorem verbose_changes_only_the_log
    (os : OS) (v1 v2 : bool) (input_dir output_apk : string) (install : bool)
    (keystore : option string) (st : St (World os)) :
  let r1 := process_apk os (APKReforge os v1) input_dir output_apk install keystore st in
  let r2 := process_apk os (APKReforge os v2) input_dir output_apk install keystore st in
  result r1 = result r2 /\ final r1 = final r2
  /\ filter essential (trace r1) = filter essential (trace r2)
  /\ spawns (trace r1) = spawns (trace r2)
  /\ mkdtemps (trace r1) = mkdtemps (trace r2)
  /\ rmtrees (trace r1) = rmtrees (trace r2)
  /\ errors (trace r1) = errors (trace r2).
Proof.
  cbn zeta.
  destruct (agree_process_apk os (APKReforge os v1) (APKReforge os v2) eq_refl
              input_dir output_apk install keystore st) as (Hr & Hf & Ht).
  split; [exact Hr|]. split; [exact Hf|]. split; [exact Ht|].
  split; [|split; [|split]].
  - rewrite <- essential_spawns, Ht. apply essential_spawns.
  - rewrite <- essential_mkdtemps, Ht. apply essential_mkdtemps.
  - rewrite <- essential_rmtrees, Ht. apply essential_rmtrees.
  - rewrite <- essential_errors, Ht. apply essential_errors.
Qed.
